(** * DirectX 11 exclusive-fullscreen triangle: a model of [main.cpp]

    The program is a single translation unit: a [MainWindow] class whose
    methods create a Win32 window, bring up a Direct3D 11 device, swap chain
    and pipeline, and then run a message loop that renders one frame whenever
    no message is pending.

    The embedding is shallow.  Every member function of [MainWindow] becomes
    a computation in a small monad that threads the object's members, the
    function-static [Time] of [renderFrame], and the log of the calls the
    program has made to Win32, DXGI, Direct3D and the C++ runtime.  What
    those calls answer (result codes, objects stored through out-parameters,
    screen metrics, queued messages) is not the program's to decide: it is
    supplied by an [OS] oracle that sees the whole call history.

    A method call through a pointer needs an object at the other end.  The
    program tests few of the pointers it calls through, so the model does:
    a call through a pointer that is null, or that holds no object (a
    member that was never assigned keeps whatever the storage held), is not
    made; the run ends there, as the process does with an access violation.
    Which addresses hold objects is the environment's to say.

    Window messages that the system sends to [WindowProc] from inside
    another system call are outside the model; the statements about
    [WindowProc] hold for any message, whoever delivers it. *)

From Stdlib Require Import ZArith List String Bool Lia Floats.SpecFloat.
Import ListNotations.

Local Open Scope string_scope.
Local Open Scope list_scope.
Local Open Scope Z_scope.

(** ** Scalars *)

(** [float]: IEEE 754 binary32, through the reference operations of
    [SpecFloat] at precision 24 and maximal exponent 128. *)
Module Float32.
Definition prec : Z := 24.
Definition emax : Z := 128.
Definition float : Type := spec_float.

(** The binary32 value nearest to [m * 2^e]. *)
Definition lit (m e : Z) : float := binary_normalize prec emax m e false.
Definition zero : float := S754_zero false.
Definition add : float -> float -> float := SFadd prec emax.
Definition opp : float -> float := SFopp.

(** [static_cast<float>(n)] for an unsigned integer [n]. *)
Definition of_uint (n : Z) : float := lit n 0.
End Float32.
Definition float : Type := Float32.float.

(** Pointers and handles are addresses; [nullptr] is address zero. *)
Definition ptr : Type := N.
Definition nullptr : ptr := 0%N.
Definition is_null (p : ptr) : bool := N.eqb p nullptr.

Definition HRESULT : Type := Z.
Definition S_OK : HRESULT := 0.
(** [FAILED(hr)] is [((HRESULT)(hr)) < 0]. *)
Definition FAILED (hr : HRESULT) : bool := hr <? 0.

(** [UINT] conversion of a [LONG] difference: reduction modulo [2^32]. *)
Definition to_UINT (z : Z) : Z := z mod 2 ^ 32.

(** Constants of the Windows SDK headers used by the program (winuser.h). *)
Definition WM_DESTROY : Z := 0x0002.
Definition WM_SIZE : Z := 0x0005.
Definition WM_QUIT : Z := 0x0012.
Definition WM_KEYDOWN : Z := 0x0100.
Definition VK_F11 : Z := 0x7A.
Definition SM_CXSCREEN : Z := 0.
Definition SM_CYSCREEN : Z := 1.
Definition PM_REMOVE : Z := 0x0001.
Definition GWLP_USERDATA : Z := -21.
Definition WS_POPUP : Z := 0x80000000.
(** [CW_USEDEFAULT] is [((int)0x80000000)]. *)
Definition CW_USEDEFAULT : Z := -2147483648.

(** ** Data passed to the graphics API *)

Record MSG := {
  hwnd : ptr;
  message : Z;
  wParam : Z;
  lParam : Z;
  time : Z;
  pt : Z * Z
}.

(** [MSG msg = {};] *)
Definition MSG_zero : MSG :=
  {| hwnd := nullptr; message := 0; wParam := 0; lParam := 0;
     time := 0; pt := (0, 0) |}.

Record RECT := { left : Z; top : Z; right : Z; bottom : Z }.

Record XMFLOAT3 := { x3 : float; y3 : float; z3 : float }.
Record XMFLOAT4 := { x4 : float; y4 : float; z4 : float; w4 : float }.

Record Vertex := { position : XMFLOAT3; color : XMFLOAT4 }.

(** [XMMATRIX]: four rows of four floats. *)
Record XMMATRIX := { r0 : XMFLOAT4; r1 : XMFLOAT4; r2 : XMFLOAT4; r3 : XMFLOAT4 }.

(** DirectXMath is an external library: the two matrix functions
    [renderFrame] uses are an interface the model is parameterised by. *)
Class DirectXMath := {
  XMMatrixRotationZ : float -> XMMATRIX;
  XMMatrixTranspose : XMMATRIX -> XMMATRIX
}.

(** A constant buffer for passing the world-view-projection matrix. *)
Record CBUFFER := { FinalMatrix : XMMATRIX }.

(** [sizeof(Vertex)]: seven packed 4-byte floats. *)
Definition sizeof_Vertex : Z := 28.
(** [sizeof(CBUFFER)]: one 4x4 matrix of 4-byte floats. *)
Definition sizeof_CBUFFER : Z := 64.

Inductive DXGI_FORMAT :=
| DXGI_FORMAT_UNKNOWN
| DXGI_FORMAT_R8G8B8A8_UNORM
| DXGI_FORMAT_R32G32B32_FLOAT
| DXGI_FORMAT_R32G32B32A32_FLOAT.

Inductive D3D11_BIND_FLAG :=
| D3D11_BIND_VERTEX_BUFFER
| D3D11_BIND_CONSTANT_BUFFER.

Inductive D3D11_USAGE := D3D11_USAGE_DEFAULT.

Inductive D3D11_PRIMITIVE_TOPOLOGY :=
| D3D11_PRIMITIVE_TOPOLOGY_UNDEFINED
| D3D11_PRIMITIVE_TOPOLOGY_TRIANGLELIST.

Inductive DXGI_SCALING := DXGI_SCALING_NONE.
Inductive DXGI_SWAP_EFFECT := DXGI_SWAP_EFFECT_FLIP_DISCARD.
Inductive DXGI_ALPHA_MODE := DXGI_ALPHA_MODE_IGNORE.
Inductive DXGI_USAGE := DXGI_USAGE_RENDER_TARGET_OUTPUT.
Inductive D3D11_INPUT_CLASSIFICATION := D3D11_INPUT_PER_VERTEX_DATA.

Inductive IID := IID_IDXGIDevice | IID_IDXGIFactory2 | IID_ID3D11Texture2D.

Record DXGI_SWAP_CHAIN_DESC1 := {
  scd_Width : Z;
  scd_Height : Z;
  scd_Format : DXGI_FORMAT;
  scd_Stereo : bool;
  scd_SampleCount : Z;
  scd_SampleQuality : Z;
  scd_BufferUsage : DXGI_USAGE;
  scd_BufferCount : Z;
  scd_Scaling : DXGI_SCALING;
  scd_SwapEffect : DXGI_SWAP_EFFECT;
  scd_AlphaMode : DXGI_ALPHA_MODE;
  scd_Flags : Z
}.

Record D3D11_VIEWPORT := {
  TopLeftX : float;
  TopLeftY : float;
  Width : float;
  Height : float;
  MinDepth : float;
  MaxDepth : float
}.

Record D3D11_BUFFER_DESC := {
  ByteWidth : Z;
  Usage : D3D11_USAGE;
  BindFlags : D3D11_BIND_FLAG
}.

Record D3D11_INPUT_ELEMENT_DESC := {
  SemanticName : string;
  SemanticIndex : Z;
  Format : DXGI_FORMAT;
  InputSlot : Z;
  AlignedByteOffset : Z;
  InputSlotClass : D3D11_INPUT_CLASSIFICATION;
  InstanceDataStepRate : Z
}.

(** The two HLSL sources compiled at start-up. *)
Inductive ShaderSource := vertexShaderSrc | pixelShaderSrc.

(** ** The object, the calls it makes, and the environment *)

(** The data members of [class MainWindow]. *)
Record MainWindow := {
  is_fullscreen_ : bool;
  hWnd_ : ptr;
  pRenderTargetView_ : ptr;
  pDevice_ : ptr;
  pDeviceContext_ : ptr;
  pSwapChain_ : ptr;
  pVertexShader_ : ptr;
  pPixelShader_ : ptr;
  pInputLayout_ : ptr;
  pVertexBuffer_ : ptr;
  pConstBuffer_ : ptr
}.

Definition set_is_fullscreen_ (v : bool) (w : MainWindow) : MainWindow :=
  {| is_fullscreen_ := v; hWnd_ := hWnd_ w;
     pRenderTargetView_ := pRenderTargetView_ w; pDevice_ := pDevice_ w;
     pDeviceContext_ := pDeviceContext_ w; pSwapChain_ := pSwapChain_ w;
     pVertexShader_ := pVertexShader_ w; pPixelShader_ := pPixelShader_ w;
     pInputLayout_ := pInputLayout_ w; pVertexBuffer_ := pVertexBuffer_ w;
     pConstBuffer_ := pConstBuffer_ w |}.

Definition set_hWnd_ (v : ptr) (w : MainWindow) : MainWindow :=
  {| is_fullscreen_ := is_fullscreen_ w; hWnd_ := v;
     pRenderTargetView_ := pRenderTargetView_ w; pDevice_ := pDevice_ w;
     pDeviceContext_ := pDeviceContext_ w; pSwapChain_ := pSwapChain_ w;
     pVertexShader_ := pVertexShader_ w; pPixelShader_ := pPixelShader_ w;
     pInputLayout_ := pInputLayout_ w; pVertexBuffer_ := pVertexBuffer_ w;
     pConstBuffer_ := pConstBuffer_ w |}.

Definition set_pRenderTargetView_ (v : ptr) (w : MainWindow) : MainWindow :=
  {| is_fullscreen_ := is_fullscreen_ w; hWnd_ := hWnd_ w;
     pRenderTargetView_ := v; pDevice_ := pDevice_ w;
     pDeviceContext_ := pDeviceContext_ w; pSwapChain_ := pSwapChain_ w;
     pVertexShader_ := pVertexShader_ w; pPixelShader_ := pPixelShader_ w;
     pInputLayout_ := pInputLayout_ w; pVertexBuffer_ := pVertexBuffer_ w;
     pConstBuffer_ := pConstBuffer_ w |}.

Definition set_pDevice_ (v : ptr) (w : MainWindow) : MainWindow :=
  {| is_fullscreen_ := is_fullscreen_ w; hWnd_ := hWnd_ w;
     pRenderTargetView_ := pRenderTargetView_ w; pDevice_ := v;
     pDeviceContext_ := pDeviceContext_ w; pSwapChain_ := pSwapChain_ w;
     pVertexShader_ := pVertexShader_ w; pPixelShader_ := pPixelShader_ w;
     pInputLayout_ := pInputLayout_ w; pVertexBuffer_ := pVertexBuffer_ w;
     pConstBuffer_ := pConstBuffer_ w |}.

Definition set_pDeviceContext_ (v : ptr) (w : MainWindow) : MainWindow :=
  {| is_fullscreen_ := is_fullscreen_ w; hWnd_ := hWnd_ w;
     pRenderTargetView_ := pRenderTargetView_ w; pDevice_ := pDevice_ w;
     pDeviceContext_ := v; pSwapChain_ := pSwapChain_ w;
     pVertexShader_ := pVertexShader_ w; pPixelShader_ := pPixelShader_ w;
     pInputLayout_ := pInputLayout_ w; pVertexBuffer_ := pVertexBuffer_ w;
     pConstBuffer_ := pConstBuffer_ w |}.

Definition set_pSwapChain_ (v : ptr) (w : MainWindow) : MainWindow :=
  {| is_fullscreen_ := is_fullscreen_ w; hWnd_ := hWnd_ w;
     pRenderTargetView_ := pRenderTargetView_ w; pDevice_ := pDevice_ w;
     pDeviceContext_ := pDeviceContext_ w; pSwapChain_ := v;
     pVertexShader_ := pVertexShader_ w; pPixelShader_ := pPixelShader_ w;
     pInputLayout_ := pInputLayout_ w; pVertexBuffer_ := pVertexBuffer_ w;
     pConstBuffer_ := pConstBuffer_ w |}.

Definition set_pVertexShader_ (v : ptr) (w : MainWindow) : MainWindow :=
  {| is_fullscreen_ := is_fullscreen_ w; hWnd_ := hWnd_ w;
     pRenderTargetView_ := pRenderTargetView_ w; pDevice_ := pDevice_ w;
     pDeviceContext_ := pDeviceContext_ w; pSwapChain_ := pSwapChain_ w;
     pVertexShader_ := v; pPixelShader_ := pPixelShader_ w;
     pInputLayout_ := pInputLayout_ w; pVertexBuffer_ := pVertexBuffer_ w;
     pConstBuffer_ := pConstBuffer_ w |}.

Definition set_pPixelShader_ (v : ptr) (w : MainWindow) : MainWindow :=
  {| is_fullscreen_ := is_fullscreen_ w; hWnd_ := hWnd_ w;
     pRenderTargetView_ := pRenderTargetView_ w; pDevice_ := pDevice_ w;
     pDeviceContext_ := pDeviceContext_ w; pSwapChain_ := pSwapChain_ w;
     pVertexShader_ := pVertexShader_ w; pPixelShader_ := v;
     pInputLayout_ := pInputLayout_ w; pVertexBuffer_ := pVertexBuffer_ w;
     pConstBuffer_ := pConstBuffer_ w |}.

Definition set_pInputLayout_ (v : ptr) (w : MainWindow) : MainWindow :=
  {| is_fullscreen_ := is_fullscreen_ w; hWnd_ := hWnd_ w;
     pRenderTargetView_ := pRenderTargetView_ w; pDevice_ := pDevice_ w;
     pDeviceContext_ := pDeviceContext_ w; pSwapChain_ := pSwapChain_ w;
     pVertexShader_ := pVertexShader_ w; pPixelShader_ := pPixelShader_ w;
     pInputLayout_ := v; pVertexBuffer_ := pVertexBuffer_ w;
     pConstBuffer_ := pConstBuffer_ w |}.

Definition set_pVertexBuffer_ (v : ptr) (w : MainWindow) : MainWindow :=
  {| is_fullscreen_ := is_fullscreen_ w; hWnd_ := hWnd_ w;
     pRenderTargetView_ := pRenderTargetView_ w; pDevice_ := pDevice_ w;
     pDeviceContext_ := pDeviceContext_ w; pSwapChain_ := pSwapChain_ w;
     pVertexShader_ := pVertexShader_ w; pPixelShader_ := pPixelShader_ w;
     pInputLayout_ := pInputLayout_ w; pVertexBuffer_ := v;
     pConstBuffer_ := pConstBuffer_ w |}.

Definition set_pConstBuffer_ (v : ptr) (w : MainWindow) : MainWindow :=
  {| is_fullscreen_ := is_fullscreen_ w; hWnd_ := hWnd_ w;
     pRenderTargetView_ := pRenderTargetView_ w; pDevice_ := pDevice_ w;
     pDeviceContext_ := pDeviceContext_ w; pSwapChain_ := pSwapChain_ w;
     pVertexShader_ := pVertexShader_ w; pPixelShader_ := pPixelShader_ w;
     pInputLayout_ := pInputLayout_ w; pVertexBuffer_ := pVertexBuffer_ w;
     pConstBuffer_ := v |}.

(** [MainWindow::MainWindow() : is_fullscreen_(false) {}].  The constructor
    initialises the flag only; every pointer member keeps whatever the
    storage of the automatic object in [main] held, here [storage]. *)
Definition MainWindow_ctor (storage : MainWindow) : MainWindow :=
  set_is_fullscreen_ false storage.


(** Calls out of the program.  Methods of COM interfaces carry the receiver
    as [this]. *)
Inductive Call :=
(* Win32 *)
| GetModuleHandle
| GetSystemMetrics (nIndex : Z)
| RegisterClass (lpszClassName : string)
| CreateWindowExA (dwExStyle : Z) (lpClassName lpWindowName : string)
    (dwStyle X Y nWidth nHeight : Z)
| ShowWindow (hWnd : ptr) (nCmdShow : Z)
| SetWindowLongPtr (hWnd : ptr) (nIndex : Z)
| GetWindowLongPtr (hWnd : ptr) (nIndex : Z)
| PeekMessage (wRemoveMsg : Z)
| TranslateMessage (msg : MSG)
| DispatchMessage (msg : MSG)
| GetClientRect (hWnd : ptr)
| PostQuitMessage (nExitCode : Z)
| DefWindowProc (hWnd : ptr) (Msg wPar lPar : Z)
(* C++ runtime *)
| cerr (line : string)
| exit (status : Z)
(* Direct3D 11, DXGI, D3DCompiler *)
| D3D11CreateDevice
| QueryInterface (this : ptr) (riid : IID)
| GetAdapter (this : ptr)
| GetParent (this : ptr) (riid : IID)
| Release (this : ptr)
| CreateSwapChainForHwnd (this pDevice hWnd : ptr)
    (pDesc : DXGI_SWAP_CHAIN_DESC1)
| GetBuffer (this : ptr) (Buffer : Z) (riid : IID)
| CreateRenderTargetView (this pResource : ptr)
| OMSetRenderTargets (this : ptr) (NumViews : Z) (pRTV : ptr)
| RSSetViewports (this : ptr) (NumViewports : Z) (viewport : D3D11_VIEWPORT)
| SetFullscreenState (this : ptr) (Fullscreen : bool)
| ResizeBuffers (this : ptr) (BufferCount W H : Z) (NewFormat : DXGI_FORMAT)
    (SwapChainFlags : Z)
| D3DCompile (src : ShaderSource) (pEntrypoint pTarget : string)
| CreateVertexShader (this blob : ptr)
| CreatePixelShader (this blob : ptr)
| CreateInputLayout (this : ptr) (layout : list D3D11_INPUT_ELEMENT_DESC)
    (blob : ptr)
| IASetInputLayout (this pInputLayout : ptr)
| CreateBuffer (this : ptr) (pDesc : D3D11_BUFFER_DESC)
    (pInitialData : option (list Vertex))
| VSSetConstantBuffers (this : ptr) (StartSlot NumBuffers : Z) (buffer : ptr)
| IASetVertexBuffers (this : ptr) (StartSlot NumBuffers : Z) (buffer : ptr)
    (stride offset : Z)
| IASetPrimitiveTopology (this : ptr) (topology : D3D11_PRIMITIVE_TOPOLOGY)
| UpdateSubresource (this pDstResource : ptr) (pSrcData : CBUFFER)
| ClearRenderTargetView (this pRTV : ptr) (ColorRGBA : list float)
| VSSetShader (this pShader : ptr)
| PSSetShader (this pShader : ptr)
| Draw (this : ptr) (VertexCount StartVertexLocation : Z)
| Present (this : ptr) (SyncInterval Flags : Z).

(** The environment.  Each answer is a function of the calls made so far,
    newest first, the call being answered at the head.

    - [os_hresult]: the [HRESULT] (or [LRESULT]) the call returns;
    - [os_object]: what the call leaves in its [k]-th out-parameter, or the
      handle it returns;
    - [os_metric]: the [int] returned by [GetSystemMetrics];
    - [os_message]: for [PeekMessage], [Some msg] when a message was
      available (removed from the queue and stored in the caller's [MSG],
      the call returning nonzero) and [None] when the queue was empty (the
      call returning zero and leaving the caller's [MSG] as it was);
    - [os_rect]: the rectangle left in the caller's [RECT] by
      [GetClientRect];
    - [blob_text]: the characters a blob's buffer holds, read as a C
      string;
    - [os_valid]: whether an address holds an object whose methods can be
      called. *)
Record OS := {
  os_hresult : list Call -> HRESULT;
  os_object : list Call -> nat -> ptr;
  os_metric : list Call -> Z;
  os_message : list Call -> option MSG;
  os_rect : list Call -> RECT;
  blob_text : ptr -> string;
  os_valid : ptr -> bool
}.

(** A pointer through which a method can be called: not null, and holding
    an object. *)
Definition valid (os : OS) (p : ptr) : bool :=
  negb (is_null p) && os_valid os p.

(** Whether the pointers that a call expression calls methods through are
    all valid: the receiver, and for the three creation calls that read a
    compiled shader the blob too, through [blob->GetBufferPointer()] and
    [blob->GetBufferSize()] in the argument list.  Functions that are not
    methods go through no pointer. *)
Definition live (os : OS) (c : Call) : bool :=
  match c with
  | QueryInterface this _ | GetAdapter this | GetParent this _
  | Release this | CreateSwapChainForHwnd this _ _ _ | GetBuffer this _ _
  | CreateRenderTargetView this _ | OMSetRenderTargets this _ _
  | RSSetViewports this _ _ | SetFullscreenState this _
  | ResizeBuffers this _ _ _ _ _ | IASetInputLayout this _
  | CreateBuffer this _ _ | VSSetConstantBuffers this _ _ _
  | IASetVertexBuffers this _ _ _ _ _ | IASetPrimitiveTopology this _
  | UpdateSubresource this _ _ | ClearRenderTargetView this _ _
  | VSSetShader this _ | PSSetShader this _ | Draw this _ _
  | Present this _ _ => valid os this
  | CreateVertexShader this blob | CreatePixelShader this blob
  | CreateInputLayout this _ blob => valid os this && valid os blob
  | GetModuleHandle | GetSystemMetrics _ | RegisterClass _
  | CreateWindowExA _ _ _ _ _ _ _ _ | ShowWindow _ _ | SetWindowLongPtr _ _
  | GetWindowLongPtr _ _ | PeekMessage _ | TranslateMessage _
  | DispatchMessage _ | GetClientRect _ | PostQuitMessage _
  | DefWindowProc _ _ _ _ | cerr _ | exit _ | D3D11CreateDevice
  | D3DCompile _ _ _ => true
  end.

(** The state of the running program: the [MainWindow] object of [main],
    the function-static [Time] of [renderFrame], and the calls made so far,
    newest first. *)
Record Machine := {
  window : MainWindow;
  Time : float;
  log : list Call
}.

(** A function either returns to its caller, or ends the process through
    [exit], or is stopped where it calls a method through a pointer that is
    not valid: the process dies there, in the machine it had reached. *)
Inductive Outcome (A : Type) :=
| Returned (a : A) (m : Machine)
| Exited (status : Z) (m : Machine)
| Faulted (m : Machine).
Arguments Returned {A} a m.
Arguments Exited {A} status m.
Arguments Faulted {A} m.

(** A run of bounded length either finishes with an outcome or is still
    going, in some machine, when the bound is reached. *)
Inductive Run (A : Type) :=
| Finished (o : Outcome A)
| Running (m : Machine).
Arguments Finished {A} o.
Arguments Running {A} m.

Definition M (A : Type) : Type := OS -> Machine -> Outcome A.

Definition ret {A} (a : A) : M A := fun _ m => Returned a m.

Definition bind {A B} (c : M A) (k : A -> M B) : M B :=
  fun os m =>
    match c os m with
    | Returned a m' => k a os m'
    | Exited s m' => Exited s m'
    | Faulted m' => Faulted m'
    end.

Notation "x <- c ;; k" := (bind c (fun x => k))
  (at level 61, c at next level, right associativity).
Notation "c ;; k" := (bind c (fun _ => k))
  (at level 61, right associativity).

(** Make a call whose answer the program does not look at. *)
Definition api (c : Call) : M unit :=
  fun os m =>
    if live os c
    then Returned tt {| window := window m; Time := Time m; log := c :: log m |}
    else Faulted m.

(** Make a call and take its [HRESULT]. *)
Definition api_hr (c : Call) : M HRESULT :=
  api c ;; (fun os m => Returned (os_hresult os (log m)) m).

(** The value the latest call left in its [k]-th out-parameter. *)
Definition out (k : nat) : M ptr :=
  fun os m => Returned (os_object os (log m) k) m.

(** Read, and assign to, the members of the object. *)
Definition member {A} (f : MainWindow -> A) : M A :=
  fun _ m => Returned (f (window m)) m.

Definition assign {A} (set : A -> MainWindow -> MainWindow) (v : A) : M unit :=
  fun _ m =>
    Returned tt {| window := set v (window m); Time := Time m; log := log m |}.

(** [exit(status)] does not return. *)
Definition exit_ (status : Z) : M unit :=
  fun _ m =>
    Exited status
      {| window := window m; Time := Time m; log := exit status :: log m |}.

(** The remaining answers of the environment to the latest call. *)
Definition metric : M Z :=
  fun os m => Returned (os_metric os (log m)) m.

Definition pending_message : M (option MSG) :=
  fun os m => Returned (os_message os (log m)) m.

Definition client_rect : M RECT :=
  fun os m => Returned (os_rect os (log m)) m.

(** [reinterpret_cast<char*>(blob->GetBufferPointer())], as a C string. *)
Definition buffer_text (blob : ptr) : M string :=
  fun os m => if valid os blob then Returned (blob_text os blob) m else Faulted m.

(** Write a line to standard error. *)
Definition log_error (line : string) : M unit := api (cerr line).

Section Program.

Context {math : DirectXMath}.

(** ** Accessors *)

Definition isFullscreen : M bool := member is_fullscreen_.
Definition hWnd : M ptr := member hWnd_.
Definition device : M ptr := member pDevice_.
Definition deviceCtx : M ptr := member pDeviceContext_.
Definition swapChain : M ptr := member pSwapChain_.
Definition vertexShader : M ptr := member pVertexShader_.
Definition pixelShader : M ptr := member pPixelShader_.
Definition vertexBuffer : M ptr := member pVertexBuffer_.

(** ** [MainWindow::toggleFullscreen] *)

Definition toggleFullscreen : M unit :=
  b <- member is_fullscreen_ ;;
  assign set_is_fullscreen_ (negb b) ;;
  sc <- swapChain ;;
  fs <- isFullscreen ;;
  hr <- api_hr (SetFullscreenState sc fs) ;;
  if FAILED hr then
    log_error "Failed to toggle fullscreen mode." ;;
    ret tt
  else ret tt.

(** ** [MainWindow::releaseResources] *)

Definition releaseResources (render_target_view : ptr) : M unit :=
  if negb (is_null render_target_view) then api (Release render_target_view)
  else ret tt.

(** ** [MainWindow::resizeSwapChain] *)

Definition resize_viewport (width height : Z) : D3D11_VIEWPORT :=
  {| TopLeftX := Float32.zero;
     TopLeftY := Float32.zero;
     Width := Float32.of_uint width;
     Height := Float32.of_uint height;
     MinDepth := Float32.zero;
     MaxDepth := Float32.lit 1 0 |}.

Definition resizeSwapChain (width height : Z) : M HRESULT :=
  (* Release existing resources *)
  rtv <- member pRenderTargetView_ ;;
  releaseResources rtv ;;
  assign set_pRenderTargetView_ nullptr ;;
  (* Resize buffers in swapchain *)
  sc <- swapChain ;;
  hr <- api_hr (ResizeBuffers sc 0 width height DXGI_FORMAT_UNKNOWN 0) ;;
  if FAILED hr then ret hr else
  (* Recreate the render target view *)
  sc <- swapChain ;;
  hr <- api_hr (GetBuffer sc 0 IID_ID3D11Texture2D) ;;
  backBuffer <- out 0 ;;
  if FAILED hr then ret hr else
  dev <- device ;;
  hr <- api_hr (CreateRenderTargetView dev backBuffer) ;;
  rtv <- out 0 ;;
  assign set_pRenderTargetView_ rtv ;;
  if FAILED hr then
    log_error "Failed to create render target view" ;;
    ret hr
  else
  ctx <- deviceCtx ;;
  rtv <- member pRenderTargetView_ ;;
  api (OMSetRenderTargets ctx 1 rtv) ;;
  api (Release backBuffer) ;;
  (* Set up the viewport *)
  ctx <- deviceCtx ;;
  api (RSSetViewports ctx 1 (resize_viewport width height)) ;;
  ret S_OK.

(** ** [MainWindow::initD3D] *)

Definition swapChainDesc : DXGI_SWAP_CHAIN_DESC1 :=
  {| scd_Width := 0;
     scd_Height := 0;
     scd_Format := DXGI_FORMAT_R8G8B8A8_UNORM;
     scd_Stereo := false;
     scd_SampleCount := 1;
     scd_SampleQuality := 0;
     scd_BufferUsage := DXGI_USAGE_RENDER_TARGET_OUTPUT;
     scd_BufferCount := 2;
     scd_Scaling := DXGI_SCALING_NONE;
     scd_SwapEffect := DXGI_SWAP_EFFECT_FLIP_DISCARD;
     scd_AlphaMode := DXGI_ALPHA_MODE_IGNORE;
     scd_Flags := 0 |}.

Definition initial_viewport : D3D11_VIEWPORT :=
  {| TopLeftX := Float32.zero;
     TopLeftY := Float32.zero;
     Width := Float32.lit 1920 0;
     Height := Float32.lit 1080 0;
     MinDepth := Float32.zero;
     MaxDepth := Float32.lit 1 0 |}.

Definition initD3D : M HRESULT :=
  (* Create device and device context *)
  hr <- api_hr D3D11CreateDevice ;;
  dev <- out 0 ;;
  ctx <- out 1 ;;
  assign set_pDevice_ dev ;;
  assign set_pDeviceContext_ ctx ;;
  if FAILED hr then
    log_error "Failed to create device" ;;
    ret hr
  else
  dev <- device ;;
  hr <- api_hr (QueryInterface dev IID_IDXGIDevice) ;;
  dxgiDevice <- out 0 ;;
  if FAILED hr then
    log_error "Failed to query IDXGIDevice interface" ;;
    ret hr
  else
  hr <- api_hr (GetAdapter dxgiDevice) ;;
  dxgiAdapter <- out 0 ;;
  if FAILED hr then
    log_error "Failed to GetAdapter from device" ;;
    ret hr
  else
  api (Release dxgiDevice) ;;
  hr <- api_hr (GetParent dxgiAdapter IID_IDXGIFactory2) ;;
  dxgiFactory <- out 0 ;;
  api (Release dxgiAdapter) ;;
  if FAILED hr then
    log_error "Failed to IDXGIFactory2 from adapter" ;;
    ret hr
  else
  (* Create swapchain *)
  dev <- device ;;
  wnd <- hWnd ;;
  hr <- api_hr (CreateSwapChainForHwnd dxgiFactory dev wnd swapChainDesc) ;;
  sc <- out 0 ;;
  assign set_pSwapChain_ sc ;;
  api (Release dxgiFactory) ;;
  if FAILED hr then
    log_error "Failed to create swapchain" ;;
    ret hr
  else
  sc <- swapChain ;;
  api (GetBuffer sc 0 IID_ID3D11Texture2D) ;;
  backBuffer <- out 0 ;;
  dev <- device ;;
  api (CreateRenderTargetView dev backBuffer) ;;
  rtv <- out 0 ;;
  assign set_pRenderTargetView_ rtv ;;
  api (Release backBuffer) ;;
  ctx <- deviceCtx ;;
  rtv <- member pRenderTargetView_ ;;
  api (OMSetRenderTargets ctx 1 rtv) ;;
  ctx <- deviceCtx ;;
  api (RSSetViewports ctx 1 initial_viewport) ;;
  ret hr.

(** ** [MainWindow::initPipeline] *)

Definition layout : list D3D11_INPUT_ELEMENT_DESC :=
  [ {| SemanticName := "POSITION"; SemanticIndex := 0;
       Format := DXGI_FORMAT_R32G32B32_FLOAT; InputSlot := 0;
       AlignedByteOffset := 0;
       InputSlotClass := D3D11_INPUT_PER_VERTEX_DATA;
       InstanceDataStepRate := 0 |};
    {| SemanticName := "COLOR"; SemanticIndex := 0;
       Format := DXGI_FORMAT_R32G32B32A32_FLOAT; InputSlot := 0;
       AlignedByteOffset := 12;
       InputSlotClass := D3D11_INPUT_PER_VERTEX_DATA;
       InstanceDataStepRate := 0 |} ].

Definition cbd : D3D11_BUFFER_DESC :=
  {| ByteWidth := sizeof_CBUFFER;
     Usage := D3D11_USAGE_DEFAULT;
     BindFlags := D3D11_BIND_CONSTANT_BUFFER |}.

(** The error branch shared by the two [D3DCompile] calls. *)
Definition report_compile_error (errorBlob : ptr) : M unit :=
  if negb (is_null errorBlob) then
    text <- buffer_text errorBlob ;;
    log_error text ;;
    api (Release errorBlob)
  else ret tt.

Definition initPipeline : M HRESULT :=
  hr <- api_hr (D3DCompile vertexShaderSrc "VSMain" "vs_5_0") ;;
  vsBlob <- out 0 ;;
  errorBlob <- out 1 ;;
  if FAILED hr then
    report_compile_error errorBlob ;;
    ret hr
  else
  hr <- api_hr (D3DCompile pixelShaderSrc "PSMain" "ps_5_0") ;;
  psBlob <- out 0 ;;
  errorBlob <- out 1 ;;
  if FAILED hr then
    report_compile_error errorBlob ;;
    ret hr
  else
  dev <- device ;;
  api (CreateVertexShader dev vsBlob) ;;
  vs <- out 0 ;;
  assign set_pVertexShader_ vs ;;
  dev <- device ;;
  api (CreatePixelShader dev psBlob) ;;
  ps <- out 0 ;;
  assign set_pPixelShader_ ps ;;
  dev <- device ;;
  api (CreateInputLayout dev layout vsBlob) ;;
  il <- out 0 ;;
  assign set_pInputLayout_ il ;;
  ctx <- deviceCtx ;;
  il <- member pInputLayout_ ;;
  api (IASetInputLayout ctx il) ;;
  api (Release vsBlob) ;;
  api (Release psBlob) ;;
  (* Create the constant buffer *)
  dev <- device ;;
  api (CreateBuffer dev cbd None) ;;
  cb <- out 0 ;;
  assign set_pConstBuffer_ cb ;;
  (* Set the constant buffer *)
  ctx <- deviceCtx ;;
  cb <- member pConstBuffer_ ;;
  api (VSSetConstantBuffers ctx 0 1 cb) ;;
  ret hr.

(** ** [MainWindow::initGraphics] *)

Definition vertices : list Vertex :=
  let f0 := Float32.zero in
  let f1 := Float32.lit 1 0 in
  let half := Float32.lit 1 (-1) in
  [ {| position := {| x3 := f0; y3 := half; z3 := f0 |};
       color := {| x4 := f1; y4 := f0; z4 := f0; w4 := f1 |} |};
    {| position := {| x3 := half; y3 := Float32.opp half; z3 := f0 |};
       color := {| x4 := f0; y4 := f1; z4 := f0; w4 := f1 |} |};
    {| position := {| x3 := Float32.opp half; y3 := Float32.opp half;
                      z3 := f0 |};
       color := {| x4 := f0; y4 := f0; z4 := f1; w4 := f1 |} |} ].

(** [sizeof(vertices)] *)
Definition sizeof_vertices : Z := Z.of_nat (List.length vertices) * sizeof_Vertex.

Definition bufferDesc : D3D11_BUFFER_DESC :=
  {| ByteWidth := sizeof_vertices;
     Usage := D3D11_USAGE_DEFAULT;
     BindFlags := D3D11_BIND_VERTEX_BUFFER |}.

Definition initGraphics : M HRESULT :=
  dev <- device ;;
  hr <- api_hr (CreateBuffer dev bufferDesc (Some vertices)) ;;
  vb <- out 0 ;;
  assign set_pVertexBuffer_ vb ;;
  if FAILED hr then
    log_error "Failed to create buffer" ;;
    ret hr
  else
  let stride := sizeof_Vertex in
  let offset := 0 in
  ctx <- deviceCtx ;;
  vb <- member pVertexBuffer_ ;;
  api (IASetVertexBuffers ctx 0 1 vb stride offset) ;;
  ctx <- deviceCtx ;;
  api (IASetPrimitiveTopology ctx D3D11_PRIMITIVE_TOPOLOGY_TRIANGLELIST) ;;
  ret hr.

(** ** [MainWindow::renderFrame] *)

(** [0.01f] is [0x3C23D70A], that is [10737418 * 2^-30]. *)
Definition Time_step : float := Float32.lit 10737418 (-30).

(** [{ 0.0f, 0.2f, 0.4f, 1.0f }] *)
Definition clearColor : list float :=
  [ Float32.zero; Float32.lit 13421773 (-26); Float32.lit 13421773 (-25);
    Float32.lit 1 0 ].

(** [Time += 0.01f;] on the function-static, yielding the new value. *)
Definition advance_Time : M float :=
  fun _ m =>
    let t := Float32.add (Time m) Time_step in
    Returned t {| window := window m; Time := t; log := log m |}.

Definition renderFrame : M HRESULT :=
  let hr := S_OK in
  (* Create rotation matrix *)
  t <- advance_Time ;;
  let RotationMatrix := XMMatrixRotationZ t in
  (* Update the constant buffer *)
  let cb := {| FinalMatrix := XMMatrixTranspose RotationMatrix |} in
  ctx <- deviceCtx ;;
  cbuf <- member pConstBuffer_ ;;
  api (UpdateSubresource ctx cbuf cb) ;;
  (* draw *)
  ctx <- deviceCtx ;;
  rtv <- member pRenderTargetView_ ;;
  api (OMSetRenderTargets ctx 1 rtv) ;;
  ctx <- deviceCtx ;;
  rtv <- member pRenderTargetView_ ;;
  api (ClearRenderTargetView ctx rtv clearColor) ;;
  ctx <- deviceCtx ;;
  vs <- vertexShader ;;
  api (VSSetShader ctx vs) ;;
  ctx <- deviceCtx ;;
  ps <- pixelShader ;;
  api (PSSetShader ctx ps) ;;
  ctx <- deviceCtx ;;
  api (Draw ctx 3 0) ;;
  sc <- swapChain ;;
  api (Present sc 1 0) ;;
  ret hr.

(** ** [MainWindow::createWindow] *)

Definition createWindow : M ptr :=
  (* Get screen resolution *)
  api GetModuleHandle ;;
  api (GetSystemMetrics SM_CXSCREEN) ;;
  screenWidth <- metric ;;
  api (GetSystemMetrics SM_CYSCREEN) ;;
  screenHeight <- metric ;;
  api (RegisterClass "MainWindow") ;;
  api (CreateWindowExA 0 "MainWindow" "DirectX 11 Triangle" WS_POPUP
         CW_USEDEFAULT CW_USEDEFAULT screenWidth screenHeight) ;;
  wnd <- out 0 ;;
  (if negb (is_null wnd) then
     api (ShowWindow wnd 1) ;;
     api (SetWindowLongPtr wnd GWLP_USERDATA)
   else ret tt) ;;
  ret wnd.

(** ** [MainWindow::init] *)

Definition init : M bool :=
  wnd <- createWindow ;;
  assign set_hWnd_ wnd ;;
  hr <- initD3D ;;
  if FAILED hr then ret false else
  hr <- initPipeline ;;
  if FAILED hr then ret false else
  hr <- initGraphics ;;
  if FAILED hr then ret false else
  ret true.

(** ** [MainWindow::WindowProc]

    [GetWindowLongPtr] hands back the [this] pointer that [createWindow]
    stored with [SetWindowLongPtr]; [pWindow] is the object of the model. *)

Definition WindowProc (wnd : ptr) (msg : Z) (wPar lPar : Z) : M Z :=
  api (GetWindowLongPtr wnd GWLP_USERDATA) ;;
  if msg =? WM_KEYDOWN then
    (if wPar =? VK_F11 then
       toggleFullscreen ;;
       api (GetClientRect wnd) ;;
       rect <- client_rect ;;
       let width := to_UINT (right rect - left rect) in
       let height := to_UINT (bottom rect - top rect) in
       hr <- resizeSwapChain width height ;;
       if FAILED hr then exit_ 1 else ret tt
     else ret tt) ;;
    ret 0
  else if msg =? WM_SIZE then
    (* TBD *)
    ret 0
  else if msg =? WM_DESTROY then
    api (PostQuitMessage 0) ;;
    ret 0
  else
    api_hr (DefWindowProc wnd msg wPar lPar).

(** ** [MainWindow::mainloop] *)

(** [DispatchMessage] runs the window procedure of the window the message
    is addressed to.  The program owns one window, [hWnd_], of the one class
    whose procedure is [WindowProc]; a message for another window, or for
    no window, reaches no code of the program. *)
Definition dispatch (msg : MSG) : M unit :=
  api (DispatchMessage msg) ;;
  wnd <- hWnd ;;
  if negb (is_null (hwnd msg)) && N.eqb (hwnd msg) wnd then
    WindowProc (hwnd msg) (message msg) (wParam msg) (lParam msg) ;;
    ret tt
  else ret tt.

(** The body of the [while]: the new content of the local [msg]. *)
Definition mainloop_body (msg : MSG) : M MSG :=
  api (PeekMessage PM_REMOVE) ;;
  peeked <- pending_message ;;
  match peeked with
  | Some msg' =>
      api (TranslateMessage msg') ;;
      dispatch msg' ;;
      ret msg'
  | None =>
      renderFrame ;;
      ret msg
  end.

(** [while (msg.message != WM_QUIT)] *)
Definition loop_condition (msg : MSG) : bool :=
  negb (message msg =? WM_QUIT).

(** The loop, unrolled at most [fuel] times.  [Running m]: after [fuel]
    iterations the loop is about to start a further one, in machine [m]. *)
Fixpoint mainloop_from (fuel : nat) (msg : MSG) (os : OS) (m : Machine)
  : Run unit :=
  if loop_condition msg then
    match fuel with
    | O => Running m
    | S fuel' =>
        match mainloop_body msg os m with
        | Returned msg' m' => mainloop_from fuel' msg' os m'
        | Exited status m' => Finished (Exited status m')
        | Faulted m' => Finished (Faulted m')
        end
    end
  else Finished (Returned tt m).

Definition mainloop (fuel : nat) (os : OS) (m : Machine) : Run unit :=
  mainloop_from fuel MSG_zero os m.

(** ** [main] *)

(** The machine at program start: the object constructed over [storage],
    [Time] statically initialised to [0.0f], no call made yet. *)
Definition start (storage : MainWindow) : Machine :=
  {| window := MainWindow_ctor storage; Time := Float32.zero; log := [] |}.

(** [main], its loop unrolled at most [fuel] times.  The result of [init]
    is dropped; [main] returns 0 once [mainloop] has returned. *)
Definition main (fuel : nat) (os : OS) (storage : MainWindow) : Run Z :=
  match init os (start storage) with
  | Returned _ m =>
      match mainloop fuel os m with
      | Finished (Returned _ m') => Finished (Returned 0 m')
      | Finished (Exited status m') => Finished (Exited status m')
      | Finished (Faulted m') => Finished (Faulted m')
      | Running m' => Running m'
      end
  | Exited status m => Finished (Exited status m)
  | Faulted m => Finished (Faulted m)
  end.

(** ** Reading the log *)

(** [made m m' calls]: on the way from [m] to [m'] the program made exactly
    [calls], in this order. *)
Definition made (m m' : Machine) (calls : list Call) : Prop :=
  log m' = rev calls ++ log m.

(** The machine an outcome, or a run, leaves behind. *)
Definition machine_of {A} (o : Outcome A) : Machine :=
  match o with
  | Returned _ m => m
  | Exited _ m => m
  | Faulted m => m
  end.

Definition last_machine {A} (r : Run A) : Machine :=
  match r with
  | Finished o => machine_of o
  | Running m => m
  end.

(** The calls made between two machines, in program order. *)
Definition calls_between (m m' : Machine) : list Call :=
  rev (firstn (List.length (log m') - List.length (log m)) (log m')).

(** The calls a computation makes when started in [m]. *)
Definition calls_of {A} (c : M A) (os : OS) (m : Machine) : list Call :=
  calls_between m (machine_of (c os m)).

Definition count (p : Call -> bool) (calls : list Call) : nat :=
  List.length (filter p calls).

Definition is_UpdateSubresource (c : Call) : bool :=
  match c with UpdateSubresource _ _ _ => true | _ => false end.


Definition is_Draw (c : Call) : bool :=
  match c with Draw _ _ _ => true | _ => false end.

Definition is_Present (c : Call) : bool :=
  match c with Present _ _ _ => true | _ => false end.

Definition is_PeekMessage (c : Call) : bool :=
  match c with PeekMessage _ => true | _ => false end.

Definition is_SetFullscreenState (c : Call) : bool :=
  match c with SetFullscreenState _ _ => true | _ => false end.

(** A call that creates a constant buffer. *)
Definition creates_constant_buffer (c : Call) : bool :=
  match c with
  | CreateBuffer _ desc _ =>
      match BindFlags desc with
      | D3D11_BIND_CONSTANT_BUFFER => true
      | D3D11_BIND_VERTEX_BUFFER => false
      end
  | _ => false
  end.

(** The buffer a call writes to, if it writes to one.  [UpdateSubresource]
    is the only call of the program that writes into an existing buffer. *)
Definition buffer_written (c : Call) : option ptr :=
  match c with
  | UpdateSubresource _ dst _ => Some dst
  | _ => None
  end.

(** Frames rendered: each one ends in its [Present]. *)
Definition frames_rendered (calls : list Call) : nat := count is_Present calls.


(** The primitive topology set on context [ctx] after the calls of [l]
    (newest first); a context starts with none. *)
Fixpoint topology_at (ctx : ptr) (l : list Call) : D3D11_PRIMITIVE_TOPOLOGY :=
  match l with
  | [] => D3D11_PRIMITIVE_TOPOLOGY_UNDEFINED
  | IASetPrimitiveTopology this t :: older =>
      if N.eqb this ctx then t else topology_at ctx older
  | _ :: older => topology_at ctx older
  end.

(** The vertex buffer bound to slot 0 of context [ctx] after the calls of
    [l] (newest first), with its stride and offset. *)
Fixpoint vertex_buffer_at (ctx : ptr) (l : list Call) : option (ptr * Z * Z) :=
  match l with
  | [] => None
  | IASetVertexBuffers this _ _ buffer stride offset :: older =>
      if N.eqb this ctx then Some (buffer, stride, offset)
      else vertex_buffer_at ctx older
  | _ :: older => vertex_buffer_at ctx older
  end.

(** What a [Draw] call draws: its arguments, and the input-assembler state
    of its context when it is made. *)
Record DrawInfo := {
  draw_VertexCount : Z;
  draw_StartVertexLocation : Z;
  draw_topology : D3D11_PRIMITIVE_TOPOLOGY;
  draw_vertex_buffer : option (ptr * Z * Z)
}.

(** The draws of a log (newest first), newest first. *)
Fixpoint draws (l : list Call) : list DrawInfo :=
  match l with
  | [] => []
  | Draw this n s :: older =>
      {| draw_VertexCount := n;
         draw_StartVertexLocation := s;
         draw_topology := topology_at this older;
         draw_vertex_buffer := vertex_buffer_at this older |} :: draws older
  | _ :: older => draws older
  end.

(** The fullscreen state of swap chain [sc] after the calls of [l] (newest
    first), by the DXGI contract of [SetFullscreenState]: a swap chain
    created without a fullscreen description starts windowed, a call that
    succeeds leaves it in the requested state, and a call that fails leaves
    it as it was. *)
Fixpoint swapchain_fullscreen (os : OS) (sc : ptr) (l : list Call) : bool :=
  match l with
  | [] => false
  | SetFullscreenState this fs :: older =>
      if N.eqb this sc && negb (FAILED (os_hresult os l)) then fs
      else swapchain_fullscreen os sc older
  | _ :: older => swapchain_fullscreen os sc older
  end.

(** ** A scripted environment

    For running the program on concrete inputs: every call succeeds unless
    [fails] singles it out, created objects get fresh non-null addresses
    and a call that fails hands out null, every address but null holds an
    object, the screen is 1920 by 1080, and the [n]-th [PeekMessage] answers
    with the [n]-th entry of [script].  Where the script has no message, the
    queue is empty, unless [PostQuitMessage] has been called: then
    [PeekMessage] retrieves [WM_QUIT], as the system has it. *)

Definition E_FAIL : HRESULT := -2147467259.

Definition scripted_hresult (fails : Call -> bool) (l : list Call) : HRESULT :=
  match l with
  | c :: _ => if fails c then E_FAIL else S_OK
  | [] => S_OK
  end.

Definition scripted_object (fails : Call -> bool) (l : list Call) (k : nat)
  : ptr :=
  match l with
  | c :: _ => if fails c then nullptr else N.of_nat (2 * List.length l + k)
  | [] => nullptr
  end.

Definition scripted_metric (l : list Call) : Z :=
  match l with
  | GetSystemMetrics i :: _ => if i =? SM_CXSCREEN then 1920 else 1080
  | _ => 0
  end.

Definition is_PostQuitMessage (c : Call) : bool :=
  match c with PostQuitMessage _ => true | _ => false end.

(** [WM_QUIT] is a thread message: it is addressed to no window. *)
Definition quit_message : MSG :=
  {| hwnd := nullptr; message := WM_QUIT; wParam := 0;
     lParam := 0; time := 0; pt := (0, 0) |}.

Definition scripted_message (script : list (option MSG)) (l : list Call)
  : option MSG :=
  match nth (count is_PeekMessage l - 1) script None with
  | Some q => Some q
  | None => if existsb is_PostQuitMessage l then Some quit_message else None
  end.

Definition scripted (fails : Call -> bool) (script : list (option MSG)) : OS :=
  {| os_hresult := scripted_hresult fails;
     os_object := scripted_object fails;
     os_metric := scripted_metric;
     os_message := scripted_message script;
     os_rect := fun _ => {| left := 0; top := 0; right := 1920; bottom := 1080 |};
     blob_text := fun _ => "error X3000: syntax error";
     os_valid := fun _ => true |}.

Definition nothing_fails (c : Call) : bool := false.

Definition device_creation_fails (c : Call) : bool :=
  match c with D3D11CreateDevice => true | _ => false end.

Definition vertex_buffer_creation_fails (c : Call) : bool :=
  match c with
  | CreateBuffer _ desc _ =>
      match BindFlags desc with
      | D3D11_BIND_VERTEX_BUFFER => true
      | D3D11_BIND_CONSTANT_BUFFER => false
      end
  | _ => false
  end.

Definition resize_fails (c : Call) : bool :=
  match c with ResizeBuffers _ _ _ _ _ _ => true | _ => false end.

Definition fullscreen_fails (c : Call) : bool := is_SetFullscreenState c.

(** Storage in which every pointer member happens to be null. *)
Definition zeroed : MainWindow :=
  {| is_fullscreen_ := false; hWnd_ := nullptr; pRenderTargetView_ := nullptr;
     pDevice_ := nullptr; pDeviceContext_ := nullptr; pSwapChain_ := nullptr;
     pVertexShader_ := nullptr; pPixelShader_ := nullptr;
     pInputLayout_ := nullptr; pVertexBuffer_ := nullptr;
     pConstBuffer_ := nullptr |}.

(** The window handle the scripted environment hands out: [CreateWindowExA]
    is the fifth call of the program. *)
Definition scripted_window : ptr := 10%N.

Definition key_down (key : Z) : MSG :=
  {| hwnd := scripted_window; message := WM_KEYDOWN; wParam := key;
     lParam := 0; time := 0; pt := (0, 0) |}.

Definition window_message (msg : Z) : MSG :=
  {| hwnd := scripted_window; message := msg; wParam := 0;
     lParam := 0; time := 0; pt := (0, 0) |}.

(** ** Vocabulary of the statements *)

(** The calls of one frame, for the object [w] and the new value [t] of
    [Time]. *)
Definition frame_calls (w : MainWindow) (t : float) : list Call :=
  [ UpdateSubresource (pDeviceContext_ w) (pConstBuffer_ w)
      {| FinalMatrix := XMMatrixTranspose (XMMatrixRotationZ t) |};
    OMSetRenderTargets (pDeviceContext_ w) 1 (pRenderTargetView_ w);
    ClearRenderTargetView (pDeviceContext_ w) (pRenderTargetView_ w) clearColor;
    VSSetShader (pDeviceContext_ w) (pVertexShader_ w);
    PSSetShader (pDeviceContext_ w) (pPixelShader_ w);
    Draw (pDeviceContext_ w) 3 0;
    Present (pSwapChain_ w) 1 0 ].

(** The six calls of a frame that go through the device context: all but
    [Present]. *)
Definition frame_calls_drawn (w : MainWindow) (t : float) : list Call :=
  removelast (frame_calls w t).

(** ** Logs grow

    [extends P l l']: the log [l'] is [l] with further calls on top, each
    of them satisfying [P]. *)
Inductive extends (P : Call -> Prop) (l : list Call) : list Call -> Prop :=
| extends_refl : extends P l l
| extends_cons c l' : P c -> extends P l l' -> extends P l (c :: l').

(** The calls [resizeSwapChain] can make. *)
Definition resize_call (c : Call) : Prop :=
  match c with
  | Release _ | ResizeBuffers _ _ _ _ _ _ | GetBuffer _ _ _
  | CreateRenderTargetView _ _ | cerr _ | OMSetRenderTargets _ _ _
  | RSSetViewports _ _ _ => True
  | _ => False
  end.

(** The members that only the initialisation assigns. *)
Definition stable (w w' : MainWindow) : Prop :=
  hWnd_ w' = hWnd_ w /\ pDevice_ w' = pDevice_ w /\
  pDeviceContext_ w' = pDeviceContext_ w /\ pSwapChain_ w' = pSwapChain_ w /\
  pVertexShader_ w' = pVertexShader_ w /\ pPixelShader_ w' = pPixelShader_ w /\
  pInputLayout_ w' = pInputLayout_ w /\ pVertexBuffer_ w' = pVertexBuffer_ w /\
  pConstBuffer_ w' = pConstBuffer_ w.

(** The calls that [WindowProc] can make. *)
Definition message_call (c : Call) : Prop :=
  match c with
  | GetWindowLongPtr _ _ | GetClientRect _ | PostQuitMessage _
  | DefWindowProc _ _ _ _ | SetFullscreenState _ _ | exit _ => True
  | _ => resize_call c
  end.

(** The machine in which the F11 branch of [WindowProc] calls
    [resizeSwapChain]: the user data has been fetched, the fullscreen state
    toggled, the client rectangle asked for. *)
Definition toggled (os : OS) (m : Machine) (wnd : ptr) : Machine :=
  let fs := negb (is_fullscreen_ (window m)) in
  let request :=
    SetFullscreenState (pSwapChain_ (window m)) fs
      :: GetWindowLongPtr wnd GWLP_USERDATA :: log m in
  {| window := set_is_fullscreen_ fs (window m);
     Time := Time m;
     log := GetClientRect wnd
              :: (if FAILED (os_hresult os request)
                  then cerr "Failed to toggle fullscreen mode." :: request
                  else request) |}.

(** The size [WindowProc] passes to [resizeSwapChain]. *)
Definition client_width (os : OS) (m : Machine) : Z :=
  let rect := os_rect os (log m) in to_UINT (right rect - left rect).

Definition client_height (os : OS) (m : Machine) : Z :=
  let rect := os_rect os (log m) in to_UINT (bottom rect - top rect).

(** The calls of a frame, for an object with the stable members of [w]. *)
Definition frame_call (w : MainWindow) (c : Call) : Prop :=
  match c with
  | UpdateSubresource this dst _ =>
      this = pDeviceContext_ w /\ dst = pConstBuffer_ w
  | Draw this n s => this = pDeviceContext_ w /\ n = 3 /\ s = 0
  | OMSetRenderTargets _ _ _ | ClearRenderTargetView _ _ _
  | VSSetShader _ _ | PSSetShader _ _ | Present _ _ _ => True
  | _ => False
  end.

(** The calls the loop can make. *)
Definition loop_call (w : MainWindow) (c : Call) : Prop :=
  match c with
  | PeekMessage _ | TranslateMessage _ | DispatchMessage _ => True
  | _ => message_call c \/ frame_call w c
  end.

(** The machine after [PeekMessage] has found the queue empty. *)
Definition peeked (m : Machine) : Machine :=
  {| window := window m; Time := Time m;
     log := PeekMessage PM_REMOVE :: log m |}.

(** The machine after [PeekMessage] has handed over [q] and the loop has
    passed it to [TranslateMessage] and [DispatchMessage]. *)
Definition dispatched (m : Machine) (q : MSG) : Machine :=
  {| window := window m; Time := Time m;
     log := DispatchMessage q :: TranslateMessage q
              :: PeekMessage PM_REMOVE :: log m |}.

(** The machine after the loop has dispatched [q] and [WindowProc] has
    handled it as [WM_DESTROY]. *)
Definition destroyed (m : Machine) (q : MSG) : Machine :=
  {| window := window m; Time := Time m;
     log := PostQuitMessage 0 :: GetWindowLongPtr (hwnd q) GWLP_USERDATA
              :: log (dispatched m q) |}.

(** [q] is addressed to the window of the program. *)
Definition for_our_window (m : Machine) (q : MSG) : bool :=
  negb (is_null (hwnd q)) && N.eqb (hwnd q) (hWnd_ (window m)).

(** The log once [createWindow] has asked for the window, on top of [l]. *)
Definition window_request (os : OS) (l : list Call) : list Call :=
  let asked_width := GetSystemMetrics SM_CXSCREEN :: GetModuleHandle :: l in
  let asked_height := GetSystemMetrics SM_CYSCREEN :: asked_width in
  CreateWindowExA 0 "MainWindow" "DirectX 11 Triangle" WS_POPUP
    CW_USEDEFAULT CW_USEDEFAULT
    (os_metric os asked_width) (os_metric os asked_height)
    :: RegisterClass "MainWindow" :: asked_height.

(** The calls the three initialisation steps can make. *)
Definition startup_call (c : Call) : Prop :=
  match c with
  | D3D11CreateDevice | QueryInterface _ _ | GetAdapter _ | GetParent _ _
  | Release _ | CreateSwapChainForHwnd _ _ _ _ | GetBuffer _ _ _
  | CreateRenderTargetView _ _ | OMSetRenderTargets _ _ _
  | RSSetViewports _ _ _ | D3DCompile _ _ _ | CreateVertexShader _ _
  | CreatePixelShader _ _ | CreateInputLayout _ _ _ | IASetInputLayout _ _
  | CreateBuffer _ _ _ | VSSetConstantBuffers _ _ _ _
  | IASetVertexBuffers _ _ _ _ _ _ | IASetPrimitiveTopology _ _
  | cerr _ => True
  | _ => False
  end.

(** The machine in which [init] calls [initD3D]: the window has been asked
    for and its handle stored in [hWnd_]. *)
Definition window_created (os : OS) (m : Machine) : Machine :=
  match createWindow os m with
  | Returned wnd m' =>
      {| window := set_hWnd_ wnd (window m'); Time := Time m'; log := log m' |}
  | Exited _ m' => m'
  | Faulted m' => m'
  end.

(** The calls [WindowProc] makes after it has asked for the new fullscreen
    state. *)
Definition after_toggle_call (c : Call) : Prop :=
  match c with
  | GetClientRect _ | exit _ => True
  | _ => resize_call c
  end.

(** The few calls a [WM_QUIT] iteration makes after [PeekMessage]. *)
Definition quit_call (c : Call) : Prop :=
  match c with
  | TranslateMessage _ | DispatchMessage _ | GetWindowLongPtr _ _
  | DefWindowProc _ _ _ _ => True
  | _ => False
  end.

(** The constant-buffer contents uploaded by the calls of [l] (newest
    first), newest first. *)
Fixpoint uploads (l : list Call) : list CBUFFER :=
  match l with
  | [] => []
  | UpdateSubresource _ _ data :: older => data :: uploads older
  | _ :: older => uploads older
  end.

(** [Time] after [n] frames: [0.0f] with [0.01f] added [n] times, each sum
    rounded to binary32. *)
Fixpoint Time_after (n : nat) : float :=
  match n with
  | O => Float32.zero
  | S k => Float32.add (Time_after k) Time_step
  end.

(** What the [k]-th frame uploads. *)
Definition frame_upload (k : nat) : CBUFFER :=
  {| FinalMatrix := XMMatrixTranspose (XMMatrixRotationZ (Time_after k)) |}.

(** The uploads of the first [n] frames, newest first. *)
Fixpoint expected_uploads (n : nat) : list CBUFFER :=
  match n with
  | O => []
  | S k => frame_upload (S k) :: expected_uploads k
  end.

(** The calls [init] can make. *)
Definition setup_call (c : Call) : Prop :=
  match c with
  | GetModuleHandle | GetSystemMetrics _ | RegisterClass _
  | CreateWindowExA _ _ _ _ _ _ _ _ | ShowWindow _ _
  | SetWindowLongPtr _ _ => True
  | _ => startup_call c
  end.

(** What the frames rendered so far have left behind. *)
Definition frames_inv (m : Machine) : Prop :=
  Time m = Time_after (frames_rendered (log m)) /\
  uploads (log m) = expected_uploads (frames_rendered (log m)) /\
  count is_Draw (log m) = frames_rendered (log m) /\
  count is_UpdateSubresource (log m) = frames_rendered (log m).

(** ** Further vocabulary: kinds of calls, and environments *)

Definition is_Release (c : Call) : bool :=
  match c with Release _ => true | _ => false end.

Definition is_cerr (c : Call) : bool :=
  match c with cerr _ => true | _ => false end.

Definition is_ResizeBuffers (c : Call) : bool :=
  match c with ResizeBuffers _ _ _ _ _ _ => true | _ => false end.

Definition is_TranslateMessage (c : Call) : bool :=
  match c with TranslateMessage _ => true | _ => false end.

Definition is_DispatchMessage (c : Call) : bool :=
  match c with DispatchMessage _ => true | _ => false end.

Definition is_D3D11CreateDevice (c : Call) : bool :=
  match c with D3D11CreateDevice => true | _ => false end.

Definition is_GetAdapter (c : Call) : bool :=
  match c with GetAdapter _ => true | _ => false end.

Definition is_D3DCompile (c : Call) : bool :=
  match c with D3DCompile _ _ _ => true | _ => false end.

Definition is_GetBuffer (c : Call) : bool :=
  match c with GetBuffer _ _ _ => true | _ => false end.

Definition is_CreateRenderTargetView (c : Call) : bool :=
  match c with CreateRenderTargetView _ _ => true | _ => false end.

Definition is_CreateWindowExA (c : Call) : bool :=
  match c with CreateWindowExA _ _ _ _ _ _ _ _ => true | _ => false end.

(** The two compilations, told apart by their entry point. *)
Definition compiles_vertex_shader (c : Call) : bool :=
  match c with
  | D3DCompile _ entry _ => String.eqb entry "VSMain"
  | _ => false
  end.

Definition compiles_pixel_shader (c : Call) : bool :=
  match c with
  | D3DCompile _ entry _ => String.eqb entry "PSMain"
  | _ => false
  end.

(** Calls that bind a render target or set a viewport. *)
Definition sets_up_rendering (c : Call) : bool :=
  match c with
  | OMSetRenderTargets _ _ _ | RSSetViewports _ _ _ => true
  | _ => false
  end.

(** Calls that create a shader, an input layout or a buffer. *)
Definition creates_pipeline_object (c : Call) : bool :=
  match c with
  | CreateVertexShader _ _ | CreatePixelShader _ _ | CreateInputLayout _ _ _
  | CreateBuffer _ _ _ => true
  | _ => false
  end.

(** The calls whose [HRESULT] [initD3D] tests. *)
Definition checked_by_initD3D (c : Call) : bool :=
  match c with
  | D3D11CreateDevice | QueryInterface _ _ | GetAdapter _ | GetParent _ _
  | CreateSwapChainForHwnd _ _ _ _ => true
  | _ => false
  end.

(** The calls whose [HRESULT] [init] tests, through its three steps: those
    of [initD3D], the two shader compilations, and the creation of the
    vertex buffer. *)
Definition checked_by_init (c : Call) : bool :=
  match c with
  | D3DCompile _ _ _ => true
  | CreateBuffer _ desc _ =>
      match BindFlags desc with
      | D3D11_BIND_VERTEX_BUFFER => true
      | D3D11_BIND_CONSTANT_BUFFER => false
      end
  | _ => checked_by_initD3D c
  end.

(** The two calls [initD3D] makes before [GetAdapter]. *)
Definition before_GetAdapter (c : Call) : bool :=
  match c with
  | D3D11CreateDevice | QueryInterface _ _ => true
  | _ => false
  end.

(** The out-parameters through which a call hands out an interface. *)
Definition hands_out (c : Call) (k : nat) : bool :=
  match c, k with
  | D3D11CreateDevice, O | D3D11CreateDevice, S O
  | QueryInterface _ _, O | GetAdapter _, O | GetParent _ _, O
  | CreateSwapChainForHwnd _ _ _ _, O | GetBuffer _ _ _, O
  | CreateRenderTargetView _ _, O | D3DCompile _ _ _, O => true
  | _, _ => false
  end.

(** The rule of COM: a call that succeeds leaves a valid interface pointer
    in its out-parameter. *)
Definition hands_out_objects (os : OS) : Prop :=
  forall c l k,
    hands_out c k = true ->
    FAILED (os_hresult os (c :: l)) = false ->
    valid os (os_object os (c :: l) k) = true.

(** A pointer that passes the program's [!= nullptr] tests only when it is
    valid. *)
Definition null_or_valid (os : OS) (p : ptr) : bool :=
  is_null p || valid os p.


(** Whether the process died on a pointer. *)
Definition faulted {A} (o : Outcome A) : bool :=
  match o with Faulted _ => true | _ => false end.

Definition died {A} (r : Run A) : bool :=
  match r with Finished o => faulted o | Running _ => false end.

(** Environments in which the calls of a kind never fail, or always do. *)
Definition never_fails (os : OS) (p : Call -> bool) : Prop :=
  forall c l, p c = true -> FAILED (os_hresult os (c :: l)) = false.

Definition always_fails (os : OS) (p : Call -> bool) : Prop :=
  forall c l, p c = true -> FAILED (os_hresult os (c :: l)) = true.

(** The calls [initD3D] makes, and those [initPipeline] makes. *)
Definition initD3D_call (c : Call) : Prop :=
  match c with
  | D3D11CreateDevice | QueryInterface _ _ | GetAdapter _ | GetParent _ _
  | Release _ | CreateSwapChainForHwnd _ _ _ _ | GetBuffer _ _ _
  | CreateRenderTargetView _ _ | OMSetRenderTargets _ _ _
  | RSSetViewports _ _ _ | cerr _ => True
  | _ => False
  end.

Definition initPipeline_call (c : Call) : Prop :=
  match c with
  | D3DCompile _ _ _ | cerr _ | Release _ | CreateVertexShader _ _
  | CreatePixelShader _ _ | CreateInputLayout _ _ _ | IASetInputLayout _ _
  | CreateBuffer _ _ _ | VSSetConstantBuffers _ _ _ _ => True
  | _ => False
  end.

(** The calls [init] can have made when it has not set the input
    assembler up. *)
Definition before_input_assembly (c : Call) : Prop :=
  match c with
  | IASetVertexBuffers _ _ _ _ _ _ | IASetPrimitiveTopology _ _ => False
  | _ => setup_call c
  end.

(** The calls [WindowProc] makes for a message other than F11 down. *)
Definition idle_call (c : Call) : Prop :=
  match c with
  | GetWindowLongPtr _ _ | PostQuitMessage _ | DefWindowProc _ _ _ _ => True
  | _ => False
  end.

(** The flag follows the toggles, and every toggle comes with one resize. *)
Definition toggles_inv (m : Machine) : Prop :=
  is_fullscreen_ (window m) = Nat.odd (count is_SetFullscreenState (log m)) /\
  count is_ResizeBuffers (log m) = count is_SetFullscreenState (log m).

(** Every [PeekMessage] has led to a frame or to a message translated, and
    every message translated has been dispatched. *)
Definition peeks_inv (m : Machine) : Prop :=
  count is_PeekMessage (log m)
    = (frames_rendered (log m) + count is_TranslateMessage (log m))%nat /\
  count is_DispatchMessage (log m) = count is_TranslateMessage (log m).

(** The flag and the swap chain agree. *)
Definition agree_inv (os : OS) (m : Machine) : Prop :=
  swapchain_fullscreen os (pSwapChain_ (window m)) (log m)
  = is_fullscreen_ (window m).

(** A draw made with no topology set and no vertex buffer bound. *)
Definition draws_nothing_bound (d : DrawInfo) : Prop :=
  draw_topology d = D3D11_PRIMITIVE_TOPOLOGY_UNDEFINED /\
  draw_vertex_buffer d = None.

(** ** Three sentences of the specification, as they are written *)


(** The constant buffers created so far: the calls of [CreateBuffer] with
    the description of the constant buffer that have succeeded. *)
Fixpoint constant_buffers_created (os : OS) (l : list Call) : nat :=
  match l with
  | [] => 0
  | c :: older =>
      ((if creates_constant_buffer c
            && negb (FAILED (os_hresult os (c :: older)))
        then 1 else 0)
       + constant_buffers_created os older)%nat
  end.

(** The constant buffer has been created exactly once. *)
Definition created_exactly_once (os : OS) (l : list Call) : Prop :=
  constant_buffers_created os l = 1%nat.

(** Every draw is one of three vertices, with the triangle-list topology,
    over a bound vertex buffer of [Vertex] stride. *)
Definition draws_one_triangle (d : DrawInfo) : Prop :=
  draw_VertexCount d = 3 /\
  draw_StartVertexLocation d = 0 /\
  draw_topology d = D3D11_PRIMITIVE_TOPOLOGY_TRIANGLELIST /\
  exists vb, draw_vertex_buffer d = Some (vb, sizeof_Vertex, 0).

End Program.

(** ** Concrete runs *)

(** Stand-ins for the two DirectXMath functions, for concrete runs: the
    first keeps its angle in the first entry of an otherwise zero matrix,
    the second transposes. *)
Definition row_of (a b c d : float) : XMFLOAT4 :=
  {| x4 := a; y4 := b; z4 := c; w4 := d |}.

Definition angle_matrix (t : float) : XMMATRIX :=
  let z := Float32.zero in
  {| r0 := row_of t z z z; r1 := row_of z z z z;
     r2 := row_of z z z z; r3 := row_of z z z z |}.

Definition transpose (a : XMMATRIX) : XMMATRIX :=
  {| r0 := row_of (x4 (r0 a)) (x4 (r1 a)) (x4 (r2 a)) (x4 (r3 a));
     r1 := row_of (y4 (r0 a)) (y4 (r1 a)) (y4 (r2 a)) (y4 (r3 a));
     r2 := row_of (z4 (r0 a)) (z4 (r1 a)) (z4 (r2 a)) (z4 (r3 a));
     r3 := row_of (w4 (r0 a)) (w4 (r1 a)) (w4 (r2 a)) (w4 (r3 a)) |}.

(** The stand-ins as an implementation of the interface. *)
Definition stand_in : DirectXMath :=
  {| XMMatrixRotationZ := angle_matrix; XMMatrixTranspose := transpose |}.

(** The machine [init] leaves in a scripted environment. *)
Definition ready (fails : Call -> bool) (script : list (option MSG)) : Machine :=
  machine_of (init (scripted fails script) (start zeroed)).

(** A session: nothing pending, then F11, then the window destroyed; the
    quit message follows from [PostQuitMessage]. *)
Definition session : list (option MSG) :=
  [None; Some (key_down VK_F11); Some (window_message WM_DESTROY)].

(** A session that F11 cuts short when the swap chain cannot be resized. *)
Definition failing_session : list (option MSG) :=
  [None; Some (key_down VK_F11); None].

(** [main] over the stand-ins, in a scripted environment, from zeroed
    storage: the machine it has reached after at most [fuel] iterations. *)
Definition run_main (fuel : nat) (fails : Call -> bool)
    (script : list (option MSG)) : Machine :=
  last_machine (@main stand_in fuel (scripted fails script) zeroed).

(** Every call fails but those whose result [init] tests and [GetBuffer],
    whose back buffer [initD3D] releases untested. *)
Definition untested_calls_fail (c : Call) : bool :=
  negb (checked_by_init c || is_GetBuffer c).

Definition GetAdapter_fails (c : Call) : bool := is_GetAdapter c.

Definition GetBuffer_fails (c : Call) : bool := is_GetBuffer c.

Definition view_creation_fails (c : Call) : bool := is_CreateRenderTargetView c.

Definition window_creation_fails (c : Call) : bool := is_CreateWindowExA c.

Definition shader_compilation_fails (c : Call) : bool := is_D3DCompile c.

Definition constant_buffer_creation_fails (c : Call) : bool :=
  creates_constant_buffer c.

Definition pipeline_creations_fail (c : Call) : bool :=
  creates_pipeline_object c.

(** The machine in which [init] calls [initPipeline] in a scripted
    environment: the window and the device are there. *)
Definition device_ready (fails : Call -> bool) : Machine :=
  machine_of
    (initD3D (scripted fails [])
       (window_created (scripted fails []) (start zeroed))).

(** An environment in which the compiler rejects the shaders and hands out
    an error blob; every other call succeeds. *)
Definition shaders_rejected : OS :=
  {| os_hresult := scripted_hresult is_D3DCompile;
     os_object := scripted_object nothing_fails;
     os_metric := scripted_metric;
     os_message := scripted_message [];
     os_rect := os_rect (scripted nothing_fails []);
     blob_text := blob_text (scripted nothing_fails []);
     os_valid := os_valid (scripted nothing_fails []) |}.

(** An environment in which the vertex shader compiles and the pixel
    shader does not, with an error blob. *)
Definition pixel_shader_rejected : OS :=
  {| os_hresult := scripted_hresult compiles_pixel_shader;
     os_object := scripted_object nothing_fails;
     os_metric := scripted_metric;
     os_message := scripted_message [];
     os_rect := os_rect (scripted nothing_fails []);
     blob_text := blob_text (scripted nothing_fails []);
     os_valid := os_valid (scripted nothing_fails []) |}.

(** * Properties *)

Section Properties.

Context {math : DirectXMath}.

(** ** Running the model symbolically *)

Ltac tidy :=
  cbv beta;
  cbn [log window Time machine_of live faulted
       is_fullscreen_ hWnd_ pRenderTargetView_ pDevice_ pDeviceContext_
       pSwapChain_ pVertexShader_ pPixelShader_ pInputLayout_ pVertexBuffer_
       pConstBuffer_
       set_is_fullscreen_ set_hWnd_ set_pRenderTargetView_ set_pDevice_
       set_pDeviceContext_ set_pSwapChain_ set_pVertexShader_
       set_pPixelShader_ set_pInputLayout_ set_pVertexBuffer_
       set_pConstBuffer_].

(** Code that calls functions only, no methods: it runs by computation. *)
Ltac run :=
  cbv beta iota zeta delta
    [bind ret api api_hr out member assign exit_ metric pending_message
     client_rect log_error live
     isFullscreen hWnd device deviceCtx swapChain vertexShader pixelShader
     vertexBuffer advance_Time];
  tidy.

(** A fact about every call of a kind, by cases on the call. *)
Ltac call_cases :=
  let c := fresh "c" in intros c; destruct c; cbn; tauto.

(** Stepping through a computation one call at a time. *)
Lemma bind_api {B} c (k : unit -> M B) os m :
  bind (api c) k os m =
  if live os c
  then k tt os {| window := window m; Time := Time m; log := c :: log m |}
  else Faulted m.
Proof. unfold bind, api. destruct (live os c); reflexivity. Qed.

Lemma bind_api_hr {B} c (k : HRESULT -> M B) os m :
  bind (api_hr c) k os m =
  if live os c
  then k (os_hresult os (c :: log m)) os
         {| window := window m; Time := Time m; log := c :: log m |}
  else Faulted m.
Proof. unfold api_hr, bind, api. destruct (live os c); reflexivity. Qed.

Lemma bind_out {B} n (k : ptr -> M B) os m :
  bind (out n) k os m = k (os_object os (log m) n) os m.
Proof. reflexivity. Qed.

Lemma bind_member {A B} (f : MainWindow -> A) (k : A -> M B) os m :
  bind (member f) k os m = k (f (window m)) os m.
Proof. reflexivity. Qed.

Lemma bind_assign {A B} (set : A -> MainWindow -> MainWindow) v
    (k : unit -> M B) os m :
  bind (assign set v) k os m =
  k tt os {| window := set v (window m); Time := Time m; log := log m |}.
Proof. reflexivity. Qed.

Lemma bind_buffer_text {B} blob (k : string -> M B) os m :
  bind (buffer_text blob) k os m =
  if valid os blob then k (blob_text os blob) os m else Faulted m.
Proof. unfold bind, buffer_text. destruct (valid os blob); reflexivity. Qed.

Lemma bind_if {A B} (b : bool) (c1 c2 : M A) (k : A -> M B) os m :
  bind (if b then c1 else c2) k os m =
  if b then bind c1 k os m else bind c2 k os m.
Proof. destruct b; reflexivity. Qed.

Lemma bind_ret {A B} (a : A) (k : A -> M B) os m :
  bind (ret a) k os m = k a os m.
Proof. reflexivity. Qed.

Lemma bind_advance_Time {B} (k : float -> M B) os m :
  bind advance_Time k os m =
  k (Float32.add (Time m) Time_step) os
    {| window := window m; Time := Float32.add (Time m) Time_step;
       log := log m |}.
Proof. reflexivity. Qed.

Lemma bind_bind {A B C} (c : M A) (k1 : A -> M B) (k2 : B -> M C) os m :
  bind (bind c k1) k2 os m = bind c (fun a => bind (k1 a) k2) os m.
Proof. unfold bind. destruct (c os m); reflexivity. Qed.

Lemma ret_runs {A} (a : A) os m : ret a os m = Returned a m.
Proof. reflexivity. Qed.

(** The last call of a function, when nothing follows it. *)
Lemma api_runs c os m :
  api c os m =
  if live os c
  then Returned tt {| window := window m; Time := Time m; log := c :: log m |}
  else Faulted m.
Proof. reflexivity. Qed.

Ltac step :=
  first [ rewrite bind_api_hr
        | rewrite bind_api
        | rewrite bind_out
        | rewrite bind_member
        | rewrite bind_assign
        | rewrite bind_buffer_text
        | rewrite bind_advance_Time
        | rewrite bind_ret
        | rewrite bind_if
        | rewrite bind_bind
        | rewrite api_runs
        | rewrite ret_runs ];
  tidy.

(** What is known about the environment decides a test. *)
Ltac known :=
  match goal with
  | H : valid ?os ?p = _ |- context [valid ?os ?p] => rewrite H
  | H : FAILED ?x = _ |- context [FAILED ?x] => rewrite H
  | H : is_null ?p = _ |- context [is_null ?p] => rewrite H
  | Hn : never_fails ?os _
    |- context [FAILED (os_hresult ?os (?c :: ?l))] =>
      rewrite (Hn c l eq_refl)
  | Ha : always_fails ?os _
    |- context [FAILED (os_hresult ?os (?c :: ?l))] =>
      rewrite (Ha c l eq_refl)
  | Hc : hands_out_objects ?os
    |- context [valid ?os (os_object ?os (?c :: ?l) ?k)] =>
      let H := fresh "Hvalid" in
      assert (H : valid os (os_object os (c :: l) k) = true)
        by (apply Hc;
            [ reflexivity
            | first [ assumption
                    | match goal with
                      | Hn : never_fails os _ |- _ => apply Hn; reflexivity
                      end ] ]);
      rewrite H
  end;
  cbn [andb orb negb].

Ltac split_test :=
  match goal with
  | |- context [if ?b then _ else _] => destruct b eqn:?
  end;
  cbn [andb orb negb].

(** Through a function, deciding the tests that can be decided and
    splitting on the others. *)
Ltac walk := repeat first [ step | known | split_test ].

Lemma made_calls_between m m' calls :
  made m m' calls -> calls_between m m' = calls.
Proof.
  unfold made, calls_between. intros ->.
  rewrite length_app, length_rev.
  replace (List.length calls + List.length (log m) - List.length (log m))%nat
    with (List.length (rev calls) + 0)%nat by (rewrite length_rev; lia).
  rewrite firstn_app_2. cbn [firstn]. rewrite app_nil_r. apply rev_involutive.
Qed.

(** ** Logs that grow *)

Ltac grow P :=
  repeat (first [apply extends_refl | apply (extends_cons P); [exact I|]]).

Lemma extends_trans P l1 l2 l3 :
  extends P l1 l2 -> extends P l2 l3 -> extends P l1 l3.
Proof.
  intros H12 H23. induction H23 as [|c l' Hc _ IH].
  - exact H12.
  - apply extends_cons; assumption.
Qed.

Lemma extends_weaken (P Q : Call -> Prop) l l' :
  (forall c, P c -> Q c) -> extends P l l' -> extends Q l l'.
Proof.
  intros HPQ H. induction H as [|c l' Hc _ IH].
  - apply extends_refl.
  - apply extends_cons; auto.
Qed.

Lemma extends_count P p l l' :
  (forall c, P c -> p c = false) ->
  extends P l l' -> count p l' = count p l.
Proof.
  intros HP H. induction H as [|c l' Hc _ IH].
  - reflexivity.
  - unfold count in *. cbn [filter]. rewrite (HP c Hc). exact IH.
Qed.

Lemma extends_In P l l' c :
  extends P l l' -> In c l' -> In c l \/ P c.
Proof.
  intros H. induction H as [|c' l' Hc _ IH]; intros Hin.
  - left. exact Hin.
  - destruct Hin as [<-|Hin]; [right; exact Hc | exact (IH Hin)].
Qed.

Lemma extends_app P l l' :
  extends P l l' -> exists rest, l' = rest ++ l.
Proof.
  induction 1 as [|c l' _ _ (rest & ->)].
  - exists []. reflexivity.
  - exists (c :: rest). reflexivity.
Qed.

Lemma extends_made P m m' :
  extends P (log m) (log m') ->
  exists calls, made m m' calls /\ Forall P calls.
Proof.
  unfold made. generalize (log m'). intros l' H.
  induction H as [|c l' Hc _ (calls & -> & Hall)].
  - exists []. split; [reflexivity | constructor].
  - exists (calls ++ [c]). split.
    + rewrite rev_app_distr. reflexivity.
    + apply Forall_app. split; [exact Hall | repeat constructor; exact Hc].
Qed.

Lemma Forall_count_0 (P : Call -> Prop) p calls :
  (forall c, P c -> p c = false) -> Forall P calls -> count p calls = 0%nat.
Proof.
  intros HP H. unfold count. induction H as [|c calls Hc _ IH].
  - reflexivity.
  - cbn [filter]. rewrite (HP c Hc). exact IH.
Qed.

Lemma extends_swapchain_fullscreen P os sc l l' :
  (forall c, P c -> is_SetFullscreenState c = false) ->
  extends P l l' ->
  swapchain_fullscreen os sc l' = swapchain_fullscreen os sc l.
Proof.
  intros HP H. induction H as [|c l' Hc _ IH].
  - reflexivity.
  - specialize (HP c Hc). destruct c; try discriminate; exact IH.
Qed.

Lemma stable_refl w : stable w w.
Proof. repeat split. Qed.

Lemma stable_trans w1 w2 w3 : stable w1 w2 -> stable w2 w3 -> stable w1 w3.
Proof.
  unfold stable. intros H12 H23.
  decompose [and] H12. decompose [and] H23. repeat split; congruence.
Qed.

(** ** [toggleFullscreen] *)

Lemma toggleFullscreen_runs os m :
  let fs := negb (is_fullscreen_ (window m)) in
  let sc := pSwapChain_ (window m) in
  let request := SetFullscreenState sc fs :: log m in
  toggleFullscreen os m =
  if valid os sc then
    Returned tt
      {| window := set_is_fullscreen_ fs (window m);
         Time := Time m;
         log := if FAILED (os_hresult os request)
                then cerr "Failed to toggle fullscreen mode." :: request
                else request |}
  else
    Faulted
      {| window := set_is_fullscreen_ fs (window m);
         Time := Time m; log := log m |}.
Proof.
  unfold toggleFullscreen, swapChain, isFullscreen, log_error.
  walk; reflexivity.
Qed.

(** ** [resizeSwapChain] *)

(** The function, path by path. *)
Lemma resizeSwapChain_runs os m width height :
  let w := window m in
  let old := pRenderTargetView_ w in
  let w0 := set_pRenderTargetView_ nullptr w in
  let released := if is_null old then log m else Release old :: log m in
  let resized :=
    ResizeBuffers (pSwapChain_ w) 0 width height DXGI_FORMAT_UNKNOWN 0
      :: released in
  let got := GetBuffer (pSwapChain_ w) 0 IID_ID3D11Texture2D :: resized in
  let backBuffer := os_object os got 0 in
  let viewed := CreateRenderTargetView (pDevice_ w) backBuffer :: got in
  let view := os_object os viewed 0 in
  let w1 := set_pRenderTargetView_ view w in
  let bound := OMSetRenderTargets (pDeviceContext_ w) 1 view :: viewed in
  resizeSwapChain width height os m =
  if null_or_valid os old then
    if valid os (pSwapChain_ w) then
      if FAILED (os_hresult os resized) then
        Returned (os_hresult os resized)
          {| window := w0; Time := Time m; log := resized |}
      else if FAILED (os_hresult os got) then
        Returned (os_hresult os got)
          {| window := w0; Time := Time m; log := got |}
      else if valid os (pDevice_ w) then
        if FAILED (os_hresult os viewed) then
          Returned (os_hresult os viewed)
            {| window := w1; Time := Time m;
               log := cerr "Failed to create render target view" :: viewed |}
        else if valid os (pDeviceContext_ w) then
          if valid os backBuffer then
            Returned S_OK
              {| window := w1; Time := Time m;
                 log := RSSetViewports (pDeviceContext_ w) 1
                          (resize_viewport width height)
                        :: Release backBuffer :: bound |}
          else Faulted {| window := w1; Time := Time m; log := bound |}
        else Faulted {| window := w1; Time := Time m; log := viewed |}
      else Faulted {| window := w0; Time := Time m; log := got |}
    else Faulted {| window := w0; Time := Time m; log := released |}
  else Faulted m.
Proof.
  cbv zeta. unfold null_or_valid.
  unfold resizeSwapChain, releaseResources, swapChain, device, deviceCtx,
    log_error.
  step. destruct (is_null (pRenderTargetView_ (window m))) eqn:Hnull;
    cbn [negb orb].
  - walk; try reflexivity.
  - step. destruct (valid os (pRenderTargetView_ (window m))) eqn:Hold;
      [|destruct m; reflexivity].
    walk; try reflexivity.
Qed.

(** With a swap chain, a device and a context to call through, and an old
    view that is null or a view, [resizeSwapChain] does not die: it
    returns in one of four ways. *)
Lemma resizeSwapChain_safe os m width height :
  hands_out_objects os ->
  null_or_valid os (pRenderTargetView_ (window m)) = true ->
  valid os (pSwapChain_ (window m)) = true ->
  valid os (pDevice_ (window m)) = true ->
  valid os (pDeviceContext_ (window m)) = true ->
  let w := window m in
  let old := pRenderTargetView_ w in
  let released := if is_null old then log m else Release old :: log m in
  let resized :=
    ResizeBuffers (pSwapChain_ w) 0 width height DXGI_FORMAT_UNKNOWN 0
      :: released in
  let got := GetBuffer (pSwapChain_ w) 0 IID_ID3D11Texture2D :: resized in
  let backBuffer := os_object os got 0 in
  let viewed := CreateRenderTargetView (pDevice_ w) backBuffer :: got in
  let view := os_object os viewed 0 in
  resizeSwapChain width height os m =
  if FAILED (os_hresult os resized) then
    Returned (os_hresult os resized)
      {| window := set_pRenderTargetView_ nullptr w; Time := Time m;
         log := resized |}
  else if FAILED (os_hresult os got) then
    Returned (os_hresult os got)
      {| window := set_pRenderTargetView_ nullptr w; Time := Time m;
         log := got |}
  else if FAILED (os_hresult os viewed) then
    Returned (os_hresult os viewed)
      {| window := set_pRenderTargetView_ view w; Time := Time m;
         log := cerr "Failed to create render target view" :: viewed |}
  else
    Returned S_OK
      {| window := set_pRenderTargetView_ view w; Time := Time m;
         log := RSSetViewports (pDeviceContext_ w) 1
                  (resize_viewport width height)
                :: Release backBuffer
                :: OMSetRenderTargets (pDeviceContext_ w) 1 view
                :: viewed |}.
Proof.
  intros Hcom Hold Hsc Hdev Hctx. cbv zeta.
  rewrite resizeSwapChain_runs. cbv zeta. rewrite Hold, Hsc, Hdev, Hctx.
  repeat match goal with
         | |- context [if FAILED ?x then _ else _] =>
             destruct (FAILED x) eqn:?
         end; try reflexivity.
  known. reflexivity.
Qed.

(** Whatever happens, [resizeSwapChain] makes calls of its own kind only,
    touches no member but [pRenderTargetView_], and does not call
    [exit]. *)
Lemma resizeSwapChain_frame os m width height :
  let o := resizeSwapChain width height os m in
  stable (window m) (window (machine_of o)) /\
  is_fullscreen_ (window (machine_of o)) = is_fullscreen_ (window m) /\
  Time (machine_of o) = Time m /\
  extends resize_call (log m) (log (machine_of o)) /\
  (forall status m', o <> Exited status m').
Proof.
  cbv zeta. rewrite resizeSwapChain_runs. cbv zeta.
  repeat match goal with
         | |- context [if ?b then _ else _] => destruct b
         end;
    cbn [machine_of window Time log];
    (split; [repeat split|]); (split; [reflexivity|]);
    (split; [reflexivity|]); (split; [grow resize_call | discriminate]).
Qed.

(** ** [renderFrame] *)

Lemma renderFrame_eq os m :
  let w := window m in
  let t := Float32.add (Time m) Time_step in
  renderFrame os m =
  if valid os (pDeviceContext_ w) then
    if valid os (pSwapChain_ w) then
      Returned S_OK
        {| window := w; Time := t;
           log := rev (frame_calls w t) ++ log m |}
    else
      Faulted
        {| window := w; Time := t;
           log := rev (frame_calls_drawn w t) ++ log m |}
  else Faulted {| window := w; Time := t; log := log m |}.
Proof.
  cbv zeta.
  unfold renderFrame, deviceCtx, swapChain, vertexShader, pixelShader.
  step. step. step.
  destruct (valid os (pDeviceContext_ (window m))) eqn:Hctx;
    [|step; known; reflexivity].
  walk; reflexivity.
Qed.

Lemma renderFrame_runs os m :
  valid os (pDeviceContext_ (window m)) = true ->
  valid os (pSwapChain_ (window m)) = true ->
  renderFrame os m =
  Returned S_OK
    {| window := window m;
       Time := Float32.add (Time m) Time_step;
       log := rev (frame_calls (window m) (Float32.add (Time m) Time_step))
              ++ log m |}.
Proof.
  intros Hctx Hsc. rewrite renderFrame_eq. cbv zeta. rewrite Hctx, Hsc.
  reflexivity.
Qed.


Lemma extends_frame_calls w t l :
  extends (frame_call w) l (rev (frame_calls w t) ++ l).
Proof.
  cbn. repeat (apply extends_cons; [cbn; auto|]). apply extends_refl.
Qed.

Lemma extends_frame_calls_drawn w t l :
  extends (frame_call w) l (rev (frame_calls_drawn w t) ++ l).
Proof.
  cbn. repeat (apply extends_cons; [cbn; auto|]). apply extends_refl.
Qed.

Lemma renderFrame_frame os m :
  let o := renderFrame os m in
  window (machine_of o) = window m /\
  Time (machine_of o) = Float32.add (Time m) Time_step /\
  extends (frame_call (window m)) (log m) (log (machine_of o)) /\
  (forall status m', o <> Exited status m').
Proof.
  cbv zeta. rewrite renderFrame_eq. cbv zeta.
  destruct (valid os (pDeviceContext_ (window m)));
    [destruct (valid os (pSwapChain_ (window m)))|];
    cbn [machine_of window Time log];
    (split; [reflexivity|]); (split; [reflexivity|]);
    (split; [|discriminate]).
  - apply extends_frame_calls.
  - apply extends_frame_calls_drawn.
  - apply extends_refl.
Qed.

(** ** [WindowProc] *)

Lemma resize_call_message_call c : resize_call c -> message_call c.
Proof. destruct c; cbn; auto. Qed.

(** The F11 branch: the toggle needs the swap chain; with it, what
    happens next is up to [resizeSwapChain]. *)
Lemma WindowProc_F11 os m wnd lPar :
  let m1 := toggled os m wnd in
  WindowProc wnd WM_KEYDOWN VK_F11 lPar os m =
  if valid os (pSwapChain_ (window m)) then
    match resizeSwapChain (client_width os m1) (client_height os m1) os m1
    with
    | Returned hr m2 =>
        if FAILED hr
        then Exited 1 {| window := window m2; Time := Time m2;
                         log := exit 1 :: log m2 |}
        else Returned 0 m2
    | Exited status m2 => Exited status m2
    | Faulted m2 => Faulted m2
    end
  else
    Faulted
      {| window := set_is_fullscreen_ (negb (is_fullscreen_ (window m)))
                     (window m);
         Time := Time m;
         log := GetWindowLongPtr wnd GWLP_USERDATA :: log m |}.
Proof.
  intro m1. unfold WindowProc. rewrite !Z.eqb_refl. run.
  rewrite toggleFullscreen_runs. cbv zeta. tidy.
  destruct (valid os (pSwapChain_ (window m))); [|reflexivity].
  run. unfold m1, toggled, client_width, client_height. cbn [log window].
  destruct (resizeSwapChain _ _ _ _) as [hr m2|status m2|m2];
    [|reflexivity|reflexivity].
  run. destruct (FAILED hr); reflexivity.
Qed.

Lemma WindowProc_WM_DESTROY os m wnd wPar lPar :
  WindowProc wnd WM_DESTROY wPar lPar os m =
  Returned 0
    {| window := window m; Time := Time m;
       log := PostQuitMessage 0 :: GetWindowLongPtr wnd GWLP_USERDATA
                :: log m |}.
Proof. unfold WindowProc. run. reflexivity. Qed.

Lemma WindowProc_default os m wnd msg wPar lPar :
  msg <> WM_KEYDOWN -> msg <> WM_SIZE -> msg <> WM_DESTROY ->
  let asked :=
    DefWindowProc wnd msg wPar lPar
      :: GetWindowLongPtr wnd GWLP_USERDATA :: log m in
  WindowProc wnd msg wPar lPar os m =
  Returned (os_hresult os asked)
    {| window := window m; Time := Time m; log := asked |}.
Proof.
  intros H1 H2 H3. unfold WindowProc.
  apply Z.eqb_neq in H1, H2, H3. rewrite H1, H2, H3. run. reflexivity.
Qed.

(** Any message but F11 down: [WindowProc] returns, having touched
    nothing. *)
Lemma WindowProc_idle os m wnd msg wPar lPar :
  (msg =? WM_KEYDOWN) && (wPar =? VK_F11) = false ->
  exists r m',
    WindowProc wnd msg wPar lPar os m = Returned r m' /\
    window m' = window m /\ Time m' = Time m /\
    extends idle_call (log m) (log m').
Proof.
  intros Hno. unfold WindowProc.
  destruct (msg =? WM_KEYDOWN) eqn:Emsg.
  - cbn [andb] in Hno. rewrite Hno. run.
    do 2 eexists. split; [reflexivity|]. cbn [window Time log].
    repeat split. grow idle_call.
  - run.
    repeat match goal with
           | |- context [if ?b then _ else _] => destruct b
           end;
      do 2 eexists; (split; [reflexivity|]);
      cbn [window Time log]; repeat split; grow idle_call.
Qed.

Lemma toggled_frame os m wnd :
  stable (window m) (window (toggled os m wnd)) /\
  is_fullscreen_ (window (toggled os m wnd))
    = negb (is_fullscreen_ (window m)) /\
  Time (toggled os m wnd) = Time m /\
  extends message_call (log m) (log (toggled os m wnd)).
Proof.
  unfold toggled. cbn [window Time log].
  split; [repeat split|]. split; [reflexivity|]. split; [reflexivity|].
  destruct (FAILED _); grow message_call.
Qed.

(** Whatever the message and whatever happens, [WindowProc] makes
    message-handling calls only, and leaves [Time] and the stable members
    alone. *)
Lemma WindowProc_frame os m wnd msg wPar lPar :
  let m' := machine_of (WindowProc wnd msg wPar lPar os m) in
  extends message_call (log m) (log m') /\
  stable (window m) (window m') /\
  Time m' = Time m.
Proof.
  destruct ((msg =? WM_KEYDOWN) && (wPar =? VK_F11)) eqn:Hkey.
  - apply andb_true_iff in Hkey. destruct Hkey as (Hmsg & Hkey).
    apply Z.eqb_eq in Hmsg, Hkey. subst msg wPar.
    cbv zeta. rewrite WindowProc_F11. cbv zeta.
    destruct (valid os (pSwapChain_ (window m))).
    + destruct (toggled_frame os m wnd) as (Hs1 & _ & Ht1 & Hl1).
      pose proof (resizeSwapChain_frame os (toggled os m wnd)
                    (client_width os (toggled os m wnd))
                    (client_height os (toggled os m wnd))) as H.
      cbv zeta in H. revert H.
      destruct (resizeSwapChain _ _ _ _) as [hr m2|status m2|m2];
        cbn [machine_of]; intros (Hs2 & _ & Ht2 & Hl2 & _);
        assert (Hl : extends message_call (log m) (log m2))
          by (eapply extends_trans; [exact Hl1|];
              eapply extends_weaken;
                [exact resize_call_message_call | exact Hl2]);
        [destruct (FAILED hr); cbn [machine_of window Time log]| |];
        (split; [first [exact Hl | apply extends_cons; [exact I | exact Hl]]|]);
        (split; [exact (stable_trans _ _ _ Hs1 Hs2) | congruence]).
    + cbn [machine_of window Time log].
      split; [grow message_call|]. split; [repeat split | reflexivity].
  - destruct (WindowProc_idle os m wnd msg wPar lPar Hkey)
      as (r & m' & -> & Hw & Ht & Hl).
    cbn [machine_of]. rewrite Hw.
    split; [eapply extends_weaken; [|exact Hl]; call_cases|].
    split; [apply stable_refl | exact Ht].
Qed.

(** [WindowProc] ends the process through [exit] in one case only. *)
Lemma WindowProc_exits wnd msg wPar lPar os m status m' :
  WindowProc wnd msg wPar lPar os m = Exited status m' <->
  msg = WM_KEYDOWN /\ wPar = VK_F11 /\ status = 1 /\
  valid os (pSwapChain_ (window m)) = true /\
  exists hr m2,
    resizeSwapChain (client_width os (toggled os m wnd))
      (client_height os (toggled os m wnd)) os (toggled os m wnd)
      = Returned hr m2 /\
    FAILED hr = true /\
    m' = {| window := window m2; Time := Time m2; log := exit 1 :: log m2 |}.
Proof.
  split.
  - intros Hexit.
    destruct ((msg =? WM_KEYDOWN) && (wPar =? VK_F11)) eqn:Hkey.
    + apply andb_true_iff in Hkey. destruct Hkey as (Hmsg & Hkey).
      apply Z.eqb_eq in Hmsg, Hkey. subst msg wPar.
      rewrite WindowProc_F11 in Hexit. cbv zeta in Hexit.
      destruct (valid os (pSwapChain_ (window m))); [|discriminate].
      pose proof (resizeSwapChain_frame os (toggled os m wnd)
                    (client_width os (toggled os m wnd))
                    (client_height os (toggled os m wnd))) as H.
      cbv zeta in H. destruct H as (_ & _ & _ & _ & Hno).
      destruct (resizeSwapChain _ _ _ _) as [hr m2|status2 m2|m2] eqn:E;
        [|destruct (Hno status2 m2 eq_refl)|discriminate].
      destruct (FAILED hr) eqn:Hfail; [|discriminate].
      injection Hexit as <- <-.
      repeat split. exists hr, m2. repeat split. exact Hfail.
    + destruct (WindowProc_idle os m wnd msg wPar lPar Hkey)
        as (r & m2 & E & _).
      rewrite E in Hexit. discriminate.
  - intros (-> & -> & -> & Hsc & hr & m2 & E & Hfail & ->).
    rewrite WindowProc_F11. cbv zeta. rewrite Hsc, E, Hfail. reflexivity.
Qed.

(** ** One iteration of the loop *)

Lemma message_call_loop_call w c : message_call c -> loop_call w c.
Proof. destruct c; cbn; auto. Qed.

Lemma frame_call_loop_call w c : frame_call w c -> loop_call w c.
Proof. destruct c; cbn; auto. Qed.

Lemma loop_call_stable w w' c :
  stable w w' -> loop_call w' c -> loop_call w c.
Proof.
  unfold stable. intros Hs. decompose [and] Hs.
  destruct c; cbn; try tauto; intros [Hm|Hf]; auto; right; intuition congruence.
Qed.

(** With no message pending, the iteration is [renderFrame]. *)
Lemma mainloop_body_no_message msg os m :
  os_message os (PeekMessage PM_REMOVE :: log m) = None ->
  mainloop_body msg os m =
  match renderFrame os (peeked m) with
  | Returned _ m' => Returned msg m'
  | Exited status m' => Exited status m'
  | Faulted m' => Faulted m'
  end.
Proof.
  intros Hq. unfold mainloop_body. run. rewrite Hq. run. reflexivity.
Qed.


Lemma mainloop_body_message msg os m q :
  os_message os (PeekMessage PM_REMOVE :: log m) = Some q ->
  mainloop_body msg os m =
  if for_our_window m q then
    match WindowProc (hwnd q) (message q) (wParam q) (lParam q) os
            (dispatched m q) with
    | Returned _ m' => Returned q m'
    | Exited status m' => Exited status m'
    | Faulted m' => Faulted m'
    end
  else Returned q (dispatched m q).
Proof.
  intros Hq. unfold mainloop_body, dispatch. run. rewrite Hq. run.
  unfold for_our_window, dispatched.
  destruct (negb (is_null (hwnd q)) && N.eqb (hwnd q) (hWnd_ (window m))).
  - run. destruct (WindowProc _ _ _ _ _ _); reflexivity.
  - reflexivity.
Qed.

(** The calls of a message iteration after the three of the loop itself
    are those of [WindowProc]. *)
Lemma mainloop_body_message_frame msg os m q :
  os_message os (PeekMessage PM_REMOVE :: log m) = Some q ->
  let m' := machine_of (mainloop_body msg os m) in
  extends message_call (log (dispatched m q)) (log m') /\
  stable (window m) (window m') /\
  Time m' = Time m.
Proof.
  intros Hq. rewrite (mainloop_body_message msg os m q Hq).
  destruct (for_our_window m q).
  - pose proof (WindowProc_frame os (dispatched m q) (hwnd q) (message q)
                  (wParam q) (lParam q)) as H.
    destruct (WindowProc _ _ _ _ _ _); exact H.
  - cbn [machine_of]. split; [apply extends_refl|].
    split; [apply stable_refl | reflexivity].
Qed.

Lemma mainloop_body_frame msg os m :
  let m' := machine_of (mainloop_body msg os m) in
  extends (loop_call (window m)) (log m) (log m') /\
  stable (window m) (window m').
Proof.
  destruct (os_message os (PeekMessage PM_REMOVE :: log m)) as [q|] eqn:Hq.
  - destruct (mainloop_body_message_frame msg os m q Hq) as (Hl & Hs & _).
    split; [|exact Hs].
    eapply extends_trans;
      [|eapply extends_weaken; [apply message_call_loop_call | exact Hl]].
    cbn. repeat (apply extends_cons; [exact I|]). apply extends_refl.
  - rewrite (mainloop_body_no_message msg os m Hq).
    pose proof (renderFrame_frame os (peeked m)) as H. cbv zeta in H.
    destruct H as (Hw & _ & Hl & _).
    assert (H : extends (loop_call (window m)) (log m)
                  (log (machine_of (renderFrame os (peeked m)))) /\
                stable (window m)
                  (window (machine_of (renderFrame os (peeked m))))).
    { split.
      - eapply extends_trans;
          [|eapply extends_weaken; [apply frame_call_loop_call | exact Hl]].
        apply extends_cons; [exact I | apply extends_refl].
      - rewrite Hw. apply stable_refl. }
    destruct (renderFrame os (peeked m)); exact H.
Qed.

(** ** The loop *)

Lemma mainloop_from_frame fuel : forall msg os m,
  let m' := last_machine (mainloop_from fuel msg os m) in
  extends (loop_call (window m)) (log m) (log m') /\
  stable (window m) (window m').
Proof.
  induction fuel as [|fuel IH]; intros msg os m; cbn [mainloop_from];
    destruct (loop_condition msg);
    try (cbn; split; [apply extends_refl | apply stable_refl]).
  pose proof (mainloop_body_frame msg os m) as (Hl & Hs).
  destruct (mainloop_body msg os m) as [msg' m1|status m1|m1];
    cbn [machine_of] in Hl, Hs.
  - specialize (IH msg' os m1). cbn zeta in IH. destruct IH as (Hl' & Hs').
    split.
    + eapply extends_trans; [exact Hl|].
      eapply extends_weaken; [|exact Hl'].
      intros c. apply loop_call_stable. exact Hs.
    + eapply stable_trans; eassumption.
  - cbn [last_machine machine_of]. split; assumption.
  - cbn [last_machine machine_of]. split; assumption.
Qed.

(** An invariant of the loop: a property of the machines in which an
    iteration starts, kept by every iteration that does not die. *)
Lemma mainloop_from_invariant (Inv : Machine -> Prop) os :
  (forall msg m,
     Inv m -> faulted (mainloop_body msg os m) = false ->
     Inv (machine_of (mainloop_body msg os m))) ->
  forall fuel msg m,
    Inv m -> died (mainloop_from fuel msg os m) = false ->
    Inv (last_machine (mainloop_from fuel msg os m)).
Proof.
  intros Hbody. induction fuel as [|fuel IH]; intros msg m Hm;
    cbn [mainloop_from]; destruct (loop_condition msg);
    try (intros _; exact Hm).
  specialize (Hbody msg m Hm).
  destruct (mainloop_body msg os m) as [msg1 m1|status m1|m1].
  - intros Hrun. apply IH; [apply Hbody; reflexivity | exact Hrun].
  - intros _. apply Hbody. reflexivity.
  - discriminate.
Qed.

(** ** Initialisation *)

Lemma createWindow_runs os m :
  let request := window_request os (log m) in
  let wnd := os_object os request 0 in
  createWindow os m =
  Returned wnd
    {| window := window m;
       Time := Time m;
       log := if negb (is_null wnd)
              then SetWindowLongPtr wnd GWLP_USERDATA :: ShowWindow wnd 1
                     :: request
              else request |}.
Proof.
  unfold createWindow, window_request. run.
  destruct (negb (is_null _)); reflexivity.
Qed.

Lemma window_created_log os m :
  let request := window_request os (log m) in
  let wnd := os_object os request 0 in
  window_created os m =
  {| window := set_hWnd_ wnd (window m);
     Time := Time m;
     log := if negb (is_null wnd)
            then SetWindowLongPtr wnd GWLP_USERDATA :: ShowWindow wnd 1
                   :: request
            else request |}.
Proof.
  cbv zeta. unfold window_created. rewrite createWindow_runs. reflexivity.
Qed.

Lemma window_created_extends os m :
  extends setup_call (log m) (log (window_created os m)).
Proof.
  rewrite window_created_log. cbn [log]. unfold window_request.
  destruct (negb _); grow setup_call.
Qed.

(** [initGraphics], path by path. *)
Lemma initGraphics_runs os m :
  let dev := pDevice_ (window m) in
  let ctx := pDeviceContext_ (window m) in
  let created := CreateBuffer dev bufferDesc (Some vertices) :: log m in
  let vb := os_object os created 0 in
  let hr := os_hresult os created in
  let w := set_pVertexBuffer_ vb (window m) in
  initGraphics os m =
  if valid os dev then
    if FAILED hr then
      Returned hr
        {| window := w; Time := Time m;
           log := cerr "Failed to create buffer" :: created |}
    else if valid os ctx then
      Returned hr
        {| window := w; Time := Time m;
           log := IASetPrimitiveTopology ctx
                    D3D11_PRIMITIVE_TOPOLOGY_TRIANGLELIST
                  :: IASetVertexBuffers ctx 0 1 vb sizeof_Vertex 0
                  :: created |}
    else Faulted {| window := w; Time := Time m; log := created |}
  else Faulted m.
Proof.
  cbv zeta. unfold initGraphics, device, deviceCtx, log_error.
  walk; reflexivity.
Qed.

(** The three steps of [init], one after the other, each run only if the
    one before has succeeded. *)
Lemma init_steps os m :
  init os m =
  match initD3D os (window_created os m) with
  | Returned hr1 m1 =>
      if FAILED hr1 then Returned false m1 else
      match initPipeline os m1 with
      | Returned hr2 m2 =>
          if FAILED hr2 then Returned false m2 else
          match initGraphics os m2 with
          | Returned hr3 m3 => Returned (negb (FAILED hr3)) m3
          | Exited status m3 => Exited status m3
          | Faulted m3 => Faulted m3
          end
      | Exited status m2 => Exited status m2
      | Faulted m2 => Faulted m2
      end
  | Exited status m1 => Exited status m1
  | Faulted m1 => Faulted m1
  end.
Proof.
  unfold init, window_created.
  cbv beta iota zeta delta [bind ret assign].
  rewrite createWindow_runs. cbv zeta. cbn [window Time log].
  destruct (initD3D os _) as [hr1 m1| |]; [|reflexivity|reflexivity].
  destruct (FAILED hr1); [reflexivity|].
  destruct (initPipeline os m1) as [hr2 m2| |]; [|reflexivity|reflexivity].
  destruct (FAILED hr2); [reflexivity|].
  destruct (initGraphics os m2) as [hr3 m3| |]; [|reflexivity|reflexivity].
  destruct (FAILED hr3); reflexivity.
Qed.

(** [initD3D], path by path.  It tests the results of five calls; it
    calls methods through the device, the DXGI device, the adapter, the
    factory, the swap chain, the back buffer and the context, and tests
    none of these pointers. *)
Lemma initD3D_runs os m :
  let w := window m in
  let l1 := D3D11CreateDevice :: log m in
  let dev := os_object os l1 0 in
  let ctx := os_object os l1 1 in
  let w1 := set_pDeviceContext_ ctx (set_pDevice_ dev w) in
  let l2 := QueryInterface dev IID_IDXGIDevice :: l1 in
  let dxgiDevice := os_object os l2 0 in
  let l3 := GetAdapter dxgiDevice :: l2 in
  let dxgiAdapter := os_object os l3 0 in
  let l4 :=
    GetParent dxgiAdapter IID_IDXGIFactory2 :: Release dxgiDevice :: l3 in
  let dxgiFactory := os_object os l4 0 in
  let l5 := Release dxgiAdapter :: l4 in
  let l6 :=
    CreateSwapChainForHwnd dxgiFactory dev (hWnd_ w) swapChainDesc :: l5 in
  let sc := os_object os l6 0 in
  let w2 := set_pSwapChain_ sc w1 in
  let l7 := Release dxgiFactory :: l6 in
  let l8 := GetBuffer sc 0 IID_ID3D11Texture2D :: l7 in
  let backBuffer := os_object os l8 0 in
  let l9 := CreateRenderTargetView dev backBuffer :: l8 in
  let rtv := os_object os l9 0 in
  let w3 := set_pRenderTargetView_ rtv w2 in
  let l10 := Release backBuffer :: l9 in
  let l11 :=
    RSSetViewports ctx 1 initial_viewport
      :: OMSetRenderTargets ctx 1 rtv :: l10 in
  initD3D os m =
  if FAILED (os_hresult os l1) then
    Returned (os_hresult os l1)
      {| window := w1; Time := Time m;
         log := cerr "Failed to create device" :: l1 |}
  else if valid os dev then
    if FAILED (os_hresult os l2) then
      Returned (os_hresult os l2)
        {| window := w1; Time := Time m;
           log := cerr "Failed to query IDXGIDevice interface" :: l2 |}
    else if valid os dxgiDevice then
      if FAILED (os_hresult os l3) then
        Returned (os_hresult os l3)
          {| window := w1; Time := Time m;
             log := cerr "Failed to GetAdapter from device" :: l3 |}
      else if valid os dxgiAdapter then
        if FAILED (os_hresult os l4) then
          Returned (os_hresult os l4)
            {| window := w1; Time := Time m;
               log := cerr "Failed to IDXGIFactory2 from adapter" :: l5 |}
        else if valid os dxgiFactory then
          if FAILED (os_hresult os l6) then
            Returned (os_hresult os l6)
              {| window := w2; Time := Time m;
                 log := cerr "Failed to create swapchain" :: l7 |}
          else if valid os sc then
            if valid os backBuffer then
              if valid os ctx then
                Returned (os_hresult os l6)
                  {| window := w3; Time := Time m; log := l11 |}
              else Faulted {| window := w3; Time := Time m; log := l10 |}
            else Faulted {| window := w3; Time := Time m; log := l9 |}
          else Faulted {| window := w2; Time := Time m; log := l7 |}
        else Faulted {| window := w1; Time := Time m; log := l5 |}
      else
        Faulted {| window := w1; Time := Time m;
                   log := Release dxgiDevice :: l3 |}
    else Faulted {| window := w1; Time := Time m; log := l2 |}
  else Faulted {| window := w1; Time := Time m; log := l1 |}.
Proof.
  cbv zeta.
  repeat match goal with
         | |- _ = (if ?b then _ else _) => destruct b eqn:?
         end;
    unfold initD3D, device, deviceCtx, swapChain, hWnd, log_error;
    walk; reflexivity.
Qed.

(** [initPipeline], path by path.  It tests the two compilations and no
    other call; of the pointers it calls through it tests the error blob
    only. *)
Lemma initPipeline_runs os m :
  let w := window m in
  let dev := pDevice_ w in
  let ctx := pDeviceContext_ w in
  let l1 := D3DCompile vertexShaderSrc "VSMain" "vs_5_0" :: log m in
  let vsBlob := os_object os l1 0 in
  let l2 := D3DCompile pixelShaderSrc "PSMain" "ps_5_0" :: l1 in
  let psBlob := os_object os l2 0 in
  let l3 := CreateVertexShader dev vsBlob :: l2 in
  let w1 := set_pVertexShader_ (os_object os l3 0) w in
  let l4 := CreatePixelShader dev psBlob :: l3 in
  let w2 := set_pPixelShader_ (os_object os l4 0) w1 in
  let l5 := CreateInputLayout dev layout vsBlob :: l4 in
  let il := os_object os l5 0 in
  let w3 := set_pInputLayout_ il w2 in
  let l6 :=
    Release psBlob :: Release vsBlob :: IASetInputLayout ctx il :: l5 in
  let l7 := CreateBuffer dev cbd None :: l6 in
  let cb := os_object os l7 0 in
  let l8 := VSSetConstantBuffers ctx 0 1 cb :: l7 in
  let rejected l :=
    let errorBlob := os_object os l 1 in
    if is_null errorBlob then
      Returned (os_hresult os l)
        {| window := w; Time := Time m; log := l |}
    else if valid os errorBlob then
      Returned (os_hresult os l)
        {| window := w; Time := Time m;
           log := Release errorBlob :: cerr (blob_text os errorBlob) :: l |}
    else Faulted {| window := w; Time := Time m; log := l |} in
  initPipeline os m =
  if FAILED (os_hresult os l1) then rejected l1
  else if FAILED (os_hresult os l2) then rejected l2
  else if valid os dev then
    if valid os vsBlob then
      if valid os psBlob then
        if valid os ctx then
          Returned (os_hresult os l2)
            {| window := set_pConstBuffer_ cb w3; Time := Time m;
               log := l8 |}
        else Faulted {| window := w3; Time := Time m; log := l5 |}
      else Faulted {| window := w1; Time := Time m; log := l3 |}
    else Faulted {| window := w; Time := Time m; log := l2 |}
  else Faulted {| window := w; Time := Time m; log := l2 |}.
Proof.
  cbv zeta.
  repeat match goal with
         | |- _ = (if ?b then _ else _) => destruct b eqn:?
         end;
    unfold initPipeline, report_compile_error, device, deviceCtx, log_error;
    walk; try reflexivity; destruct m; reflexivity.
Qed.

Ltac split_tests :=
  repeat match goal with
         | |- context [if ?b then _ else _] => destruct b eqn:?
         end.

(** What [initD3D] does whatever happens: it leaves [Time], the flag, the
    window handle and the pipeline members alone, makes device, DXGI and
    render-target calls only, [D3D11CreateDevice] once among them, and does
    not call [exit].  When it returns success, it has called methods
    through the device, the context and the swap chain it keeps: they are
    valid. *)
Lemma initD3D_frame os m :
  let o := initD3D os m in
  let m' := machine_of o in
  Time m' = Time m /\
  is_fullscreen_ (window m') = is_fullscreen_ (window m) /\
  hWnd_ (window m') = hWnd_ (window m) /\
  (pVertexShader_ (window m') = pVertexShader_ (window m) /\
   pPixelShader_ (window m') = pPixelShader_ (window m) /\
   pInputLayout_ (window m') = pInputLayout_ (window m) /\
   pVertexBuffer_ (window m') = pVertexBuffer_ (window m) /\
   pConstBuffer_ (window m') = pConstBuffer_ (window m)) /\
  extends initD3D_call (log m) (log m') /\
  count is_D3D11CreateDevice (log m')
    = S (count is_D3D11CreateDevice (log m)) /\
  (forall status m2, o <> Exited status m2) /\
  (forall hr m2,
     o = Returned hr m2 -> FAILED hr = false ->
     valid os (pDevice_ (window m2)) = true /\
     valid os (pDeviceContext_ (window m2)) = true /\
     valid os (pSwapChain_ (window m2)) = true).
Proof.
  cbv zeta. rewrite initD3D_runs. cbv zeta.
  split_tests; tidy;
    (split; [reflexivity|]); (split; [reflexivity|]);
    (split; [reflexivity|]); (split; [repeat split|]);
    (split; [grow initD3D_call|]); (split; [reflexivity|]);
    (split; [discriminate|]);
    intros hr m2 E Hok; try discriminate E;
    injection E as <- <-; try congruence;
    tidy; repeat split; assumption.
Qed.

(** What [initPipeline] does whatever happens. *)
Lemma initPipeline_frame os m :
  let o := initPipeline os m in
  let m' := machine_of o in
  Time m' = Time m /\
  is_fullscreen_ (window m') = is_fullscreen_ (window m) /\
  (hWnd_ (window m') = hWnd_ (window m) /\
   pRenderTargetView_ (window m') = pRenderTargetView_ (window m) /\
   pDevice_ (window m') = pDevice_ (window m) /\
   pDeviceContext_ (window m') = pDeviceContext_ (window m) /\
   pSwapChain_ (window m') = pSwapChain_ (window m) /\
   pVertexBuffer_ (window m') = pVertexBuffer_ (window m)) /\
  extends initPipeline_call (log m) (log m') /\
  (forall status m2, o <> Exited status m2) /\
  (forall hr m2,
     o = Returned hr m2 -> FAILED hr = true ->
     window m2 = window m /\
     count creates_pipeline_object (log m2)
       = count creates_pipeline_object (log m)).
Proof.
  cbv zeta. rewrite initPipeline_runs. cbv zeta.
  split_tests; tidy;
    (split; [reflexivity|]); (split; [reflexivity|]);
    (split; [repeat split|]);
    (split; [grow initPipeline_call|]);
    (split; [discriminate|]);
    intros hr m2 E Hbad; try discriminate E;
    injection E as <- <-; try congruence;
    split; reflexivity.
Qed.

(** What [initGraphics] does whatever happens. *)
Lemma initGraphics_frame os m :
  let o := initGraphics os m in
  let m' := machine_of o in
  Time m' = Time m /\
  is_fullscreen_ (window m') = is_fullscreen_ (window m) /\
  (hWnd_ (window m') = hWnd_ (window m) /\
   pDevice_ (window m') = pDevice_ (window m) /\
   pDeviceContext_ (window m') = pDeviceContext_ (window m) /\
   pSwapChain_ (window m') = pSwapChain_ (window m)) /\
  extends startup_call (log m) (log m') /\
  count creates_constant_buffer (log m')
    = count creates_constant_buffer (log m) /\
  count is_D3D11CreateDevice (log m') = count is_D3D11CreateDevice (log m) /\
  (forall status m2, o <> Exited status m2).
Proof.
  cbv zeta. rewrite initGraphics_runs. cbv zeta.
  split_tests; tidy;
    (split; [reflexivity|]); (split; [reflexivity|]);
    (split; [repeat split|]);
    (split; [grow startup_call|]); (split; [reflexivity|]);
    (split; [reflexivity | discriminate]).
Qed.

Lemma initD3D_call_startup c : initD3D_call c -> startup_call c.
Proof. destruct c; cbn; tauto. Qed.

Lemma initPipeline_call_startup c : initPipeline_call c -> startup_call c.
Proof. destruct c; cbn; tauto. Qed.

Lemma startup_call_setup c : startup_call c -> setup_call c.
Proof. destruct c; cbn; tauto. Qed.

(** What [init] does whatever happens: it creates the window and goes
    through its three steps, makes no call of the loop, and does not call
    [exit]. *)
Lemma init_frame os m :
  let m0 := window_created os m in
  let o := init os m in
  let m1 := machine_of o in
  Time m1 = Time m /\
  is_fullscreen_ (window m1) = is_fullscreen_ (window m) /\
  hWnd_ (window m1) = hWnd_ (window m0) /\
  extends startup_call (log m0) (log m1) /\
  extends setup_call (log m) (log m1) /\
  count is_D3D11CreateDevice (log m1)
    = S (count is_D3D11CreateDevice (log m)) /\
  (forall status m', o <> Exited status m').
Proof.
  cbv zeta. rewrite init_steps.
  assert (H0 : Time (window_created os m) = Time m /\
               is_fullscreen_ (window (window_created os m))
                 = is_fullscreen_ (window m) /\
               count is_D3D11CreateDevice (log (window_created os m))
                 = count is_D3D11CreateDevice (log m)).
  { rewrite window_created_log. cbn [Time window log is_fullscreen_ set_hWnd_].
    repeat split. unfold window_request. destruct (negb _); reflexivity. }
  destruct H0 as (Ht0 & Hf0 & Hc0).
  pose proof (window_created_extends os m) as Hl0.
  set (m0 := window_created os m) in *.
  pose proof (initD3D_frame os m0) as H1. cbv zeta in H1.
  destruct H1 as (Ht1 & Hf1 & Hh1 & _ & Hl1 & Hc1 & Hx1 & _).
  assert (Hgoal : forall (o : Outcome bool) m1,
            machine_of o = m1 ->
            (forall status m', o <> Exited status m') ->
            Time m1 = Time m0 ->
            is_fullscreen_ (window m1) = is_fullscreen_ (window m0) ->
            hWnd_ (window m1) = hWnd_ (window m0) ->
            extends startup_call (log m0) (log m1) ->
            count is_D3D11CreateDevice (log m1)
              = S (count is_D3D11CreateDevice (log m0)) ->
            Time (machine_of o) = Time m /\
            is_fullscreen_ (window (machine_of o))
              = is_fullscreen_ (window m) /\
            hWnd_ (window (machine_of o)) = hWnd_ (window m0) /\
            extends startup_call (log m0) (log (machine_of o)) /\
            extends setup_call (log m) (log (machine_of o)) /\
            count is_D3D11CreateDevice (log (machine_of o))
              = S (count is_D3D11CreateDevice (log m)) /\
            (forall status m', o <> Exited status m')).
  { intros o m1 <- Hx Ht Hf Hh Hl Hc.
    split; [congruence|]. split; [congruence|]. split; [exact Hh|].
    split; [exact Hl|]. split.
    - eapply extends_trans; [exact Hl0|].
      eapply extends_weaken; [exact startup_call_setup | exact Hl].
    - split; [congruence | exact Hx]. }
  assert (Hs1 : extends startup_call (log m0)
                  (log (machine_of (initD3D os m0)))).
  { eapply extends_weaken; [exact initD3D_call_startup | exact Hl1]. }
  destruct (initD3D os m0) as [hr1 m1|status m1|m1];
    cbn [machine_of] in Ht1, Hf1, Hh1, Hl1, Hc1, Hs1;
    [|destruct (Hx1 status m1 eq_refl)
     |apply (Hgoal (Faulted m1) m1 eq_refl); [discriminate|..]; assumption].
  destruct (FAILED hr1);
    [apply (Hgoal (Returned false m1) m1 eq_refl); [discriminate|..];
     assumption|].
  pose proof (initPipeline_frame os m1) as H2. cbv zeta in H2.
  destruct H2 as (Ht2 & Hf2 & (Hh2 & _) & Hl2 & Hx2 & _).
  assert (Hs2 : extends startup_call (log m0)
                  (log (machine_of (initPipeline os m1)))).
  { eapply extends_trans; [exact Hs1|].
    eapply extends_weaken; [exact initPipeline_call_startup | exact Hl2]. }
  assert (Hc2 : count is_D3D11CreateDevice
                  (log (machine_of (initPipeline os m1)))
                = S (count is_D3D11CreateDevice (log m0))).
  { rewrite <- Hc1.
    apply (extends_count initPipeline_call); [call_cases | exact Hl2]. }
  destruct (initPipeline os m1) as [hr2 m2|status m2|m2];
    cbn [machine_of] in Ht2, Hf2, Hh2, Hl2, Hs2, Hc2;
    [|destruct (Hx2 status m2 eq_refl)
     |apply (Hgoal (Faulted m2) m2 eq_refl); [discriminate|..]; congruence].
  destruct (FAILED hr2);
    [apply (Hgoal (Returned false m2) m2 eq_refl); [discriminate|..];
     congruence|].
  pose proof (initGraphics_frame os m2) as H3. cbv zeta in H3.
  destruct H3 as (Ht3 & Hf3 & (Hh3 & _) & Hl3 & _ & Hc3 & Hx3).
  assert (Hs3 : extends startup_call (log m0)
                  (log (machine_of (initGraphics os m2)))).
  { eapply extends_trans; [exact Hs2 | exact Hl3]. }
  destruct (initGraphics os m2) as [hr3 m3|status m3|m3];
    cbn [machine_of] in Ht3, Hf3, Hh3, Hl3, Hc3, Hs3;
    [apply (Hgoal (Returned (negb (FAILED hr3)) m3) m3 eq_refl)
    |destruct (Hx3 status m3 eq_refl)
    |apply (Hgoal (Faulted m3) m3 eq_refl)];
    first [discriminate | congruence].
Qed.

Lemma init_never_exits os m status m' : init os m <> Exited status m'.
Proof.
  pose proof (init_frame os m) as H. cbv zeta in H.
  destruct H as (_ & _ & _ & _ & _ & _ & Hx). apply Hx.
Qed.

(** When [init] has returned [true], it has been through every step: the
    device, the context and the swap chain are valid, and its last calls
    have created the vertex buffer, bound it and set the topology. *)
Lemma init_true os m m1 :
  init os m = Returned true m1 ->
  valid os (pDevice_ (window m1)) = true /\
  valid os (pDeviceContext_ (window m1)) = true /\
  valid os (pSwapChain_ (window m1)) = true /\
  exists older,
    let created :=
      CreateBuffer (pDevice_ (window m1)) bufferDesc (Some vertices)
        :: older in
    log m1 =
      IASetPrimitiveTopology (pDeviceContext_ (window m1))
        D3D11_PRIMITIVE_TOPOLOGY_TRIANGLELIST
      :: IASetVertexBuffers (pDeviceContext_ (window m1)) 0 1
           (pVertexBuffer_ (window m1)) sizeof_Vertex 0
      :: created /\
    pVertexBuffer_ (window m1) = os_object os created 0 /\
    FAILED (os_hresult os created) = false.
Proof.
  rewrite init_steps.
  pose proof (initD3D_frame os (window_created os m)) as H1.
  cbv zeta in H1. destruct H1 as (_ & _ & _ & _ & _ & _ & _ & Hv1).
  destruct (initD3D os (window_created os m)) as [hr1 m1'| |];
    [|discriminate|discriminate].
  destruct (FAILED hr1) eqn:F1; [discriminate|].
  destruct (Hv1 hr1 m1' eq_refl F1) as (Hdev & Hctx & Hsc).
  pose proof (initPipeline_frame os m1') as H2. cbv zeta in H2.
  destruct H2 as (_ & _ & (_ & _ & Hd2 & Hc2 & Hs2 & _) & _).
  destruct (initPipeline os m1') as [hr2 m2| |];
    [|discriminate|discriminate].
  cbn [machine_of] in *.
  destruct (FAILED hr2); [discriminate|].
  rewrite initGraphics_runs. cbv zeta.
  rewrite Hd2, Hc2, Hdev, Hctx.
  match goal with
  | |- context [if FAILED ?x then _ else _] => destruct (FAILED x) eqn:F3
  end; cbv beta iota; rewrite F3; cbn [negb]; intros [= <-].
  cbn [window log pDevice_ pDeviceContext_ pSwapChain_ pVertexBuffer_
       set_pVertexBuffer_].
  rewrite ?Hd2, ?Hc2, ?Hs2.
  split; [exact Hdev|]. split; [exact Hctx|]. split; [exact Hsc|].
  exists (log m2). cbv zeta. repeat split. exact F3.
Qed.

(** What a failed [init] has done: it has not reached the end of
    [initGraphics], so it has neither bound the vertex buffer nor set the
    topology. *)
Lemma init_failed_calls os m m1 :
  init os m = Returned false m1 ->
  extends before_input_assembly (log m) (log m1).
Proof.
  rewrite init_steps.
  assert (H0 : extends before_input_assembly (log m)
                 (log (window_created os m))).
  { rewrite window_created_log. cbn [log]. unfold window_request.
    destruct (negb _); grow before_input_assembly. }
  pose proof (initD3D_frame os (window_created os m)) as H1.
  cbv zeta in H1. destruct H1 as (_ & _ & _ & _ & Hl1 & _).
  destruct (initD3D os (window_created os m)) as [hr1 m1'| |];
    [|discriminate|discriminate].
  cbn [machine_of] in Hl1.
  assert (H1 : extends before_input_assembly (log m) (log m1')).
  { eapply extends_trans; [exact H0|].
    eapply extends_weaken; [|exact Hl1]. call_cases. }
  destruct (FAILED hr1); [intros [= <-]; exact H1|].
  pose proof (initPipeline_frame os m1') as H2. cbv zeta in H2.
  destruct H2 as (_ & _ & _ & Hl2 & _).
  destruct (initPipeline os m1') as [hr2 m2| |];
    [|discriminate|discriminate].
  cbn [machine_of] in Hl2.
  assert (H2 : extends before_input_assembly (log m) (log m2)).
  { eapply extends_trans; [exact H1|].
    eapply extends_weaken; [|exact Hl2]. call_cases. }
  destruct (FAILED hr2); [intros [= <-]; exact H2|].
  rewrite initGraphics_runs. cbv zeta.
  destruct (valid os (pDevice_ (window m2))); [|discriminate].
  match goal with
  | |- context [if FAILED ?x then _ else _] => destruct (FAILED x) eqn:F3
  end; cbv beta iota;
    [|destruct (valid os (pDeviceContext_ (window m2)));
      cbv beta iota; rewrite ?F3; discriminate].
  rewrite F3. cbn [negb]. intros [= <-]. cbn [log].
  do 2 (apply extends_cons; [exact I|]). exact H2.
Qed.

(** ** The F11 branch, summed up *)

Lemma after_toggle_call_not_SetFullscreenState c :
  after_toggle_call c -> is_SetFullscreenState c = false.
Proof. destruct c; cbn; tauto. Qed.

Lemma WindowProc_F11_frame os m wnd lPar :
  valid os (pSwapChain_ (window m)) = true ->
  let fs := negb (is_fullscreen_ (window m)) in
  let request :=
    SetFullscreenState (pSwapChain_ (window m)) fs
      :: GetWindowLongPtr wnd GWLP_USERDATA :: log m in
  let m' := machine_of (WindowProc wnd WM_KEYDOWN VK_F11 lPar os m) in
  is_fullscreen_ (window m') = fs /\
  extends after_toggle_call request (log m').
Proof.
  intros Hsc fs request. cbv zeta. rewrite WindowProc_F11. cbv zeta.
  rewrite Hsc.
  pose proof (resizeSwapChain_frame os (toggled os m wnd)
                (client_width os (toggled os m wnd))
                (client_height os (toggled os m wnd))) as H.
  cbv zeta in H. revert H.
  assert (Hbase : extends after_toggle_call request (log (toggled os m wnd))).
  { unfold toggled. cbn [log]. fold fs. fold request.
    destruct (FAILED _); grow after_toggle_call. }
  destruct (resizeSwapChain _ _ _ _) as [hr m2|status m2|m2];
    cbn [machine_of]; intros (_ & Hf & _ & Hl & _);
    assert (Hm2 : extends after_toggle_call request (log m2))
      by (eapply extends_trans; [exact Hbase|];
          eapply extends_weaken; [|exact Hl]; call_cases);
    [destruct (FAILED hr); cbn [machine_of window log]| |];
    (split; [exact Hf|]);
    first [exact Hm2 | apply extends_cons; [exact I | exact Hm2]].
Qed.


(** C10.  When [SetFullscreenState] fails, [toggleFullscreen] has already
    negated the flag and does not negate it back: it reports the failure
    and returns.  The swap chain stays in the state it was in, so a flag
    that agreed with the swap chain before the call disagrees with it
    afterwards. *)
Theorem toggle_not_rolled_back os m :
  let fs := negb (is_fullscreen_ (window m)) in
  let sc := pSwapChain_ (window m) in
  valid os sc = true ->
  FAILED (os_hresult os (SetFullscreenState sc fs :: log m)) = true ->
  exists m',
    toggleFullscreen os m = Returned tt m' /\
    log m' = cerr "Failed to toggle fullscreen mode."
               :: SetFullscreenState sc fs :: log m /\
    is_fullscreen_ (window m') = negb (is_fullscreen_ (window m)) /\
    swapchain_fullscreen os sc (log m') = swapchain_fullscreen os sc (log m) /\
    (swapchain_fullscreen os sc (log m) = is_fullscreen_ (window m) ->
     swapchain_fullscreen os sc (log m') <> is_fullscreen_ (window m')).
Proof.
  intros fs sc Hsc Hfail. rewrite toggleFullscreen_runs. cbv zeta.
  fold fs sc. rewrite Hsc, Hfail.
  eexists. split; [reflexivity|]. cbn [log window].
  split; [reflexivity|]. split; [reflexivity|].
  assert (Hsame : swapchain_fullscreen os sc
                    (cerr "Failed to toggle fullscreen mode."
                       :: SetFullscreenState sc fs :: log m)
                  = swapchain_fullscreen os sc (log m)).
  { cbn [swapchain_fullscreen]. rewrite Hfail, N.eqb_refl. reflexivity. }
  split; [exact Hsame|].
  intros Hagree. rewrite Hsame, Hagree. cbn.
  destruct (is_fullscreen_ (window m)); discriminate.
Qed.

(** ** Messages that end the loop *)

Lemma mainloop_body_WM_DESTROY msg os m q :
  os_message os (PeekMessage PM_REMOVE :: log m) = Some q ->
  message q = WM_DESTROY ->
  for_our_window m q = true ->
  mainloop_body msg os m = Returned q (destroyed m q).
Proof.
  intros Hq Hmsg Hours. rewrite (mainloop_body_message msg os m q Hq).
  rewrite Hours, Hmsg, WindowProc_WM_DESTROY. reflexivity.
Qed.

Lemma mainloop_body_WM_QUIT msg os m q :
  os_message os (PeekMessage PM_REMOVE :: log m) = Some q ->
  message q = WM_QUIT ->
  exists m',
    mainloop_body msg os m = Returned q m' /\
    window m' = window m /\ Time m' = Time m /\
    extends quit_call (PeekMessage PM_REMOVE :: log m) (log m').
Proof.
  intros Hq Hquit. rewrite (mainloop_body_message msg os m q Hq).
  destruct (for_our_window m q).
  - rewrite Hquit, WindowProc_default by discriminate.
    eexists. split; [reflexivity|]. cbn [window Time log dispatched].
    repeat split. grow quit_call.
  - eexists. split; [reflexivity|]. cbn [window Time log dispatched].
    repeat split. grow quit_call.
Qed.

Lemma loop_condition_WM_QUIT msg :
  loop_condition msg = false <-> message msg = WM_QUIT.
Proof.
  unfold loop_condition. rewrite negb_false_iff. apply Z.eqb_eq.
Qed.

Lemma mainloop_from_S fuel msg os m :
  mainloop_from (S fuel) msg os m =
  if loop_condition msg then
    match mainloop_body msg os m with
    | Returned msg1 m1 => mainloop_from fuel msg1 os m1
    | Exited status m1 => Finished (Exited status m1)
    | Faulted m1 => Finished (Faulted m1)
    end
  else Finished (Returned tt m).
Proof. reflexivity. Qed.

Lemma mainloop_from_WM_QUIT fuel msg os m q :
  loop_condition msg = true ->
  os_message os (PeekMessage PM_REMOVE :: log m) = Some q ->
  message q = WM_QUIT ->
  exists m',
    mainloop_from (S fuel) msg os m = Finished (Returned tt m') /\
    mainloop_body msg os m = Returned q m' /\
    window m' = window m /\ Time m' = Time m /\
    extends quit_call (PeekMessage PM_REMOVE :: log m) (log m').
Proof.
  intros Hcond Hq Hquit.
  destruct (mainloop_body_WM_QUIT msg os m q Hq Hquit)
    as (m' & Hbody & Hw & Ht & Hl).
  exists m'. split; [|repeat split; assumption].
  cbn [mainloop_from]. rewrite Hcond, Hbody.
  apply loop_condition_WM_QUIT in Hquit.
  destruct fuel; cbn [mainloop_from]; rewrite Hquit; reflexivity.
Qed.

(** The loop returns only with [WM_QUIT] in its local [msg]; when it has
    run at all, that message is the last one retrieved, and no
    [PeekMessage] follows it. *)
Lemma mainloop_from_returns fuel : forall msg os m m',
  mainloop_from fuel msg os m = Finished (Returned tt m') ->
  (message msg = WM_QUIT /\ m' = m) \/
  (exists q older rest,
     log m' = rest ++ TranslateMessage q :: PeekMessage PM_REMOVE :: older /\
     message q = WM_QUIT /\
     count is_PeekMessage rest = 0%nat).
Proof.
  induction fuel as [|fuel IH]; intros msg os m m'; cbn [mainloop_from];
    destruct (loop_condition msg) eqn:Hcond; try discriminate;
    try (intros [= <-]; left; split;
         [apply loop_condition_WM_QUIT; exact Hcond | reflexivity]).
  destruct (mainloop_body msg os m) as [msg1 m1|status m1|m1] eqn:Hbody;
    [|discriminate|discriminate].
  intros Hrest. destruct (IH msg1 os m1 m' Hrest) as [(Hquit & ->)|Hlater].
  - right.
    destruct (os_message os (PeekMessage PM_REMOVE :: log m)) as [q|] eqn:Hq.
    + destruct (mainloop_body_message_frame msg os m q Hq) as (Hl & _).
      rewrite Hbody in Hl. cbn [machine_of] in Hl.
      assert (Hmsg1 : msg1 = q).
      { rewrite (mainloop_body_message msg os m q Hq) in Hbody.
        destruct (for_our_window m q);
          [destruct (WindowProc _ _ _ _ _ _)|]; congruence. }
      subst msg1.
      destruct (extends_made message_call (dispatched m q) m1 Hl)
        as (calls & Hmade & Hall).
      exists q, (log m), (rev calls ++ [DispatchMessage q]).
      split; [|split; [exact Hquit|]].
      * rewrite Hmade. cbn [dispatched log]. rewrite <- app_assoc. reflexivity.
      * unfold count. rewrite filter_app, length_app. cbn.
        rewrite Nat.add_0_r.
        apply (Forall_count_0 message_call);
          [call_cases | apply Forall_rev; exact Hall].
    + rewrite (mainloop_body_no_message msg os m Hq) in Hbody.
      destruct (renderFrame os (peeked m)); try discriminate.
      injection Hbody as <- _.
      apply loop_condition_WM_QUIT in Hquit. congruence.
  - right. exact Hlater.
Qed.

(** C2.  Closing the window ends the process.  When the loop retrieves
    [WM_DESTROY] for the window of the program, it dispatches it, and
    [WindowProc] calls [PostQuitMessage(0)] and returns 0.  When the
    system then hands [WM_QUIT] to the next [PeekMessage], that iteration
    is the last one: it translates and dispatches the message, renders
    nothing, the loop condition fails, and [main] returns 0.  The loop
    condition is false exactly for [WM_QUIT]; no iteration runs after the
    one that retrieves it, whatever the bound on the unrolling; and the
    loop ends in no other way: when [mainloop] has returned, the last
    message retrieved was [WM_QUIT] and no [PeekMessage] came after it. *)
Theorem closing_the_window_exits os :
  (forall fuel msg m q q',
     loop_condition msg = true ->
     os_message os (PeekMessage PM_REMOVE :: log m) = Some q ->
     message q = WM_DESTROY ->
     for_our_window m q = true ->
     os_message os (PeekMessage PM_REMOVE :: log (destroyed m q)) = Some q' ->
     message q' = WM_QUIT ->
     mainloop_body msg os m = Returned q (destroyed m q) /\
     exists m',
       mainloop_from (S (S fuel)) msg os m = Finished (Returned tt m') /\
       extends quit_call (PeekMessage PM_REMOVE :: log (destroyed m q))
         (log m')) /\
  (forall fuel storage b m1 q q',
     init os (start storage) = Returned b m1 ->
     os_message os (PeekMessage PM_REMOVE :: log m1) = Some q ->
     message q = WM_DESTROY ->
     for_our_window m1 q = true ->
     os_message os (PeekMessage PM_REMOVE :: log (destroyed m1 q)) = Some q' ->
     message q' = WM_QUIT ->
     exists m',
       main (S (S fuel)) os storage = Finished (Returned 0 m') /\
       In (PostQuitMessage 0) (log m')) /\
  (forall m wnd wPar lPar,
     WindowProc wnd WM_DESTROY wPar lPar os m =
     Returned 0
       {| window := window m; Time := Time m;
          log := PostQuitMessage 0 :: GetWindowLongPtr wnd GWLP_USERDATA
                   :: log m |}) /\
  (forall msg, loop_condition msg = false <-> message msg = WM_QUIT) /\
  (forall fuel msg m q,
     loop_condition msg = true ->
     os_message os (PeekMessage PM_REMOVE :: log m) = Some q ->
     message q = WM_QUIT ->
     exists m',
       mainloop_from (S fuel) msg os m = Finished (Returned tt m') /\
       mainloop_body msg os m = Returned q m' /\
       extends quit_call (PeekMessage PM_REMOVE :: log m) (log m')) /\
  (forall fuel m m',
     mainloop fuel os m = Finished (Returned tt m') ->
     exists q older rest,
       log m' = rest ++ TranslateMessage q :: PeekMessage PM_REMOVE :: older /\
       message q = WM_QUIT /\
       count is_PeekMessage rest = 0%nat) /\
  (forall fuel storage b m1 m',
     init os (start storage) = Returned b m1 ->
     mainloop fuel os m1 = Finished (Returned tt m') ->
     main fuel os storage = Finished (Returned 0 m')).
Proof.
  assert (Hclose : forall fuel msg m q q',
     loop_condition msg = true ->
     os_message os (PeekMessage PM_REMOVE :: log m) = Some q ->
     message q = WM_DESTROY ->
     for_our_window m q = true ->
     os_message os (PeekMessage PM_REMOVE :: log (destroyed m q)) = Some q' ->
     message q' = WM_QUIT ->
     mainloop_body msg os m = Returned q (destroyed m q) /\
     exists m',
       mainloop_from (S (S fuel)) msg os m = Finished (Returned tt m') /\
       extends quit_call (PeekMessage PM_REMOVE :: log (destroyed m q))
         (log m')).
  { intros fuel msg m q q' Hcond Hq Hmsg Hours Hq' Hquit.
    pose proof (mainloop_body_WM_DESTROY msg os m q Hq Hmsg Hours) as Hbody.
    split; [exact Hbody|].
    assert (Hcond' : loop_condition q = true).
    { unfold loop_condition. rewrite Hmsg. reflexivity. }
    destruct (mainloop_from_WM_QUIT fuel q os (destroyed m q) q' Hcond' Hq'
                Hquit) as (m' & Hloop & _ & _ & _ & Hl).
    exists m'. split; [|exact Hl].
    rewrite mainloop_from_S, Hcond, Hbody. exact Hloop. }
  split; [exact Hclose|]. split.
  { intros fuel storage b m1 q q' Hinit Hq Hmsg Hours Hq' Hquit.
    destruct (Hclose fuel MSG_zero m1 q q' eq_refl Hq Hmsg Hours Hq' Hquit)
      as (_ & m' & Hloop & Hl).
    exists m'. split.
    - unfold main, mainloop. rewrite Hinit, Hloop. reflexivity.
    - destruct (extends_app _ _ _ Hl) as (rest & ->).
      apply in_or_app. right. cbn [destroyed log In]. tauto. }
  split; [intros; apply WindowProc_WM_DESTROY|].
  split; [exact loop_condition_WM_QUIT|].
  split.
  { intros fuel msg m q Hcond Hq Hquit.
    destruct (mainloop_from_WM_QUIT fuel msg os m q Hcond Hq Hquit)
      as (m' & Hloop & Hbody & _ & _ & Hl).
    exists m'. repeat split; assumption. }
  split.
  { intros fuel m m' Hret. unfold mainloop in Hret.
    destruct (mainloop_from_returns fuel MSG_zero os m m' Hret)
      as [(Habs & _)|Hlater]; [discriminate | exact Hlater]. }
  intros fuel storage b m1 m' Hinit Hloop.
  unfold main. rewrite Hinit, Hloop. reflexivity.
Qed.

(** ** One action per iteration *)


(** ** The frame *)


(** ** The window *)

(** C7.  [createWindow] asks the system for the width and the height of
    the screen and then creates one window, of class "MainWindow", titled
    "DirectX 11 Triangle", of style [WS_POPUP], as wide and as high as the
    two answers.  When the system hands back a window, [createWindow]
    shows it and stores the object in its user data; it returns the handle
    in either case.  These are the first calls of the program: [init]
    begins with them and keeps the handle in [hWnd_], whatever becomes of
    it afterwards. *)
Theorem window_created_at_startup os :
  (forall m,
     let asked_width :=
       GetSystemMetrics SM_CXSCREEN :: GetModuleHandle :: log m in
     let asked_height := GetSystemMetrics SM_CYSCREEN :: asked_width in
     let screenWidth := os_metric os asked_width in
     let screenHeight := os_metric os asked_height in
     let create :=
       CreateWindowExA 0 "MainWindow" "DirectX 11 Triangle" WS_POPUP
         CW_USEDEFAULT CW_USEDEFAULT screenWidth screenHeight in
     let wnd :=
       os_object os (create :: RegisterClass "MainWindow" :: asked_height) 0 in
     exists m',
       createWindow os m = Returned wnd m' /\
       made m m'
         ([ GetModuleHandle; GetSystemMetrics SM_CXSCREEN;
            GetSystemMetrics SM_CYSCREEN; RegisterClass "MainWindow";
            create ]
          ++ (if is_null wnd then []
              else [ ShowWindow wnd 1; SetWindowLongPtr wnd GWLP_USERDATA ])))
  /\
  (forall storage,
     exists wnd m0 later,
       createWindow os (start storage) = Returned wnd m0 /\
       hWnd_ (window (machine_of (init os (start storage)))) = wnd /\
       log (machine_of (init os (start storage))) = later ++ log m0).
Proof.
  split.
  - intros m asked_width asked_height screenWidth screenHeight create wnd.
    rewrite createWindow_runs. unfold window_request.
    fold asked_width asked_height screenWidth screenHeight create wnd.
    eexists. split; [reflexivity|]. unfold made. cbn [log].
    destruct (is_null wnd); reflexivity.
  - intros storage.
    pose proof (init_frame os (start storage)) as H. cbv zeta in H.
    destruct H as (_ & _ & Hh & Hl & _).
    destruct (extends_app _ _ _ Hl) as (later & Hlater).
    pose proof (createWindow_runs os (start storage)) as Ecw. cbv zeta in Ecw.
    unfold window_created in Hh, Hlater. rewrite Ecw in Hh, Hlater.
    cbn [window log hWnd_ set_hWnd_] in Hh, Hlater.
    eexists _, _, later. split; [exact Ecw|].
    split; [exact Hh | exact Hlater].
Qed.

(** ** The whole run *)

Lemma extends_uploads P l l' :
  (forall c, P c -> is_UpdateSubresource c = false) ->
  extends P l l' -> uploads l' = uploads l.
Proof.
  intros HP H. induction H as [|c l' Hc _ IH]; [reflexivity|].
  specialize (HP c Hc). destruct c; try discriminate; exact IH.
Qed.

Lemma extends_draws_quiet P l l' :
  (forall c, P c -> is_Draw c = false) ->
  extends P l l' -> draws l' = draws l.
Proof.
  intros HP H. induction H as [|c l' Hc _ IH]; [reflexivity|].
  specialize (HP c Hc). destruct c; try discriminate; exact IH.
Qed.

Lemma length_draws l : List.length (draws l) = count is_Draw l.
Proof.
  unfold count. induction l as [|c l IH]; [reflexivity|].
  destruct c; cbn [draws filter is_Draw List.length]; congruence.
Qed.

Lemma init_setup os m :
  extends setup_call (log m) (log (machine_of (init os m))).
Proof.
  pose proof (init_frame os m) as H. cbv zeta in H.
  destruct H as (_ & _ & _ & _ & Hl & _). exact Hl.
Qed.

(** [init] renders no frame. *)
Lemma init_frames_inv os storage :
  frames_inv (machine_of (init os (start storage))).
Proof.
  pose proof (init_setup os (start storage)) as Hl. cbn [start log] in Hl.
  pose proof (init_frame os (start storage)) as H. cbv zeta in H.
  destruct H as (Ht & _).
  set (m1 := machine_of (init os (start storage))) in *.
  assert (Hc : forall p, (forall c, setup_call c -> p c = false) ->
                         count p (log m1) = 0%nat).
  { intros p Hp. rewrite (extends_count setup_call p [] (log m1) Hp Hl).
    reflexivity. }
  assert (Hp : frames_rendered (log m1) = 0%nat).
  { apply Hc. call_cases. }
  unfold frames_inv. rewrite Hp. cbn [Time_after expected_uploads].
  split; [exact Ht|]. split.
  - rewrite (extends_uploads setup_call [] (log m1)); [reflexivity| |exact Hl].
    call_cases.
  - split; apply Hc; call_cases.
Qed.

(** An iteration in which the process does not die keeps the account of
    the frames. *)
Lemma mainloop_body_frames_inv msg os m :
  frames_inv m -> faulted (mainloop_body msg os m) = false ->
  frames_inv (machine_of (mainloop_body msg os m)).
Proof.
  intros (Ht & Hu & Hd & Hs).
  destruct (os_message os (PeekMessage PM_REMOVE :: log m)) as [q|] eqn:Hq.
  - intros _.
    destruct (mainloop_body_message_frame msg os m q Hq) as (Hl & _ & Ht').
    set (m' := machine_of (mainloop_body msg os m)) in *.
    assert (Hc : forall p, (forall c, message_call c -> p c = false) ->
                           p (DispatchMessage q) = false ->
                           p (TranslateMessage q) = false ->
                           p (PeekMessage PM_REMOVE) = false ->
                           count p (log m') = count p (log m)).
    { intros p Hp H1 H2 H3.
      rewrite (extends_count message_call p _ _ Hp Hl).
      unfold count. cbn [dispatched log filter]. rewrite H1, H2, H3.
      reflexivity. }
    assert (Hp : frames_rendered (log m') = frames_rendered (log m)).
    { apply Hc; try reflexivity. call_cases. }
    unfold frames_inv. rewrite Hp. split; [congruence|]. split.
    + rewrite (extends_uploads message_call (log (dispatched m q)) (log m'));
        [exact Hu| |exact Hl].
      call_cases.
    + split; [rewrite <- Hd | rewrite <- Hs]; apply Hc; try reflexivity;
        call_cases.
  - rewrite (mainloop_body_no_message msg os m Hq).
    rewrite renderFrame_eq. cbv zeta. cbn [peeked window].
    destruct (valid os (pDeviceContext_ (window m)));
      [destruct (valid os (pSwapChain_ (window m)))|];
      cbn [faulted]; try discriminate.
    intros _. cbn [machine_of].
    unfold frames_inv, frames_rendered, count in *. cbn.
    rewrite Ht, Hu, Hd, Hs. repeat split.
Qed.

Lemma main_last_machine fuel os storage b m1 :
  init os (start storage) = Returned b m1 ->
  last_machine (main fuel os storage) = last_machine (mainloop fuel os m1) /\
  died (main fuel os storage) = died (mainloop fuel os m1).
Proof.
  intros E. unfold main. rewrite E.
  destruct (mainloop fuel os m1) as [[[] m2|status m2|m2]|m2];
    split; reflexivity.
Qed.

(** What holds after [init] and is kept by every iteration that does not
    die holds at the head of every iteration, and at the end, of a run
    that has not died. *)
Lemma main_invariant (Inv : Machine -> Prop) fuel os storage :
  Inv (machine_of (init os (start storage))) ->
  (forall msg m,
     Inv m -> faulted (mainloop_body msg os m) = false ->
     Inv (machine_of (mainloop_body msg os m))) ->
  died (main fuel os storage) = false ->
  Inv (last_machine (main fuel os storage)).
Proof.
  intros Hinit Hbody.
  destruct (init os (start storage)) as [b m1|status m1|m1] eqn:E.
  - destruct (main_last_machine fuel os storage b m1 E) as (-> & ->).
    unfold mainloop. apply mainloop_from_invariant; assumption.
  - destruct (init_never_exits os _ _ _ E).
  - unfold main. rewrite E. discriminate.
Qed.

(** The loop makes calls of the loop only and leaves the members alone,
    whether or not the run dies. *)
Lemma main_frame fuel os storage :
  let m1 := machine_of (init os (start storage)) in
  let m' := last_machine (main fuel os storage) in
  extends (loop_call (window m1)) (log m1) (log m') /\
  stable (window m1) (window m').
Proof.
  cbv zeta.
  destruct (init os (start storage)) as [b m1|status m1|m1] eqn:E.
  - destruct (main_last_machine fuel os storage b m1 E) as (-> & _).
    unfold mainloop. apply mainloop_from_frame.
  - destruct (init_never_exits os _ _ _ E).
  - unfold main. rewrite E. cbn [last_machine machine_of].
    split; [apply extends_refl | apply stable_refl].
Qed.

Lemma main_frames_inv fuel os storage :
  died (main fuel os storage) = false ->
  frames_inv (last_machine (main fuel os storage)).
Proof.
  apply (main_invariant frames_inv).
  - apply init_frames_inv.
  - intros msg m. apply mainloop_body_frames_inv.
Qed.

(** ** When initialisation fails *)

(** A failed [D3D11CreateDevice]: [init] reports it and returns [false],
    with the device and the context as the failed call left them. *)
Lemma init_device_creation_fails os m :
  let m0 := window_created os m in
  let l1 := D3D11CreateDevice :: log m0 in
  FAILED (os_hresult os l1) = true ->
  init os m =
  Returned false
    {| window :=
         set_pDeviceContext_ (os_object os l1 1)
           (set_pDevice_ (os_object os l1 0) (window m0));
       Time := Time m0;
       log := cerr "Failed to create device" :: l1 |}.
Proof.
  cbv zeta. intros Hfail. rewrite init_steps, initD3D_runs. cbv zeta.
  rewrite Hfail. cbv beta iota. rewrite Hfail. reflexivity.
Qed.

(** A shader that does not compile: [initPipeline] hands the failure
    back, having changed no member. *)
Lemma initPipeline_compilation_fails os m :
  let lv := D3DCompile vertexShaderSrc "VSMain" "vs_5_0" :: log m in
  let lp := D3DCompile pixelShaderSrc "PSMain" "ps_5_0" :: lv in
  (FAILED (os_hresult os lv) = true /\
   null_or_valid os (os_object os lv 1) = true) \/
  (FAILED (os_hresult os lv) = false /\
   FAILED (os_hresult os lp) = true /\
   null_or_valid os (os_object os lp 1) = true) ->
  exists hr m2,
    initPipeline os m = Returned hr m2 /\ FAILED hr = true /\
    window m2 = window m.
Proof.
  cbv zeta. unfold null_or_valid. rewrite initPipeline_runs. cbv zeta.
  intros [(F1 & Hb)|(F1 & F2 & Hb)]; rewrite F1; [|rewrite F2];
    destruct (is_null _); cbn [orb] in Hb; try rewrite Hb;
    eexists _, _; (split; [reflexivity|]); split;
    first [assumption | reflexivity].
Qed.

(** C9.  [main] drops the result of [init]: it goes into the loop with
    whatever machine [init] leaves, whether [init] has returned [true] or
    [false].  When [init] has returned [false] and no message is pending,
    the first iteration calls [renderFrame] on the object as the failed
    [init] left it: [renderFrame] advances [Time] and, with a valid
    context and swap chain, makes the calls of a frame with those
    members; with a context that holds no object the run ends in that
    very call.  Each of the three failures makes [init] return [false]:
    a failed device creation (the members from the swap chain to the
    constant buffer still hold what the storage held), a shader that does
    not compile (no member of the pipeline is assigned), and a failed
    creation of the vertex buffer; in the last two cases the context and
    the swap chain are valid, so the frame is rendered in full. *)
Theorem failed_init_still_renders os storage :
  let m0 := window_created os (start storage) in
  (forall fuel b m1,
     init os (start storage) = Returned b m1 ->
     last_machine (main fuel os storage) = last_machine (mainloop fuel os m1))
  /\
  (forall fuel m1,
     init os (start storage) = Returned false m1 ->
     os_message os (PeekMessage PM_REMOVE :: log m1) = None ->
     let o := renderFrame os (peeked m1) in
     last_machine (main (S fuel) os storage) =
       match o with
       | Returned _ m2 => last_machine (mainloop_from fuel MSG_zero os m2)
       | Exited _ m2 | Faulted m2 => m2
       end /\
     window (machine_of o) = window m1 /\
     Time (machine_of o) = Time_after 1 /\
     (valid os (pDeviceContext_ (window m1)) = true ->
      valid os (pSwapChain_ (window m1)) = true ->
      exists rest,
        log (last_machine (main (S fuel) os storage)) =
        rest ++ rev (frame_calls (window m1) (Time_after 1))
             ++ PeekMessage PM_REMOVE :: log m1) /\
     (valid os (pDeviceContext_ (window m1)) = false ->
      main (S fuel) os storage =
      Finished
        (Faulted {| window := window m1; Time := Time_after 1;
                    log := PeekMessage PM_REMOVE :: log m1 |}))) /\
  (FAILED (os_hresult os (D3D11CreateDevice :: log m0)) = true ->
   exists m1,
     init os (start storage) = Returned false m1 /\
     pSwapChain_ (window m1) = pSwapChain_ storage /\
     pRenderTargetView_ (window m1) = pRenderTargetView_ storage /\
     pVertexShader_ (window m1) = pVertexShader_ storage /\
     pPixelShader_ (window m1) = pPixelShader_ storage /\
     pInputLayout_ (window m1) = pInputLayout_ storage /\
     pVertexBuffer_ (window m1) = pVertexBuffer_ storage /\
     pConstBuffer_ (window m1) = pConstBuffer_ storage) /\
  (forall hr1 m1',
     initD3D os m0 = Returned hr1 m1' -> FAILED hr1 = false ->
     let lv := D3DCompile vertexShaderSrc "VSMain" "vs_5_0" :: log m1' in
     let lp := D3DCompile pixelShaderSrc "PSMain" "ps_5_0" :: lv in
     (FAILED (os_hresult os lv) = true /\
      null_or_valid os (os_object os lv 1) = true) \/
     (FAILED (os_hresult os lv) = false /\
      FAILED (os_hresult os lp) = true /\
      null_or_valid os (os_object os lp 1) = true) ->
     exists m1,
       init os (start storage) = Returned false m1 /\
       window m1 = window m1' /\
       pVertexShader_ (window m1) = pVertexShader_ storage /\
       pPixelShader_ (window m1) = pPixelShader_ storage /\
       pInputLayout_ (window m1) = pInputLayout_ storage /\
       pVertexBuffer_ (window m1) = pVertexBuffer_ storage /\
       pConstBuffer_ (window m1) = pConstBuffer_ storage /\
       valid os (pDeviceContext_ (window m1)) = true /\
       valid os (pSwapChain_ (window m1)) = true) /\
  (forall hr1 m1' hr2 m2,
     initD3D os m0 = Returned hr1 m1' -> FAILED hr1 = false ->
     initPipeline os m1' = Returned hr2 m2 -> FAILED hr2 = false ->
     let created :=
       CreateBuffer (pDevice_ (window m2)) bufferDesc (Some vertices)
         :: log m2 in
     FAILED (os_hresult os created) = true ->
     exists m1,
       init os (start storage) = Returned false m1 /\
       log m1 = cerr "Failed to create buffer" :: created /\
       valid os (pDeviceContext_ (window m1)) = true /\
       valid os (pSwapChain_ (window m1)) = true).
Proof.
  intros m0.
  split; [intros fuel b m1 E; apply (main_last_machine fuel os storage b m1 E)|].
  split.
  { intros fuel m1 E Hq o.
    destruct (main_last_machine (S fuel) os storage false m1 E) as (Hlast & _).
    pose proof (init_frame os (start storage)) as Hi. cbv zeta in Hi.
    destruct Hi as (Ht & _). rewrite E in Ht. cbn [machine_of start Time] in Ht.
    pose proof (renderFrame_frame os (peeked m1)) as Hr. cbv zeta in Hr.
    destruct Hr as (Hw & Hti & _). fold o in Hw, Hti.
    cbn [peeked window Time] in Hw, Hti. rewrite Ht in Hti.
    assert (Hstep : mainloop (S fuel) os m1 =
                    match o with
                    | Returned _ m2 => mainloop_from fuel MSG_zero os m2
                    | Exited status m2 => Finished (Exited status m2)
                    | Faulted m2 => Finished (Faulted m2)
                    end).
    { unfold mainloop. rewrite mainloop_from_S.
      change (loop_condition MSG_zero) with true. cbv iota.
      rewrite (mainloop_body_no_message MSG_zero os m1 Hq). fold o.
      destruct o; reflexivity. }
    split.
    { rewrite Hlast, Hstep. destruct o; reflexivity. }
    split; [exact Hw|]. split; [exact Hti|]. split.
    - intros Hctx Hsc. rewrite Hlast, Hstep. unfold o.
      rewrite renderFrame_runs by assumption.
      cbn [peeked window Time log]. rewrite Ht.
      match goal with
      | |- context [mainloop_from fuel ?msg os ?m] =>
          destruct (mainloop_from_frame fuel msg os m) as (Hl & _)
      end.
      cbn [log] in Hl. apply extends_app in Hl. exact Hl.
    - intros Hctx. unfold main. rewrite E, Hstep. unfold o.
      rewrite renderFrame_eq. cbv zeta. cbn [peeked window Time log].
      rewrite Hctx, Ht. reflexivity. }
  split.
  { intros Hfail. eexists. split.
    - apply init_device_creation_fails. exact Hfail.
    - fold m0. unfold m0. rewrite window_created_log.
      cbn. repeat split. }
  split.
  { intros hr1 m1' E1 Hok lv lp Hbad.
    destruct (initPipeline_compilation_fails os m1' Hbad)
      as (hr2 & m2 & E2 & Hfail & Hw).
    pose proof (initD3D_frame os m0) as H1. cbv zeta in H1.
    destruct H1 as (_ & _ & _ & Hmem & _ & _ & _ & Hv).
    rewrite E1 in Hmem. cbn [machine_of] in Hmem.
    destruct (Hv hr1 m1' E1 Hok) as (_ & Hctx & Hsc).
    exists m2. split.
    - rewrite init_steps. fold m0. rewrite E1, Hok, E2, Hfail. reflexivity.
    - rewrite Hw. split; [reflexivity|].
      destruct Hmem as (H1 & H2 & H3 & H4 & H5).
      rewrite H1, H2, H3, H4, H5. unfold m0. rewrite window_created_log.
      cbn. repeat split; assumption. }
  intros hr1 m1' hr2 m2 E1 Hok1 E2 Hok2 created Hfail.
  pose proof (initD3D_frame os m0) as H1. cbv zeta in H1.
  destruct H1 as (_ & _ & _ & _ & _ & _ & _ & Hv).
  destruct (Hv hr1 m1' E1 Hok1) as (Hdev & Hctx & Hsc).
  pose proof (initPipeline_frame os m1') as H2. cbv zeta in H2.
  destruct H2 as (_ & _ & (_ & _ & Hd2 & Hc2 & Hs2 & _) & _).
  rewrite E2 in Hd2, Hc2, Hs2. cbn [machine_of] in Hd2, Hc2, Hs2.
  eexists. split.
  - rewrite init_steps. fold m0. rewrite E1, Hok1, E2, Hok2.
    rewrite initGraphics_runs. cbv zeta. rewrite Hd2, Hdev.
    rewrite <- Hd2. fold created. rewrite Hfail. cbv beta iota.
    rewrite Hfail. reflexivity.
  - cbn [log window pDeviceContext_ pSwapChain_ set_pVertexBuffer_].
    rewrite Hc2, Hs2. repeat split; assumption.
Qed.

(** ** A failure that is not survived *)

(** C3 fails in the code.  When [D3D11CreateDevice] fails and leaves no
    device context, [init] writes "Failed to create device" to standard
    error and returns [false]; [main] drops the result and enters the
    loop; with no message pending the first iteration calls
    [renderFrame], which adds to [Time] and calls [UpdateSubresource]
    through the context that is not there.  The run ends in that call:
    the failure has been logged, but execution does not continue, and the
    process has not ended by [exit(1)] after a failed resize. *)
Theorem failed_device_creation_ends_the_run os storage fuel :
  let m0 := window_created os (start storage) in
  let l1 := D3D11CreateDevice :: log m0 in
  let w1 :=
    set_pDeviceContext_ (os_object os l1 1)
      (set_pDevice_ (os_object os l1 0) (window m0)) in
  let l2 := cerr "Failed to create device" :: l1 in
  FAILED (os_hresult os l1) = true ->
  valid os (os_object os l1 1) = false ->
  os_message os (PeekMessage PM_REMOVE :: l2) = None ->
  init os (start storage)
    = Returned false {| window := w1; Time := Float32.zero; log := l2 |} /\
  main (S fuel) os storage
    = Finished
        (Faulted {| window := w1; Time := Time_after 1;
                    log := PeekMessage PM_REMOVE :: l2 |}) /\
  count is_UpdateSubresource (PeekMessage PM_REMOVE :: l2) = 0%nat /\
  (forall status, In (exit status) (PeekMessage PM_REMOVE :: l2) -> False).
Proof.
  intros m0 l1 w1 l2 Hfail Hctx Hq.
  assert (E : init os (start storage)
              = Returned false
                  {| window := w1; Time := Float32.zero; log := l2 |}).
  { rewrite (init_device_creation_fails os (start storage) Hfail).
    fold m0 l1 w1 l2. unfold m0. rewrite window_created_log. reflexivity. }
  assert (Hsetup : extends setup_call [] l2).
  { pose proof (init_setup os (start storage)) as H. rewrite E in H.
    exact H. }
  split; [exact E|]. split.
  - unfold main, mainloop. rewrite E, mainloop_from_S.
    change (loop_condition MSG_zero) with true. cbv iota.
    rewrite (mainloop_body_no_message MSG_zero os
               {| window := w1; Time := Float32.zero; log := l2 |} Hq).
    rewrite renderFrame_eq. cbv zeta. cbn [peeked window Time log].
    unfold w1 at 1. cbn [pDeviceContext_ set_pDeviceContext_].
    rewrite Hctx. reflexivity.
  - split.
    + change (count is_UpdateSubresource (PeekMessage PM_REMOVE :: l2))
        with (count is_UpdateSubresource l2).
      rewrite (extends_count setup_call is_UpdateSubresource [] l2);
        [reflexivity | call_cases | exact Hsetup].
    + intros status [Hin|Hin]; [discriminate|].
      destruct (extends_In _ _ _ _ Hsetup Hin) as [[]|[]].
Qed.

(** ** Buffers and draws over the whole run *)

Lemma extends_loop_draws w l l' :
  extends (loop_call w) l l' ->
  let ctx := pDeviceContext_ w in
  topology_at ctx l' = topology_at ctx l /\
  vertex_buffer_at ctx l' = vertex_buffer_at ctx l /\
  forall Q : DrawInfo -> Prop,
    Q {| draw_VertexCount := 3;
         draw_StartVertexLocation := 0;
         draw_topology := topology_at ctx l;
         draw_vertex_buffer := vertex_buffer_at ctx l |} ->
    Forall Q (draws l) -> Forall Q (draws l').
Proof.
  intros H ctx. induction H as [|c l' Hc _ (IHt & IHv & IHd)].
  - repeat split. auto.
  - destruct c; cbn in Hc;
      try (cbn [topology_at vertex_buffer_at draws];
           split; [exact IHt|]; split; [exact IHv | exact IHd]);
      try (exfalso; tauto).
    destruct Hc as [[]|(-> & -> & ->)].
    cbn [topology_at vertex_buffer_at draws].
    split; [exact IHt|]. split; [exact IHv|].
    intros Q HQ Hall. constructor; [|apply IHd; assumption].
    fold ctx. rewrite IHt, IHv. exact HQ.
Qed.

Lemma loop_call_buffer_written w c dst :
  loop_call w c -> buffer_written c = Some dst -> dst = pConstBuffer_ w.
Proof.
  destruct c; cbn; try discriminate.
  intros [[]|(_ & ->)] [= <-]. reflexivity.
Qed.

Lemma setup_call_buffer_written c : setup_call c -> buffer_written c = None.
Proof. destruct c; cbn; tauto. Qed.

(** Calls that create no constant buffer leave the number created as it
    is. *)
Lemma extends_created os P l l' :
  (forall c, P c -> creates_constant_buffer c = false) ->
  extends P l l' ->
  constant_buffers_created os l' = constant_buffers_created os l.
Proof.
  intros HP H. induction H as [|c l' Hc _ IH]; [reflexivity|].
  cbn [constant_buffers_created]. rewrite (HP c Hc), IH. reflexivity.
Qed.

(** Where the constant buffer is created: at the end of [initPipeline],
    past the two compilations. *)
Lemma initPipeline_creates os m :
  let o := initPipeline os m in
  (forall hr m2,
     o = Returned hr m2 ->
     count creates_constant_buffer (log m2) =
       ((if FAILED hr then 0 else 1)
        + count creates_constant_buffer (log m))%nat /\
     (FAILED hr = true ->
      constant_buffers_created os (log m2)
        = constant_buffers_created os (log m)) /\
     (FAILED hr = false ->
      exists older,
        let created := CreateBuffer (pDevice_ (window m)) cbd None :: older in
        log m2 =
          VSSetConstantBuffers (pDeviceContext_ (window m)) 0 1
            (pConstBuffer_ (window m2)) :: created /\
        pConstBuffer_ (window m2) = os_object os created 0 /\
        constant_buffers_created os (log m2) =
          ((if FAILED (os_hresult os created) then 0 else 1)
           + constant_buffers_created os (log m))%nat)) /\
  (faulted o = true ->
   count creates_constant_buffer (log (machine_of o))
     = count creates_constant_buffer (log m) /\
   constant_buffers_created os (log (machine_of o))
     = constant_buffers_created os (log m)).
Proof.
  cbv zeta. rewrite initPipeline_runs. cbv zeta.
  split_tests; tidy; (split; [|try discriminate; intros _; split; reflexivity]);
    intros hr m2 E; try discriminate E; injection E as <- <-;
    repeat match goal with H : FAILED _ = _ |- _ => rewrite H end;
    (split; [reflexivity|]);
    (split; [intros; try discriminate; reflexivity|]);
    intros; try discriminate.
  eexists. cbv zeta. tidy. split; [reflexivity|]. split; [reflexivity|].
  cbn [constant_buffers_created creates_constant_buffer cbd BindFlags andb
       Nat.add].
  match goal with
  | |- context [negb (FAILED ?x)] => destruct (FAILED x)
  end; reflexivity.
Qed.

(** What [init] creates. *)
Lemma init_creates os m :
  let o := init os m in
  (count creates_constant_buffer (log (machine_of o))
   <= 1 + count creates_constant_buffer (log m))%nat /\
  (constant_buffers_created os (log (machine_of o))
   <= 1 + constant_buffers_created os (log m))%nat /\
  (forall m1,
     o = Returned true m1 ->
     exists older later,
       let created :=
         CreateBuffer (pDevice_ (window m1)) cbd None :: older in
       log m1 = later ++ created /\
       pConstBuffer_ (window m1) = os_object os created 0 /\
       count creates_constant_buffer (log m1)
         = S (count creates_constant_buffer (log m)) /\
       constant_buffers_created os (log m1) =
         ((if FAILED (os_hresult os created) then 0 else 1)
          + constant_buffers_created os (log m))%nat).
Proof.
  cbv zeta. rewrite init_steps.
  assert (H0 : count creates_constant_buffer (log (window_created os m))
               = count creates_constant_buffer (log m) /\
               constant_buffers_created os (log (window_created os m))
               = constant_buffers_created os (log m)).
  { rewrite window_created_log. cbn [log]. unfold window_request.
    destruct (negb _); split; reflexivity. }
  destruct H0 as (Hc0 & Hk0).
  pose proof (initD3D_frame os (window_created os m)) as H1.
  cbv zeta in H1. destruct H1 as (_ & _ & _ & _ & Hl1 & _).
  assert (Hc1 : count creates_constant_buffer
                  (log (machine_of (initD3D os (window_created os m))))
                = count creates_constant_buffer (log m)).
  { rewrite <- Hc0. apply (extends_count initD3D_call); [call_cases|exact Hl1]. }
  assert (Hk1 : constant_buffers_created os
                  (log (machine_of (initD3D os (window_created os m))))
                = constant_buffers_created os (log m)).
  { rewrite <- Hk0. apply (extends_created os initD3D_call);
      [call_cases|exact Hl1]. }
  clear Hl1.
  destruct (initD3D os (window_created os m)) as [hr1 m1'|s1 m1'|m1'];
    cbn [machine_of] in Hc1, Hk1 |- *;
    try (rewrite Hc1, Hk1; repeat split; try lia; discriminate).
  destruct (FAILED hr1).
  { cbn [machine_of]. rewrite Hc1, Hk1.
    split; [lia|]. split; [lia | discriminate]. }
  pose proof (initPipeline_creates os m1') as H2. cbv zeta in H2.
  destruct H2 as (Hret & Hdied).
  pose proof (initPipeline_frame os m1') as H2. cbv zeta in H2.
  destruct H2 as (_ & _ & (_ & _ & Hd2 & Hx2 & _) & _ & Hnx2 & _).
  destruct (initPipeline os m1') as [hr2 m2|s2 m2|m2];
    cbn [machine_of faulted] in Hdied, Hd2, Hx2 |- *.
  2:{ destruct (Hnx2 s2 m2 eq_refl). }
  2:{ destruct (Hdied eq_refl) as (-> & ->). rewrite Hc1, Hk1.
      repeat split; try discriminate; lia. }
  destruct (Hret hr2 m2 eq_refl) as (Hc2 & Hbad & Hgood). clear Hret Hdied.
  destruct (FAILED hr2) eqn:F2.
  { cbn [machine_of]. rewrite Hc2, (Hbad eq_refl), Hc1, Hk1.
    split; [lia|]. split; [lia | discriminate]. }
  destruct (Hgood eq_refl) as (older & Hlog & Hcb & Hk2). clear Hbad Hgood.
  cbv zeta in Hlog, Hcb, Hk2.
  pose proof (initGraphics_frame os m2) as H3. cbv zeta in H3.
  destruct H3 as (_ & _ & (_ & Hd3 & _) & Hl3 & Hc3 & _).
  assert (Hk3 : constant_buffers_created os
                  (log (machine_of (initGraphics os m2)))
                = constant_buffers_created os (log m2)).
  { rewrite initGraphics_runs. cbv zeta. split_tests; tidy; reflexivity. }
  assert (Hcb3 : pConstBuffer_ (window (machine_of (initGraphics os m2)))
                 = pConstBuffer_ (window m2)).
  { rewrite initGraphics_runs. cbv zeta. split_tests; tidy; reflexivity. }
  destruct (extends_app _ _ _ Hl3) as (later & Hlater).
  destruct (initGraphics os m2) as [hr3 m3|s3 m3|m3];
    cbn [machine_of] in *;
    rewrite Hc3, Hk3, Hc2, Hk2, Hc1, Hk1;
    (split; [cbn; lia|]);
    (split; [destruct (FAILED (os_hresult _ _)); cbn; lia|]);
    try discriminate.
  intros m1 E. destruct (FAILED hr3) eqn:F3; [discriminate E|].
  injection E as <-.
  exists older, (later ++ [VSSetConstantBuffers (pDeviceContext_ (window m1'))
                               0 1 (pConstBuffer_ (window m2))]).
  cbv zeta. rewrite Hd3, Hd2, Hcb3.
  split; [rewrite Hlater, Hlog, <- app_assoc; reflexivity|].
  split; [exact Hcb|].
  split; [rewrite Hc3, Hc2, Hc1; reflexivity|].
  rewrite Hk3, Hk2, Hk1. reflexivity.
Qed.

(** The calls [renderFrame] makes: all seven, or the six that come before
    [Present], or none. *)
Lemma renderFrame_calls_of os m :
  let w := window m in
  let t := Float32.add (Time m) Time_step in
  calls_of renderFrame os m =
  if valid os (pDeviceContext_ w) then
    if valid os (pSwapChain_ w) then frame_calls w t
    else frame_calls_drawn w t
  else [].
Proof.
  cbv zeta. unfold calls_of. rewrite renderFrame_eq. cbv zeta.
  destruct (valid os (pDeviceContext_ (window m)));
    [destruct (valid os (pSwapChain_ (window m)))|];
    cbn [machine_of]; apply made_calls_between; reflexivity.
Qed.

(** C5, as the code has it.  The constant buffer is created by
    [initPipeline], as its last step but one, once both shaders have
    compiled, and nowhere else: no other step of [init] and no iteration
    of the loop calls [CreateBuffer] for it.  So a run makes that call at
    most once, during [init]; it makes it exactly once when [init]
    succeeds, and the constant buffer has then been created exactly once
    if and only if that one call has succeeded.  [renderFrame] updates
    the constant buffer at most once, as its first call, and exactly once
    when the device context is valid; it writes to no other buffer.  A
    run that has not died has made as many [UpdateSubresource] calls as
    it has presented frames.  No call of a run writes to any buffer other
    than [pConstBuffer_]; in particular none writes to the vertex buffer,
    a different object. *)
Theorem constant_buffer_lifecycle fuel os storage :
  let m1 := machine_of (init os (start storage)) in
  let m' := last_machine (main fuel os storage) in
  (forall m hr m2,
     initPipeline os m = Returned hr m2 ->
     count creates_constant_buffer (log m2) =
       ((if FAILED hr then 0 else 1)
        + count creates_constant_buffer (log m))%nat /\
     (FAILED hr = false ->
      exists older,
        let created := CreateBuffer (pDevice_ (window m)) cbd None :: older in
        log m2 =
          VSSetConstantBuffers (pDeviceContext_ (window m)) 0 1
            (pConstBuffer_ (window m2)) :: created /\
        pConstBuffer_ (window m2) = os_object os created 0 /\
        constant_buffers_created os (log m2) =
          ((if FAILED (os_hresult os created) then 0 else 1)
           + constant_buffers_created os (log m))%nat)) /\
  (forall m,
     count creates_constant_buffer (log (window_created os m))
       = count creates_constant_buffer (log m) /\
     count creates_constant_buffer (log (machine_of (initD3D os m)))
       = count creates_constant_buffer (log m) /\
     count creates_constant_buffer (log (machine_of (initGraphics os m)))
       = count creates_constant_buffer (log m) /\
     (faulted (initPipeline os m) = true ->
      count creates_constant_buffer (log (machine_of (initPipeline os m)))
        = count creates_constant_buffer (log m)) /\
     forall msg,
       count creates_constant_buffer
         (log (machine_of (mainloop_body msg os m)))
       = count creates_constant_buffer (log m)) /\
  count creates_constant_buffer (log m')
    = count creates_constant_buffer (log m1) /\
  (count creates_constant_buffer (log m') <= 1)%nat /\
  (constant_buffers_created os (log m') <= 1)%nat /\
  (forall m1',
     init os (start storage) = Returned true m1' ->
     count creates_constant_buffer (log m') = 1%nat /\
     exists older later,
       let created :=
         CreateBuffer (pDevice_ (window m1')) cbd None :: older in
       log m1' = later ++ created /\
       pConstBuffer_ (window m') = os_object os created 0 /\
       (created_exactly_once os (log m') <->
        FAILED (os_hresult os created) = false)) /\
  (forall m,
     (count is_UpdateSubresource (calls_of renderFrame os m) <= 1)%nat /\
     (valid os (pDeviceContext_ (window m)) = true ->
      count is_UpdateSubresource (calls_of renderFrame os m) = 1%nat) /\
     forall c dst,
       In c (calls_of renderFrame os m) -> buffer_written c = Some dst ->
       dst = pConstBuffer_ (window m)) /\
  (died (main fuel os storage) = false ->
   count is_UpdateSubresource (log m') = frames_rendered (log m')) /\
  (forall c dst,
     In c (log m') -> buffer_written c = Some dst ->
     dst = pConstBuffer_ (window m')) /\
  (pVertexBuffer_ (window m') <> pConstBuffer_ (window m') ->
   forall c, In c (log m') ->
             buffer_written c <> Some (pVertexBuffer_ (window m'))).
Proof.
  intros m1 m'.
  destruct (main_frame fuel os storage) as (Hl & Hs). fold m1 m' in Hl, Hs.
  pose proof (init_setup os (start storage)) as Hsetup.
  fold m1 in Hsetup. cbn [start log] in Hsetup.
  pose proof (init_creates os (start storage)) as Hinit. cbv zeta in Hinit.
  fold m1 in Hinit. cbn [start log] in Hinit.
  destruct Hinit as (Hle & Hkle & Htrue).
  assert (Hsame : count creates_constant_buffer (log m')
                  = count creates_constant_buffer (log m1)).
  { apply (extends_count (loop_call (window m1))); [|exact Hl].
    call_cases. }
  assert (Hksame : constant_buffers_created os (log m')
                   = constant_buffers_created os (log m1)).
  { apply (extends_created os (loop_call (window m1))); [|exact Hl].
    call_cases. }
  assert (Hwrites : forall c dst,
             In c (log m') -> buffer_written c = Some dst ->
             dst = pConstBuffer_ (window m')).
  { intros c dst Hin Hw.
    destruct (extends_In _ _ _ c Hl Hin) as [Hold|Hnew].
    - destruct (extends_In _ _ _ c Hsetup Hold) as [[]|Hc].
      rewrite (setup_call_buffer_written c Hc) in Hw. discriminate.
    - rewrite (loop_call_buffer_written _ c dst Hnew Hw).
      unfold stable in Hs. decompose [and] Hs. congruence. }
  split.
  { intros m hr m2 E.
    pose proof (initPipeline_creates os m) as H. cbv zeta in H.
    destruct H as (H & _). destruct (H hr m2 E) as (Hc & _ & Hgood).
    split; assumption. }
  split.
  { intros m. split.
    { rewrite window_created_log. cbn [log]. unfold window_request.
      destruct (negb _); reflexivity. }
    split.
    { pose proof (initD3D_frame os m) as H. cbv zeta in H.
      destruct H as (_ & _ & _ & _ & H & _).
      apply (extends_count initD3D_call); [call_cases | exact H]. }
    split.
    { pose proof (initGraphics_frame os m) as H. cbv zeta in H.
      destruct H as (_ & _ & _ & _ & H & _). exact H. }
    split.
    { pose proof (initPipeline_creates os m) as H. cbv zeta in H.
      destruct H as (_ & H). intros Hd. destruct (H Hd) as (Hc & _).
      exact Hc. }
    intros msg. destruct (mainloop_body_frame msg os m) as (H & _).
    apply (extends_count (loop_call (window m))); [call_cases | exact H]. }
  split; [exact Hsame|].
  split; [rewrite Hsame; cbn in Hle; exact Hle|].
  split; [rewrite Hksame; cbn in Hkle; exact Hkle|].
  split.
  { intros m1' E. unfold m1 in *. rewrite E in *. cbn [machine_of] in *.
    destruct (Htrue m1' eq_refl) as (older & later & Hlog & Hcb & Hc & Hk).
    cbv zeta in Hlog, Hcb, Hk. cbn in Hc, Hk.
    split; [rewrite Hsame; exact Hc|].
    exists older, later. cbv zeta. split; [exact Hlog|]. split.
    - unfold stable in Hs. decompose [and] Hs. congruence.
    - unfold created_exactly_once. rewrite Hksame, Hk.
      destruct (FAILED _); cbn; split; intros; congruence. }
  split.
  { intros m. rewrite renderFrame_calls_of. cbv zeta.
    destruct (valid os (pDeviceContext_ (window m)));
      [destruct (valid os (pSwapChain_ (window m)))|];
      (split; [cbn; lia|]); (split; [try discriminate; reflexivity|]);
      intros c dst Hin Hw; cbn [In frame_calls frame_calls_drawn removelast]
        in Hin;
      repeat (destruct Hin as [<-|Hin]; [try discriminate|]);
      try (injection Hw as <-; reflexivity); destruct Hin. }
  split.
  { intros Hlive. apply (main_frames_inv fuel os storage Hlive). }
  split; [exact Hwrites|].
  intros Hdiff c Hin Hw. apply Hdiff. exact (Hwrites c _ Hin Hw).
Qed.

(** Binary32 sums are rounded: adding [0.01f] does not always move the
    sum.  At [262144.0f] the step is less than half a unit in the last
    place and is absorbed. *)
Remark Time_step_absorbed :
  Float32.add (Float32.lit 262144 0) Time_step = Float32.lit 262144 0.
Proof. vm_compute. reflexivity. Qed.

(** C8, as the code has it.  Every rendered frame, that is every
    [renderFrame] that returns, has made exactly one draw call,
    [Draw(3, 0)], has added [0.01f] to [Time], and has uploaded the
    transpose of the Z-rotation matrix of the new [Time]; [renderFrame]
    returns whenever the context and the swap chain are valid.  In a run
    that has not died there is one draw per frame presented, after [n]
    frames [Time] is the [n]-fold binary32 sum, and the [k]-th upload is
    the matrix of the [k]-fold sum.  Every draw of a run is [Draw(3, 0)].
    When [init] has succeeded, every draw of the run is made with the
    triangle-list topology set and with the vertex buffer bound that
    [initGraphics] created from the three vertices. *)
Theorem every_frame_draws_the_triangle fuel os storage :
  let m' := last_machine (main fuel os storage) in
  let n := frames_rendered (log m') in
  (forall m hr m2,
     renderFrame os m = Returned hr m2 ->
     hr = S_OK /\
     Time m2 = Float32.add (Time m) Time_step /\
     uploads (log m2) =
       {| FinalMatrix := XMMatrixTranspose (XMMatrixRotationZ (Time m2)) |}
         :: uploads (log m) /\
     draws (log m2) =
       {| draw_VertexCount := 3;
          draw_StartVertexLocation := 0;
          draw_topology := topology_at (pDeviceContext_ (window m)) (log m);
          draw_vertex_buffer :=
            vertex_buffer_at (pDeviceContext_ (window m)) (log m) |}
         :: draws (log m) /\
     frames_rendered (log m2) = S (frames_rendered (log m))) /\
  (forall m,
     valid os (pDeviceContext_ (window m)) = true ->
     valid os (pSwapChain_ (window m)) = true ->
     exists m2, renderFrame os m = Returned S_OK m2) /\
  (died (main fuel os storage) = false ->
   List.length (draws (log m')) = n /\
   Time m' = Time_after n /\
   uploads (log m') = expected_uploads n) /\
  Forall (fun d => draw_VertexCount d = 3 /\ draw_StartVertexLocation d = 0)
    (draws (log m')) /\
  (forall m1,
     init os (start storage) = Returned true m1 ->
     exists older,
       let created :=
         CreateBuffer (pDevice_ (window m1)) bufferDesc (Some vertices)
           :: older in
       (exists later, log m1 = later ++ created) /\
       FAILED (os_hresult os created) = false /\
       pVertexBuffer_ (window m1) = os_object os created 0 /\
       List.length vertices = 3%nat /\
       Forall
         (fun d =>
            d = {| draw_VertexCount := 3;
                   draw_StartVertexLocation := 0;
                   draw_topology := D3D11_PRIMITIVE_TOPOLOGY_TRIANGLELIST;
                   draw_vertex_buffer :=
                     Some (pVertexBuffer_ (window m1), sizeof_Vertex, 0) |})
         (draws (log m')) /\
       Forall draws_one_triangle (draws (log m'))).
Proof.
  intros m' n.
  destruct (main_frame fuel os storage) as (Hl & Hs). fold m' in Hl, Hs.
  pose proof (init_setup os (start storage)) as Hsetup.
  cbn [start log] in Hsetup.
  set (m1 := machine_of (init os (start storage))) in *.
  assert (Hnone : draws (log m1) = []).
  { rewrite (extends_draws_quiet setup_call [] (log m1));
      [reflexivity| |exact Hsetup].
    call_cases. }
  destruct (extends_loop_draws (window m1) (log m1) (log m') Hl)
    as (_ & _ & Hdraws).
  split.
  { intros m hr m2. rewrite renderFrame_eq. cbv zeta.
    destruct (valid os (pDeviceContext_ (window m)));
      [destruct (valid os (pSwapChain_ (window m)))|];
      intros E; try discriminate E. injection E as <- <-.
    cbn [Time log window]. repeat split. }
  split.
  { intros m Hctx Hsc. rewrite renderFrame_runs by assumption.
    eexists. reflexivity. }
  split.
  { intros Hlive.
    destruct (main_frames_inv fuel os storage Hlive) as (Ht & Hu & Hd & _).
    fold m' in Ht, Hu, Hd. fold n in Ht, Hu, Hd.
    split; [rewrite length_draws; exact Hd|]. split; assumption. }
  split.
  { apply Hdraws; [cbn; split; reflexivity | rewrite Hnone; constructor]. }
  intros m1' E. unfold m1 in *. rewrite E in *. cbn [machine_of] in *.
  destruct (init_true os _ m1' E) as (_ & _ & _ & older & Hlog & Hvb & Hok).
  cbv zeta in Hlog, Hvb, Hok.
  exists older. cbv zeta. split.
  { eexists [_; _]. exact Hlog. }
  split; [exact Hok|]. split; [exact Hvb|]. split; [reflexivity|].
  assert (Hbound :
            {| draw_VertexCount := 3;
               draw_StartVertexLocation := 0;
               draw_topology :=
                 topology_at (pDeviceContext_ (window m1')) (log m1');
               draw_vertex_buffer :=
                 vertex_buffer_at (pDeviceContext_ (window m1')) (log m1') |}
            = {| draw_VertexCount := 3;
                 draw_StartVertexLocation := 0;
                 draw_topology := D3D11_PRIMITIVE_TOPOLOGY_TRIANGLELIST;
                 draw_vertex_buffer :=
                   Some (pVertexBuffer_ (window m1'), sizeof_Vertex, 0) |}).
  { rewrite Hlog. cbn [topology_at vertex_buffer_at]. rewrite N.eqb_refl.
    reflexivity. }
  split.
  - apply Hdraws; [exact Hbound | rewrite Hnone; constructor].
  - apply Hdraws; [|rewrite Hnone; constructor].
    rewrite Hbound. unfold draws_one_triangle. cbn.
    repeat split. eexists. reflexivity.
Qed.

(** * Further properties of the code *)

(** ** [resizeSwapChain], case by case *)

(** The calls a log has on top of an older one. *)
Ltac prefix_of l base :=
  lazymatch l with
  | base => constr:(@nil Call)
  | ?c :: ?l' => let p := prefix_of l' base in constr:(c :: p)
  end.

Ltac split_log :=
  lazymatch goal with
  | |- exists rest, ?L = rest ++ ?B /\ _ =>
      let p := prefix_of L B in exists p; split; [reflexivity|]
  end.

(** X1.  [resizeSwapChain] is all or nothing.  With a swap chain, a
    device and a context to call through it returns; and whenever it
    returns, it returns [S_OK] exactly when [ResizeBuffers], [GetBuffer]
    and [CreateRenderTargetView] have all succeeded, and then it has bound
    the view it has just created, released the back buffer and set a
    viewport of the size it was given.  When one of the three fails it
    hands back a failed [HRESULT] and has neither bound a render target
    nor set a viewport.  In both cases it leaves [Time], the flag and
    every member but [pRenderTargetView_] alone. *)
Theorem resizeSwapChain_all_or_nothing os m width height :
  (hands_out_objects os ->
   null_or_valid os (pRenderTargetView_ (window m)) = true ->
   valid os (pSwapChain_ (window m)) = true ->
   valid os (pDevice_ (window m)) = true ->
   valid os (pDeviceContext_ (window m)) = true ->
   exists hr m', resizeSwapChain width height os m = Returned hr m') /\
  (forall hr m',
     resizeSwapChain width height os m = Returned hr m' ->
     Time m' = Time m /\
     is_fullscreen_ (window m') = is_fullscreen_ (window m) /\
     stable (window m) (window m') /\
     (FAILED hr = false ->
      hr = S_OK /\
      exists backBuffer older,
        log m' =
          RSSetViewports (pDeviceContext_ (window m)) 1
            (resize_viewport width height)
          :: Release backBuffer
          :: OMSetRenderTargets (pDeviceContext_ (window m)) 1
               (pRenderTargetView_ (window m'))
          :: CreateRenderTargetView (pDevice_ (window m)) backBuffer
          :: older /\
        pRenderTargetView_ (window m') =
          os_object os
            (CreateRenderTargetView (pDevice_ (window m)) backBuffer :: older)
            0) /\
     (FAILED hr = true ->
      count sets_up_rendering (log m') = count sets_up_rendering (log m))).
Proof.
  split.
  { intros Hcom Hold Hsc Hdev Hctx.
    pose proof (resizeSwapChain_safe os m width height Hcom Hold Hsc Hdev Hctx)
      as E. cbv zeta in E. rewrite E.
    split_tests; eexists _, _; reflexivity. }
  intros hr m'. rewrite resizeSwapChain_runs. cbv zeta.
  split_tests; intros E; try discriminate E; injection E as <- <-;
    cbn [window Time log];
    (split; [reflexivity|]); (split; [reflexivity|]);
    (split; [repeat split|]);
    (split; [intros Hok; try congruence | intros Hbad; try discriminate]);
    try reflexivity.
  all: split; [reflexivity|]; do 2 eexists; split; reflexivity.
Qed.

(** X2.  What [resizeSwapChain] releases and what it reports.  Whenever
    it returns, the old render-target view has been released exactly when
    it was not null, and before [ResizeBuffers] was called; the back
    buffer has been released only when the function returns [S_OK], so a
    [CreateRenderTargetView] that fails leaves the buffer obtained from
    [GetBuffer] unreleased.  Only that failure is written to standard
    error: when the function fails without a line on standard error,
    [pRenderTargetView_] is left null. *)
Theorem resizeSwapChain_releases os m width height :
  let old := pRenderTargetView_ (window m) in
  let released := if is_null old then log m else Release old :: log m in
  (hands_out_objects os ->
   null_or_valid os old = true ->
   valid os (pSwapChain_ (window m)) = true ->
   valid os (pDevice_ (window m)) = true ->
   valid os (pDeviceContext_ (window m)) = true ->
   exists hr m', resizeSwapChain width height os m = Returned hr m') /\
  (forall hr m',
     resizeSwapChain width height os m = Returned hr m' ->
     (exists rest,
        log m' =
          rest
          ++ ResizeBuffers (pSwapChain_ (window m)) 0 width height
               DXGI_FORMAT_UNKNOWN 0
          :: released /\
        count is_Release rest = (if FAILED hr then 0 else 1)%nat /\
        count is_ResizeBuffers rest = 0%nat) /\
     (count is_cerr (log m') <= 1 + count is_cerr (log m))%nat /\
     (FAILED hr = false -> count is_cerr (log m') = count is_cerr (log m)) /\
     (FAILED hr = true ->
      count is_cerr (log m') = count is_cerr (log m) ->
      pRenderTargetView_ (window m') = nullptr)).
Proof.
  intros old released. split.
  { intros Hcom Hold Hsc Hdev Hctx.
    pose proof (resizeSwapChain_safe os m width height Hcom Hold Hsc Hdev Hctx)
      as E. cbv zeta in E. rewrite E.
    split_tests; eexists _, _; reflexivity. }
  intros hr m'. rewrite resizeSwapChain_runs. cbv zeta.
  fold old. fold released.
  assert (Hcerr : count is_cerr released = count is_cerr (log m)).
  { unfold released. destruct (is_null old); reflexivity. }
  repeat match goal with
         | |- context [if ?b then _ else _] =>
             lazymatch b with
             | is_null _ => fail
             | FAILED ?x => tryif is_var x then fail else destruct b eqn:?
             | _ => destruct b eqn:?
             end
         end;
    intros E; try discriminate E; injection E as <- <-;
    cbn [window Time log];
    change (FAILED S_OK) with false;
    repeat match goal with
           | H : FAILED ?x = _ |- context [FAILED ?x] => rewrite H
           end;
    (split; [split_log; split; reflexivity|]).
  all: unfold count in *; cbn [filter is_cerr List.length] in *.
  all: try rewrite Hcerr.
  all: repeat split; try lia; try congruence; try discriminate.
  all: intros; lia.
Qed.

(** ** Invariants of the whole run *)

(** A loop invariant is one that the three things an iteration can do
    keep: passing a message on, handling it in [WindowProc], rendering a
    frame. *)
Lemma mainloop_body_invariant (Inv : Machine -> Prop) os :
  (forall m q, Inv m -> Inv (dispatched m q)) ->
  (forall m wnd msg wPar lPar,
     Inv m -> faulted (WindowProc wnd msg wPar lPar os m) = false ->
     Inv (machine_of (WindowProc wnd msg wPar lPar os m))) ->
  (forall m,
     Inv m ->
     Inv {| window := window m;
            Time := Float32.add (Time m) Time_step;
            log := rev (frame_calls (window m)
                          (Float32.add (Time m) Time_step))
                   ++ PeekMessage PM_REMOVE :: log m |}) ->
  forall msg m,
    Inv m -> faulted (mainloop_body msg os m) = false ->
    Inv (machine_of (mainloop_body msg os m)).
Proof.
  intros Hdispatch Hproc Hframe msg m Hm.
  destruct (os_message os (PeekMessage PM_REMOVE :: log m)) as [q|] eqn:Hq.
  - rewrite (mainloop_body_message msg os m q Hq).
    destruct (for_our_window m q).
    + specialize (Hproc (dispatched m q) (hwnd q) (message q) (wParam q)
                    (lParam q) (Hdispatch m q Hm)).
      destruct (WindowProc _ _ _ _ _ _); cbn [faulted machine_of] in *;
        intros Hlive; first [discriminate Hlive | exact (Hproc Hlive)].
    + intros _. exact (Hdispatch m q Hm).
  - rewrite (mainloop_body_no_message msg os m Hq).
    rewrite renderFrame_eq. cbv zeta. cbn [peeked window Time log].
    destruct (valid os (pDeviceContext_ (window m)));
      [destruct (valid os (pSwapChain_ (window m)))|];
      cbn [faulted]; try discriminate.
    intros _. exact (Hframe m Hm).
Qed.

(** What [init] has not done: no call of a kind that the set-up never
    makes. *)
Lemma init_count_0 os storage p :
  (forall c, setup_call c -> p c = false) ->
  count p (log (machine_of (init os (start storage)))) = 0%nat.
Proof.
  intros Hp. pose proof (init_setup os (start storage)) as Hl.
  cbn [start log] in Hl.
  rewrite (extends_count setup_call p [] _ Hp Hl). reflexivity.
Qed.

Lemma init_flag os storage :
  is_fullscreen_ (window (machine_of (init os (start storage)))) = false.
Proof.
  pose proof (init_frame os (start storage)) as H. cbv zeta in H.
  destruct H as (_ & Hf & _). exact Hf.
Qed.

Lemma WindowProc_toggles_inv os m wnd msg wPar lPar :
  toggles_inv m ->
  faulted (WindowProc wnd msg wPar lPar os m) = false ->
  toggles_inv (machine_of (WindowProc wnd msg wPar lPar os m)).
Proof.
  intros (Hflag & Hres).
  destruct ((msg =? WM_KEYDOWN) && (wPar =? VK_F11)) eqn:Hkey.
  - apply andb_true_iff in Hkey. destruct Hkey as (Hmsg & Hkey).
    apply Z.eqb_eq in Hmsg, Hkey. subst msg wPar.
    rewrite WindowProc_F11. cbv zeta.
    destruct (valid os (pSwapChain_ (window m))); [|discriminate].
    pose proof (resizeSwapChain_frame os (toggled os m wnd)
                  (client_width os (toggled os m wnd))
                  (client_height os (toggled os m wnd))) as Hnx.
    cbv zeta in Hnx. destruct Hnx as (_ & _ & _ & _ & Hnx).
    destruct (resizeSwapChain _ _ _ _) as [hr m2|s2 m2|m2] eqn:E;
      [|destruct (Hnx s2 m2 eq_refl)|discriminate].
    intros _.
    rewrite resizeSwapChain_runs in E. cbv zeta in E.
    assert (Hm2 : is_fullscreen_ (window m2)
                    = negb (is_fullscreen_ (window m)) /\
                  count is_SetFullscreenState (log m2)
                    = S (count is_SetFullscreenState (log m)) /\
                  count is_ResizeBuffers (log m2)
                    = S (count is_ResizeBuffers (log m))).
    { unfold toggled in E. cbn [window log pRenderTargetView_ pSwapChain_
                                pDevice_ pDeviceContext_ set_is_fullscreen_]
        in E.
      repeat match type of E with
             | context [if ?b then _ else _] => destruct b
             end;
        try discriminate E;
        injection E as <- <-; unfold count; cbn; repeat split. }
    destruct Hm2 as (Hf2 & Hs2 & Hr2).
    assert (Hinv : is_fullscreen_ (window m2)
                     = Nat.odd (count is_SetFullscreenState (log m2)) /\
                   count is_ResizeBuffers (log m2)
                     = count is_SetFullscreenState (log m2)).
    { rewrite Hf2, Hs2, Hr2, Hflag, Hres. split; [|reflexivity].
      rewrite Nat.odd_succ, <- Nat.negb_odd. reflexivity. }
    destruct (FAILED hr); exact Hinv.
  - destruct (WindowProc_idle os m wnd msg wPar lPar Hkey)
      as (r & m' & -> & Hw & _ & Hl).
    intros _. cbn [machine_of]. unfold toggles_inv. rewrite Hw.
    rewrite (extends_count idle_call is_SetFullscreenState _ _
               ltac:(call_cases) Hl).
    rewrite (extends_count idle_call is_ResizeBuffers _ _
               ltac:(call_cases) Hl).
    split; assumption.
Qed.

(** X3.  The flag follows the toggles, and the swap chain is resized once
    per toggle and at no other time.  At the head of every iteration of
    the loop, and at the end of a run that has not died, [is_fullscreen_]
    is [true] exactly when an odd number of [SetFullscreenState] calls
    has been made, and as many [ResizeBuffers] calls have been made as
    [SetFullscreenState] calls; in particular a [WM_SIZE] message resizes
    nothing. *)
Theorem flag_follows_toggles fuel os storage :
  let m' := last_machine (main fuel os storage) in
  (died (main fuel os storage) = false ->
   is_fullscreen_ (window m')
     = Nat.odd (count is_SetFullscreenState (log m')) /\
   count is_ResizeBuffers (log m') = count is_SetFullscreenState (log m')) /\
  (forall m wnd wPar lPar,
     exists m2,
       WindowProc wnd WM_SIZE wPar lPar os m = Returned 0 m2 /\
       window m2 = window m /\
       log m2 = GetWindowLongPtr wnd GWLP_USERDATA :: log m).
Proof.
  intros m'. split.
  - intros Hlive. change (toggles_inv m').
    apply main_invariant; [| |exact Hlive].
    + unfold toggles_inv. rewrite init_flag.
      rewrite (init_count_0 os storage is_SetFullscreenState
                 ltac:(call_cases)).
      rewrite (init_count_0 os storage is_ResizeBuffers ltac:(call_cases)).
      split; reflexivity.
    + apply mainloop_body_invariant.
      * intros m q Hm. exact Hm.
      * intros m wnd msg wPar lPar. apply WindowProc_toggles_inv.
      * intros m Hm. exact Hm.
  - intros m wnd wPar lPar. unfold WindowProc. run.
    eexists. split; [reflexivity|]. split; reflexivity.
Qed.

(** X4.  Every [PeekMessage] is accounted for.  [init] calls none of
    [PeekMessage], [TranslateMessage], [DispatchMessage] and [Present].
    At the head of every iteration of the loop, and at the end of a run
    that has not died, the number of [PeekMessage] calls is the number of
    frames presented plus the number of messages translated, and every
    message translated has been dispatched: no message is dropped, and no
    iteration does nothing. *)
Theorem peeks_accounted_for fuel os storage :
  let m1 := machine_of (init os (start storage)) in
  let m' := last_machine (main fuel os storage) in
  (count is_PeekMessage (log m1) = 0%nat /\
   count is_TranslateMessage (log m1) = 0%nat /\
   count is_DispatchMessage (log m1) = 0%nat /\
   frames_rendered (log m1) = 0%nat) /\
  (died (main fuel os storage) = false ->
   count is_PeekMessage (log m')
     = (frames_rendered (log m') + count is_TranslateMessage (log m'))%nat /\
   count is_DispatchMessage (log m') = count is_TranslateMessage (log m')).
Proof.
  intros m1 m'.
  assert (Hinit : count is_PeekMessage (log m1) = 0%nat /\
                  count is_TranslateMessage (log m1) = 0%nat /\
                  count is_DispatchMessage (log m1) = 0%nat /\
                  frames_rendered (log m1) = 0%nat).
  { unfold m1, frames_rendered.
    repeat split; apply init_count_0; call_cases. }
  split; [exact Hinit|].
  intros Hlive. change (peeks_inv m').
  apply main_invariant; [| |exact Hlive].
  - fold m1. destruct Hinit as (H1 & H2 & H3 & H4).
    unfold peeks_inv. rewrite H1, H2, H3, H4. split; reflexivity.
  - apply mainloop_body_invariant.
    + intros m q (Hp & Hd). unfold peeks_inv, frames_rendered, count in *.
      cbn. lia.
    + intros m wnd msg wPar lPar Hm _.
      destruct (WindowProc_frame os m wnd msg wPar lPar) as (Hl & _).
      unfold peeks_inv, frames_rendered in *.
      rewrite (extends_count message_call is_PeekMessage _ _
                 ltac:(call_cases) Hl).
      rewrite (extends_count message_call is_Present _ _
                 ltac:(call_cases) Hl).
      rewrite (extends_count message_call is_TranslateMessage _ _
                 ltac:(call_cases) Hl).
      rewrite (extends_count message_call is_DispatchMessage _ _
                 ltac:(call_cases) Hl).
      exact Hm.
    + intros m (Hp & Hd). unfold peeks_inv, frames_rendered, count in *.
      cbn. lia.
Qed.

Lemma WindowProc_agree_inv os m wnd msg wPar lPar :
  never_fails os is_SetFullscreenState ->
  agree_inv os m ->
  faulted (WindowProc wnd msg wPar lPar os m) = false ->
  agree_inv os (machine_of (WindowProc wnd msg wPar lPar os m)).
Proof.
  intros Hnever Hm. unfold agree_inv in *.
  destruct (WindowProc_frame os m wnd msg wPar lPar) as (_ & Hs & _).
  destruct Hs as (_ & _ & _ & Hsc & _). rewrite Hsc.
  destruct ((msg =? WM_KEYDOWN) && (wPar =? VK_F11)) eqn:Hkey.
  - apply andb_true_iff in Hkey. destruct Hkey as (Hmsg & Hkey).
    apply Z.eqb_eq in Hmsg, Hkey. subst msg wPar.
    intros Hlive.
    assert (Hv : valid os (pSwapChain_ (window m)) = true).
    { rewrite WindowProc_F11 in Hlive. cbv zeta in Hlive.
      destruct (valid os (pSwapChain_ (window m)));
        [reflexivity | discriminate Hlive]. }
    destruct (WindowProc_F11_frame os m wnd lPar Hv) as (Hflag & Hl).
    rewrite Hflag.
    rewrite (extends_swapchain_fullscreen after_toggle_call os _ _ _
               after_toggle_call_not_SetFullscreenState Hl).
    cbn [swapchain_fullscreen]. rewrite N.eqb_refl.
    rewrite Hnever by reflexivity. reflexivity.
  - destruct (WindowProc_idle os m wnd msg wPar lPar Hkey)
      as (r & m' & -> & Hw & _ & Hl).
    intros _. cbn [machine_of]. rewrite Hw.
    rewrite (extends_swapchain_fullscreen idle_call os _ _ _
               ltac:(call_cases) Hl).
    exact Hm.
Qed.

(** X13.  As long as [SetFullscreenState] does not fail, the flag is
    right.  In an environment where that call never fails, at the head of
    every iteration of the loop, and at the end of a run that has not
    died, [is_fullscreen_] is the fullscreen state of the swap chain in
    [pSwapChain_]: windowed after [init], and switched together by every
    F11. *)
Theorem flag_agrees_with_swap_chain fuel os storage :
  never_fails os is_SetFullscreenState ->
  died (main fuel os storage) = false ->
  let m' := last_machine (main fuel os storage) in
  swapchain_fullscreen os (pSwapChain_ (window m')) (log m')
  = is_fullscreen_ (window m').
Proof.
  intros Hnever Hlive m'. change (agree_inv os m').
  apply main_invariant; [| |exact Hlive].
  - unfold agree_inv. rewrite init_flag.
    pose proof (init_setup os (start storage)) as Hl. cbn [start log] in Hl.
    rewrite (extends_swapchain_fullscreen setup_call os _ _ _
               ltac:(call_cases) Hl).
    reflexivity.
  - apply mainloop_body_invariant.
    + intros m q Hm. exact Hm.
    + intros m wnd msg wPar lPar. apply WindowProc_agree_inv. exact Hnever.
    + intros m Hm. exact Hm.
Qed.

(** ** [initD3D], step by step *)

(** A pointer the environment has to make valid. *)
Ltac contradict_pointer :=
  match goal with
  | Hcom : hands_out_objects ?os,
    Hok : FAILED (os_hresult ?os (?c :: ?l)) = false,
    Hv : valid ?os (os_object ?os (?c :: ?l) ?k) = false |- _ =>
      rewrite (Hcom c l k eq_refl Hok) in Hv; discriminate Hv
  end.

Lemma never_fails_weaken os (p q : Call -> bool) :
  (forall c, q c = true -> p c = true) ->
  never_fails os p -> never_fails os q.
Proof. intros Hqp Hp c l Hq. apply Hp, Hqp, Hq. Qed.

(** Where every successful call hands out an object and [GetBuffer] does
    not fail, [initD3D] does not die. *)
Lemma initD3D_returns os m :
  hands_out_objects os -> never_fails os is_GetBuffer ->
  exists hr m', initD3D os m = Returned hr m'.
Proof.
  intros Hcom Hgot. rewrite initD3D_runs. cbv zeta.
  split_tests; try (eexists _, _; reflexivity); exfalso;
    try contradict_pointer.
  match goal with
  | Hv : valid os (os_object os (?c :: ?l) 0) = false |- _ =>
      rewrite (Hcom c l 0%nat eq_refl (Hgot c l eq_refl)) in Hv;
      discriminate Hv
  end.
Qed.

(** X5.  [initD3D] reports what it detects, and stops there.  Whenever it
    returns, it has written one line to standard error exactly when it
    returns a failed [HRESULT], and none otherwise; when it fails it has
    neither bound a render target nor set a viewport, and
    [pRenderTargetView_] is as it was.  It makes no call outside device,
    DXGI and render-target set-up: in particular it compiles nothing and
    creates no buffer.  It returns wherever every successful call hands
    out an object and [GetBuffer] does not fail. *)
Theorem initD3D_reports_what_it_detects os m :
  (hands_out_objects os -> never_fails os is_GetBuffer ->
   exists hr m', initD3D os m = Returned hr m') /\
  extends initD3D_call (log m) (log (machine_of (initD3D os m))) /\
  (forall hr m',
     initD3D os m = Returned hr m' ->
     count is_cerr (log m')
       = ((if FAILED hr then 1 else 0) + count is_cerr (log m))%nat /\
     (FAILED hr = true ->
      pRenderTargetView_ (window m') = pRenderTargetView_ (window m) /\
      count sets_up_rendering (log m') = count sets_up_rendering (log m))).
Proof.
  split; [apply initD3D_returns|]. split.
  { pose proof (initD3D_frame os m) as H. cbv zeta in H.
    destruct H as (_ & _ & _ & _ & H & _). exact H. }
  intros hr m'. rewrite initD3D_runs. cbv zeta.
  repeat match goal with
         | |- context [if ?b then _ else _] =>
             lazymatch b with
             | FAILED ?x => tryif is_var x then fail else destruct b eqn:?
             | _ => destruct b eqn:?
             end
         end;
    intros E; try discriminate E; injection E as <- <-; tidy;
    repeat match goal with
           | H : FAILED ?x = _ |- context [FAILED ?x] => rewrite H
           end;
    (split; [reflexivity|]); intros Hbad; try discriminate Hbad;
    split; reflexivity.
Qed.

(** X6.  [initD3D] does not look at what [GetBuffer] and
    [CreateRenderTargetView] return.  Where the five calls it tests
    succeed and hand out their objects, it goes on to create a view of
    whatever [GetBuffer] has left as the back buffer and to release that
    back buffer, having released the DXGI device, the adapter and the
    factory.  If the back buffer is an object, [initD3D] returns success
    whatever the two calls have answered: it has made four [Release]
    calls, bound whatever [CreateRenderTargetView] left in
    [pRenderTargetView_], and set a viewport of 1920 by 1080, whatever
    the size of the screen or of the window.  If it is not, the process
    dies in that [Release], the fourth. *)
Theorem initD3D_ignores_view_failures os m :
  never_fails os checked_by_initD3D ->
  hands_out_objects os ->
  exists sc older,
    let got := GetBuffer sc 0 IID_ID3D11Texture2D :: older in
    let backBuffer := os_object os got 0 in
    let dev := os_object os (D3D11CreateDevice :: log m) 0 in
    let ctx := os_object os (D3D11CreateDevice :: log m) 1 in
    let viewed := CreateRenderTargetView dev backBuffer :: got in
    count is_Release got = (3 + count is_Release (log m))%nat /\
    (valid os backBuffer = true ->
     exists hr m',
       initD3D os m = Returned hr m' /\
       FAILED hr = false /\
       pDevice_ (window m') = dev /\ pDeviceContext_ (window m') = ctx /\
       count is_Release (log m') = (4 + count is_Release (log m))%nat /\
       log m' =
         RSSetViewports ctx 1 initial_viewport
         :: OMSetRenderTargets ctx 1 (pRenderTargetView_ (window m'))
         :: Release backBuffer :: viewed /\
       pRenderTargetView_ (window m') = os_object os viewed 0) /\
    (valid os backBuffer = false ->
     exists m',
       initD3D os m = Faulted m' /\
       log m' = viewed /\
       pRenderTargetView_ (window m') = os_object os viewed 0).
Proof.
  intros Hnever Hcom. rewrite initD3D_runs. cbv zeta.
  eexists _, _. cbv zeta.
  split; [|split; intros Hbb; rewrite Hbb].
  2,3: repeat match goal with
         | |- context [if FAILED (os_hresult ?os (?c :: ?l)) then _ else _] =>
             rewrite (Hnever c l eq_refl)
         | |- context [if valid ?os (os_object ?os (?c :: ?l) ?k)
                       then _ else _] =>
             rewrite (Hcom c l k eq_refl (Hnever c l eq_refl))
         end.
  - reflexivity.
  - eexists _, _. split; [reflexivity|]. tidy.
    split; [apply Hnever; reflexivity|].
    repeat split.
  - eexists. split; [reflexivity|]. tidy. split; reflexivity.
Qed.

(** X7.  A reference is lost when [GetAdapter] fails.  [QueryInterface]
    has handed out the DXGI device by then, and [initD3D] returns without
    releasing it: it makes no [Release] call at all, reports the failure
    and hands the failed [HRESULT] back. *)
Theorem initD3D_GetAdapter_failure_releases_nothing os m :
  never_fails os before_GetAdapter ->
  always_fails os is_GetAdapter ->
  hands_out_objects os ->
  exists hr m' dxgiDevice older,
    initD3D os m = Returned hr m' /\
    FAILED hr = true /\
    log m' =
      cerr "Failed to GetAdapter from device"
      :: GetAdapter dxgiDevice
      :: QueryInterface (pDevice_ (window m')) IID_IDXGIDevice :: older /\
    dxgiDevice =
      os_object os
        (QueryInterface (pDevice_ (window m')) IID_IDXGIDevice :: older) 0 /\
    valid os dxgiDevice = true /\
    count is_Release (log m') = count is_Release (log m).
Proof.
  intros Hnever Halways Hcom. rewrite initD3D_runs. cbv zeta.
  repeat match goal with
         | |- context [if FAILED (os_hresult ?os (?c :: ?l)) then _ else _] =>
             first [ rewrite (Hnever c l eq_refl)
                   | rewrite (Halways c l eq_refl) ]
         | |- context [if valid ?os (os_object ?os (?c :: ?l) ?k)
                       then _ else _] =>
             rewrite (Hcom c l k eq_refl (Hnever c l eq_refl))
         end.
  do 4 eexists. split; [reflexivity|]. tidy.
  split; [apply Halways; reflexivity|].
  split; [reflexivity|]. split; [reflexivity|]. split; [|reflexivity].
  apply Hcom; [reflexivity|]. apply Hnever. reflexivity.
Qed.

(** ** [initPipeline], step by step *)

(** Where the five tested calls and [GetBuffer] succeed and hand out
    their objects, [initD3D] succeeds. *)
Lemma initD3D_succeeds os m :
  never_fails os checked_by_initD3D ->
  never_fails os is_GetBuffer ->
  hands_out_objects os ->
  exists hr m', initD3D os m = Returned hr m' /\ FAILED hr = false.
Proof.
  intros Hnever Hgot Hcom. rewrite initD3D_runs. cbv zeta.
  repeat match goal with
         | |- context [if FAILED (os_hresult ?os (?c :: ?l)) then _ else _] =>
             rewrite (Hnever c l eq_refl)
         | |- context [if valid ?os (os_object ?os (?c :: ?l) ?k)
                       then _ else _] =>
             first [ rewrite (Hcom c l k eq_refl (Hnever c l eq_refl))
                   | rewrite (Hcom c l k eq_refl (Hgot c l eq_refl)) ]
         end.
  eexists _, _. split; [reflexivity|]. apply Hnever. reflexivity.
Qed.

(** Where both compilations succeed and hand out their blobs,
    [initPipeline] succeeds, given a device and a context. *)
Lemma initPipeline_succeeds os m :
  never_fails os is_D3DCompile ->
  hands_out_objects os ->
  valid os (pDevice_ (window m)) = true ->
  valid os (pDeviceContext_ (window m)) = true ->
  exists hr m', initPipeline os m = Returned hr m' /\ FAILED hr = false.
Proof.
  intros Hnever Hcom Hdev Hctx. rewrite initPipeline_runs. cbv zeta.
  rewrite Hdev, Hctx.
  repeat match goal with
         | |- context [if FAILED (os_hresult ?os (?c :: ?l))
                       then _ else _] =>
             rewrite (Hnever c l eq_refl)
         | |- context [if valid ?os (os_object ?os (?c :: ?l) ?k)
                       then _ else _] =>
             rewrite (Hcom c l k eq_refl (Hnever c l eq_refl))
         end.
  eexists _, _. split; [reflexivity|]. apply Hnever. reflexivity.
Qed.

(** X8.  A shader that does not compile stops [initPipeline] before it
    creates anything.  Whenever [initPipeline] returns a failed
    [HRESULT], it has created no shader, no input layout and no buffer,
    and every member of the object is as it was.  It has written to
    standard error only if the compiler handed out an error blob: then
    the line is the text of that blob, and the blob is released right
    after; with no error blob the failure is silent.  It does return the
    failure when the compilation that fails leaves an error blob that is
    null or a blob. *)
Theorem initPipeline_failure_creates_nothing os m :
  (let lv := D3DCompile vertexShaderSrc "VSMain" "vs_5_0" :: log m in
   let lp := D3DCompile pixelShaderSrc "PSMain" "ps_5_0" :: lv in
   (FAILED (os_hresult os lv) = true /\
    null_or_valid os (os_object os lv 1) = true) \/
   (FAILED (os_hresult os lv) = false /\
    FAILED (os_hresult os lp) = true /\
    null_or_valid os (os_object os lp 1) = true) ->
   exists hr m',
     initPipeline os m = Returned hr m' /\ FAILED hr = true) /\
  extends initPipeline_call (log m) (log (machine_of (initPipeline os m))) /\
  (forall hr m',
     initPipeline os m = Returned hr m' ->
     FAILED hr = true ->
     window m' = window m /\
     count creates_pipeline_object (log m')
       = count creates_pipeline_object (log m) /\
     ((count is_cerr (log m') = count is_cerr (log m) /\
       exists src entry target older,
         log m' = D3DCompile src entry target :: older /\
         os_object os (log m') 1 = nullptr) \/
      (exists errorBlob older,
         log m' = Release errorBlob :: cerr (blob_text os errorBlob) :: older
         /\
         errorBlob <> nullptr /\
         errorBlob = os_object os older 1))).
Proof.
  split.
  { cbv zeta. intros Hbad.
    destruct (initPipeline_compilation_fails os m Hbad)
      as (hr & m' & E & Hfail & _).
    exists hr, m'. split; assumption. }
  split.
  { pose proof (initPipeline_frame os m) as H. cbv zeta in H.
    destruct H as (_ & _ & _ & H & _). exact H. }
  intros hr m'. rewrite initPipeline_runs. cbv zeta.
  repeat match goal with
         | |- context [if ?b then _ else _] =>
             lazymatch b with
             | FAILED ?x => tryif is_var x then fail else destruct b eqn:?
             | _ => destruct b eqn:?
             end
         end;
    intros E Hbad; try discriminate E; injection E as <- <-;
    try congruence; tidy;
    (split; [reflexivity|]); (split; [reflexivity|]).
  all: match goal with
       | H : is_null ?blob = false |- _ =>
           right; exists blob; eexists; split; [reflexivity|];
           split; [|reflexivity];
           intros Hnull; rewrite Hnull in H; discriminate H
       | H : is_null ?blob = true |- _ =>
           left; split; [reflexivity|];
           do 4 eexists; split; [reflexivity|];
           apply N.eqb_eq in H; exact H
       end.
Qed.

(** X9.  When both shaders compile, [initPipeline] succeeds, whatever the
    creation calls answer: it does not test them.  Whenever it returns
    without a failure, it has compiled twice, created the two shaders,
    the input layout and the constant buffer (four creations), released
    the two blobs, written nothing to standard error, set the input
    layout it keeps in [pInputLayout_], and ended by binding the buffer
    it keeps in [pConstBuffer_] to slot 0.  With a device and a context
    to call through, and a blob from each compilation, it does return. *)
Theorem initPipeline_success os m :
  (never_fails os is_D3DCompile ->
   hands_out_objects os ->
   valid os (pDevice_ (window m)) = true ->
   valid os (pDeviceContext_ (window m)) = true ->
   exists hr m', initPipeline os m = Returned hr m' /\ FAILED hr = false) /\
  (forall hr m',
     initPipeline os m = Returned hr m' ->
     FAILED hr = false ->
     count is_D3DCompile (log m') = (2 + count is_D3DCompile (log m))%nat /\
     count creates_pipeline_object (log m')
       = (4 + count creates_pipeline_object (log m))%nat /\
     count is_Release (log m') = (2 + count is_Release (log m))%nat /\
     count is_cerr (log m') = count is_cerr (log m) /\
     (exists rest,
        log m' = rest ++ log m /\
        In (IASetInputLayout (pDeviceContext_ (window m))
              (pInputLayout_ (window m'))) rest) /\
     exists older,
       log m' =
         VSSetConstantBuffers (pDeviceContext_ (window m)) 0 1
           (pConstBuffer_ (window m'))
         :: CreateBuffer (pDevice_ (window m)) cbd None :: older /\
       pConstBuffer_ (window m') =
         os_object os (CreateBuffer (pDevice_ (window m)) cbd None :: older)
           0).
Proof.
  split.
  { apply initPipeline_succeeds. }
  intros hr m'. rewrite initPipeline_runs. cbv zeta.
  repeat match goal with
         | |- context [if ?b then _ else _] =>
             lazymatch b with
             | FAILED ?x => tryif is_var x then fail else destruct b eqn:?
             | _ => destruct b eqn:?
             end
         end;
    intros E Hok; try discriminate E; injection E as <- <-;
    try congruence; tidy.
  split; [reflexivity|]. split; [reflexivity|]. split; [reflexivity|].
  split; [reflexivity|]. split.
  - split_log. cbn [In]. tauto.
  - eexists. split; reflexivity.
Qed.

(** X16.  The compiled vertex shader is lost when the pixel shader does
    not compile.  [initPipeline] then returns the failed [HRESULT] without
    releasing the blob that the first compilation handed out: after the
    two compilations it only reports and releases the error blob, if there
    is one, and it leaves every member as it was. *)
Theorem initPipeline_pixel_failure_keeps_vertex_blob os m :
  never_fails os compiles_vertex_shader ->
  always_fails os compiles_pixel_shader ->
  let first := D3DCompile vertexShaderSrc "VSMain" "vs_5_0" :: log m in
  let second := D3DCompile pixelShaderSrc "PSMain" "ps_5_0" :: first in
  let vsBlob := os_object os first 0 in
  let errorBlob := os_object os second 1 in
  null_or_valid os errorBlob = true ->
  exists hr m',
    initPipeline os m = Returned hr m' /\
    FAILED hr = true /\
    window m' = window m /\
    log m' =
      (if is_null errorBlob then []
       else [Release errorBlob; cerr (blob_text os errorBlob)]) ++ second /\
    (forall p, In (Release p) (log m') ->
               p = errorBlob \/ In (Release p) (log m)) /\
    (vsBlob <> errorBlob ->
     In (Release vsBlob) (log m') -> In (Release vsBlob) (log m)).
Proof.
  intros Hnever Halways first second vsBlob errorBlob Hblob.
  rewrite initPipeline_runs. cbv zeta.
  rewrite (Hnever (D3DCompile vertexShaderSrc "VSMain" "vs_5_0") (log m)
             eq_refl).
  fold first.
  rewrite (Halways (D3DCompile pixelShaderSrc "PSMain" "ps_5_0") first
             eq_refl).
  fold second. fold errorBlob.
  assert (Hreleased :
            forall p,
              In (Release p)
                ((if is_null errorBlob then []
                  else [Release errorBlob; cerr (blob_text os errorBlob)])
                 ++ second) ->
              p = errorBlob \/ In (Release p) (log m)).
  { intros p Hin. unfold second, first in Hin.
    destruct (is_null errorBlob); cbn [app In] in Hin.
    - destruct Hin as [Hin|[Hin|Hin]];
        [discriminate Hin | discriminate Hin | right; exact Hin].
    - destruct Hin as [Hin|[Hin|[Hin|[Hin|Hin]]]];
        [ injection Hin as <-; left; reflexivity
        | discriminate Hin | discriminate Hin | discriminate Hin
        | right; exact Hin ]. }
  unfold null_or_valid in Hblob.
  destruct (is_null errorBlob) eqn:Hnull; cbn [orb] in Hblob;
    try rewrite Hblob;
    do 2 eexists; (split; [reflexivity|]); cbn [window log];
    (split; [apply Halways; reflexivity|]); (split; [reflexivity|]);
    (split; [reflexivity|]);
    (split; [exact Hreleased|]);
    intros Hother Hin;
    (destruct (Hreleased _ Hin) as [Heq|Hold]; [contradiction | exact Hold]).
Qed.

(** ** [init], step by step *)

(** X10.  [init] succeeds as soon as the calls it tests succeed.  Where
    the five tested calls of [initD3D], the two shader compilations and
    the creation of the vertex buffer succeed, [GetBuffer] does not fail,
    and every successful call hands out its object, [init] returns
    [true], whatever every other call answers, the creation of the
    window, of the render-target view, of the shaders, of the input
    layout and of the constant buffer included. *)
Theorem init_succeeds_when_tested_calls_do os m :
  never_fails os checked_by_init ->
  never_fails os is_GetBuffer ->
  hands_out_objects os ->
  exists m1, init os m = Returned true m1.
Proof.
  intros Hnever Hgot Hcom. rewrite init_steps.
  assert (H1 : never_fails os checked_by_initD3D).
  { eapply never_fails_weaken; [|exact Hnever].
    intros c; destruct c; cbn; congruence. }
  assert (H2 : never_fails os is_D3DCompile).
  { eapply never_fails_weaken; [|exact Hnever].
    intros c; destruct c; cbn; congruence. }
  destruct (initD3D_succeeds os (window_created os m) H1 Hgot Hcom)
    as (hr1 & m1 & E1 & Hok1).
  pose proof (initD3D_frame os (window_created os m)) as Hv.
  cbv zeta in Hv. destruct Hv as (_ & _ & _ & _ & _ & _ & _ & Hv).
  destruct (Hv hr1 m1 E1 Hok1) as (Hdev & Hctx & _).
  rewrite E1, Hok1.
  destruct (initPipeline_succeeds os m1 H2 Hcom Hdev Hctx)
    as (hr2 & m2 & E2 & Hok2).
  pose proof (initPipeline_frame os m1) as Hp. cbv zeta in Hp.
  destruct Hp as (_ & _ & (_ & _ & Hd2 & Hc2 & _) & _).
  rewrite E2 in Hd2, Hc2. cbn [machine_of] in Hd2, Hc2.
  rewrite E2, Hok2, initGraphics_runs. cbv zeta.
  rewrite Hd2, Hc2, Hdev, Hctx. rewrite <- Hd2.
  rewrite (Hnever (CreateBuffer (pDevice_ (window m2)) bufferDesc
                     (Some vertices)) (log m2) eq_refl).
  cbv iota.
  rewrite (Hnever (CreateBuffer (pDevice_ (window m2)) bufferDesc
                     (Some vertices)) (log m2) eq_refl).
  eexists. reflexivity.
Qed.

Lemma no_input_assembly ctx l :
  extends before_input_assembly [] l ->
  topology_at ctx l = D3D11_PRIMITIVE_TOPOLOGY_UNDEFINED /\
  vertex_buffer_at ctx l = None.
Proof.
  intros H. induction H as [|c l' Hc _ IH]; [split; reflexivity|].
  destruct c; cbn in Hc; try destruct Hc; exact IH.
Qed.

(** X11.  When [init] has returned [false], no frame of the run draws the
    triangle: every draw call of the run is made with no primitive
    topology set and no vertex buffer bound, for as long as the run
    lasts (nothing after [init] sets them); and in a run that has not
    died there is one draw per frame presented. *)
Theorem failed_init_draws_nothing_bound fuel os storage m1 :
  init os (start storage) = Returned false m1 ->
  Forall draws_nothing_bound (draws (log (last_machine (main fuel os storage))))
  /\
  (died (main fuel os storage) = false ->
   List.length (draws (log (last_machine (main fuel os storage))))
     = frames_rendered (log (last_machine (main fuel os storage)))).
Proof.
  intros E.
  pose proof (init_failed_calls os _ m1 E) as Hquiet.
  cbn [start log] in Hquiet.
  destruct (main_frame fuel os storage) as (Hl & _).
  rewrite E in Hl. cbn [machine_of] in Hl.
  destruct (extends_loop_draws (window m1) (log m1) _ Hl) as (_ & _ & Hdraws).
  destruct (no_input_assembly (pDeviceContext_ (window m1)) (log m1) Hquiet)
    as (Ht & Hv).
  split.
  - apply Hdraws.
    + unfold draws_nothing_bound. cbn. split; assumption.
    + rewrite (extends_draws_quiet before_input_assembly [] (log m1));
        [constructor| |exact Hquiet].
      call_cases.
  - intros Hlive. rewrite length_draws.
    destruct (main_frames_inv fuel os storage Hlive) as (_ & _ & Hd & _).
    exact Hd.
Qed.

(** X12.  [init] does not look at the window handle.  Whether or not
    [CreateWindowExA] has returned a window, [init] stores the handle in
    [hWnd_] and goes on to create the device: it calls
    [D3D11CreateDevice] exactly once.  When the handle is null, it has
    called neither [ShowWindow] nor [SetWindowLongPtr]. *)
Theorem init_ignores_missing_window os m :
  let wnd := os_object os (window_request os (log m)) 0 in
  let m1 := machine_of (init os m) in
  hWnd_ (window m1) = wnd /\
  count is_D3D11CreateDevice (log m1)
    = S (count is_D3D11CreateDevice (log m)) /\
  (wnd = nullptr ->
   forall c, In c (log m1) ->
             match c with
             | ShowWindow _ _ | SetWindowLongPtr _ _ => In c (log m)
             | _ => True
             end).
Proof.
  intros wnd m1.
  pose proof (init_frame os m) as H. cbv zeta in H. fold m1 in H.
  destruct H as (_ & _ & Hh & Hl & _ & Hc & _).
  rewrite window_created_log in Hh, Hl.
  cbn [window log hWnd_ set_hWnd_] in Hh, Hl. fold wnd in Hh, Hl.
  split; [exact Hh|]. split; [exact Hc|].
  intros Hnull c Hin. rewrite Hnull in Hl. cbn in Hl.
  destruct (extends_In _ _ _ c Hl Hin) as [Hold|Hnew].
  - unfold window_request in Hold. cbn [In] in Hold.
    destruct c; try exact I;
      repeat (destruct Hold as [Hold|Hold]; [discriminate Hold|]);
      exact Hold.
  - destruct c; cbn in Hnew; try exact I; destruct Hnew.
Qed.

(** ** The F11 branch, further *)

(** X14.  The process can end without a word.  When the toggle itself
    succeeds and [ResizeBuffers] fails, F11 ends the process with status
    1 and nothing has been written to standard error: [resizeSwapChain]
    hands a failed [ResizeBuffers] back unreported, and [WindowProc] calls
    [exit] without reporting either.  The flag has been negated and
    [pRenderTargetView_] is null by then. *)
Theorem F11_can_exit_silently os m wnd lPar :
  never_fails os is_SetFullscreenState ->
  always_fails os is_ResizeBuffers ->
  valid os (pSwapChain_ (window m)) = true ->
  null_or_valid os (pRenderTargetView_ (window m)) = true ->
  exists m',
    WindowProc wnd WM_KEYDOWN VK_F11 lPar os m = Exited 1 m' /\
    count is_cerr (log m') = count is_cerr (log m) /\
    is_fullscreen_ (window m') = negb (is_fullscreen_ (window m)) /\
    pRenderTargetView_ (window m') = nullptr /\
    exists older, log m' = exit 1 :: ResizeBuffers
                                       (pSwapChain_ (window m)) 0
                                       (client_width os (toggled os m wnd))
                                       (client_height os (toggled os m wnd))
                                       DXGI_FORMAT_UNKNOWN 0 :: older.
Proof.
  intros Hnever Halways Hsc Hold.
  rewrite WindowProc_F11. cbv zeta. rewrite Hsc.
  rewrite resizeSwapChain_runs. cbv zeta.
  unfold toggled at 1 2.
  cbn [window pRenderTargetView_ pSwapChain_ set_is_fullscreen_].
  rewrite Hold, Hsc.
  rewrite Halways by reflexivity. cbv iota.
  rewrite Halways by reflexivity.
  eexists. split; [reflexivity|]. cbn [window log].
  split.
  { unfold toggled. cbn [window log pRenderTargetView_ set_is_fullscreen_].
    repeat rewrite Hnever by reflexivity.
    destruct (is_null _); reflexivity. }
  split; [reflexivity|]. split; [reflexivity|].
  eexists. reflexivity.
Qed.

Lemma to_UINT_range z : 0 <= to_UINT z < 2 ^ 32.
Proof. unfold to_UINT. apply Z.mod_pos_bound. lia. Qed.

(** X15.  F11 resizes the swap chain to the client rectangle.  The width
    and height that [WindowProc] passes to [ResizeBuffers] are the
    extents of the rectangle [GetClientRect] answers, as [UINT]s: the
    differences themselves for a rectangle whose right and bottom are not
    below its left and top, and the differences wrapped around [2^32] for
    one that is turned inside out.  When the resize succeeds, the last
    call is the viewport of that size. *)
Theorem F11_resizes_to_client_rect os m wnd lPar :
  let m' := machine_of (WindowProc wnd WM_KEYDOWN VK_F11 lPar os m) in
  let rect := os_rect os (log (toggled os m wnd)) in
  let width := to_UINT (right rect - left rect) in
  let height := to_UINT (bottom rect - top rect) in
  (valid os (pSwapChain_ (window m)) = true ->
   null_or_valid os (pRenderTargetView_ (window m)) = true ->
   In (ResizeBuffers (pSwapChain_ (window m)) 0 width height
         DXGI_FORMAT_UNKNOWN 0) (log m')) /\
  (0 <= width < 2 ^ 32 /\ 0 <= height < 2 ^ 32) /\
  (0 <= right rect - left rect < 2 ^ 32 -> width = right rect - left rect) /\
  (0 <= bottom rect - top rect < 2 ^ 32 -> height = bottom rect - top rect) /\
  (- 2 ^ 32 <= right rect - left rect < 0 ->
   width = right rect - left rect + 2 ^ 32) /\
  (- 2 ^ 32 <= bottom rect - top rect < 0 ->
   height = bottom rect - top rect + 2 ^ 32) /\
  (forall r m2,
     WindowProc wnd WM_KEYDOWN VK_F11 lPar os m = Returned r m2 ->
     In (ResizeBuffers (pSwapChain_ (window m)) 0 width height
           DXGI_FORMAT_UNKNOWN 0) (log m2) /\
     exists older,
       log m2 =
         RSSetViewports (pDeviceContext_ (window m)) 1
           (resize_viewport width height) :: older).
Proof.
  intros m' rect width height.
  assert (Hres : forall o,
            resizeSwapChain width height os (toggled os m wnd) = o ->
            (valid os (pSwapChain_ (window m)) = true ->
             null_or_valid os (pRenderTargetView_ (window m)) = true ->
             In (ResizeBuffers (pSwapChain_ (window m)) 0 width height
                   DXGI_FORMAT_UNKNOWN 0) (log (machine_of o))) /\
            (forall hr m2,
               o = Returned hr m2 ->
               In (ResizeBuffers (pSwapChain_ (window m)) 0 width height
                     DXGI_FORMAT_UNKNOWN 0) (log m2) /\
               (FAILED hr = false ->
                exists older,
                  log m2 =
                    RSSetViewports (pDeviceContext_ (window m)) 1
                      (resize_viewport width height) :: older))).
  { intros o <-. rewrite resizeSwapChain_runs. cbv zeta.
    assert (Hw : pRenderTargetView_ (window (toggled os m wnd))
                 = pRenderTargetView_ (window m) /\
                 pSwapChain_ (window (toggled os m wnd))
                 = pSwapChain_ (window m) /\
                 pDevice_ (window (toggled os m wnd)) = pDevice_ (window m) /\
                 pDeviceContext_ (window (toggled os m wnd))
                 = pDeviceContext_ (window m))
      by (repeat split).
    destruct Hw as (-> & -> & -> & ->).
    generalize (toggled os m wnd). intros mt.
    repeat match goal with
           | |- context [if ?b then _ else _] =>
               lazymatch b with
               | is_null _ => fail
               | _ => destruct b eqn:?
               end
           end;
      (split;
       [intros Hsc Hold; try discriminate Hsc; try discriminate Hold;
        cbn [machine_of log In]; tauto|]);
      intros hr m2 E; try discriminate E; injection E as <- <-;
      (split; [cbn [log In]; tauto|]); intros Hok;
      try (exfalso; congruence).
    eexists. reflexivity. }
  split.
  { intros Hsc Hold. unfold m'. rewrite WindowProc_F11. cbv zeta.
    rewrite Hsc. unfold client_width, client_height.
    fold rect. fold width. fold height.
    destruct (Hres _ eq_refl) as (Hin & _). specialize (Hin Hsc Hold).
    revert Hin.
    destruct (resizeSwapChain width height os (toggled os m wnd))
      as [hr m2| |];
      [destruct (FAILED hr)| |]; cbn [machine_of log In]; tauto. }
  split; [split; apply to_UINT_range|].
  split.
  { intros Hrange. unfold width, to_UINT. apply Z.mod_small. exact Hrange. }
  split.
  { intros Hrange. unfold height, to_UINT. apply Z.mod_small. exact Hrange. }
  split.
  { intros Hrange. unfold width, to_UINT.
    rewrite <- (Z.mod_add _ 1) by lia. apply Z.mod_small. lia. }
  split.
  { intros Hrange. unfold height, to_UINT.
    rewrite <- (Z.mod_add _ 1) by lia. apply Z.mod_small. lia. }
  intros r m3. rewrite WindowProc_F11. cbv zeta.
  destruct (valid os (pSwapChain_ (window m))); [|discriminate].
  unfold client_width, client_height. fold rect. fold width. fold height.
  destruct (Hres _ eq_refl) as (_ & Hret). revert Hret.
  destruct (resizeSwapChain width height os (toggled os m wnd))
    as [hr m2| |]; intros Hret; try discriminate.
  destruct (Hret hr m2 eq_refl) as (Hin & Hview).
  destruct (FAILED hr) eqn:Hhr; [discriminate|].
  intros [= _ <-]. split; [exact Hin | apply Hview; reflexivity].
Qed.

(** ** Where the process can end by [exit] *)

Lemma mainloop_body_exits msg os m status m' :
  mainloop_body msg os m = Exited status m' ->
  exists q,
    os_message os (PeekMessage PM_REMOVE :: log m) = Some q /\
    WindowProc (hwnd q) (message q) (wParam q) (lParam q) os (dispatched m q)
      = Exited status m'.
Proof.
  intros Hexit.
  destruct (os_message os (PeekMessage PM_REMOVE :: log m)) as [q|] eqn:Hq.
  - exists q. split; [reflexivity|].
    rewrite (mainloop_body_message msg os m q Hq) in Hexit.
    destruct (for_our_window m q); [|discriminate].
    destruct (WindowProc _ _ _ _ _ _); try discriminate.
    injection Hexit as <- <-. reflexivity.
  - rewrite (mainloop_body_no_message msg os m Hq) in Hexit.
    pose proof (renderFrame_frame os (peeked m)) as H. cbv zeta in H.
    destruct H as (_ & _ & _ & Hnx).
    destruct (renderFrame os (peeked m)) as [hr m2|s2 m2|m2];
      try discriminate.
    destruct (Hnx s2 m2 eq_refl).
Qed.

Lemma mainloop_from_exits fuel : forall msg os m status m',
  mainloop_from fuel msg os m = Finished (Exited status m') ->
  exists msg0 m0, mainloop_body msg0 os m0 = Exited status m'.
Proof.
  induction fuel as [|fuel IH]; intros msg os m status m';
    cbn [mainloop_from]; destruct (loop_condition msg); try discriminate.
  destruct (mainloop_body msg os m) as [msg1 m1|status1 m1|m1] eqn:Hbody.
  - apply IH.
  - intros [= <- <-]. exists msg, m. exact Hbody.
  - discriminate.
Qed.

(** X17.  The one deliberate way out.  [init], [renderFrame],
    [toggleFullscreen] and [resizeSwapChain] never call [exit], whatever
    the environment answers.  [WindowProc] ends the process by [exit] in
    one case only, with status 1: the message is [WM_KEYDOWN] with
    [VK_F11], the toggle has gone through the swap chain, and
    [resizeSwapChain], called after the toggle, has returned a failed
    [HRESULT]; and in that case it always does.  A run of [main] that
    ends by [exit] ends there, with status 1. *)
Theorem only_failed_resize_exits os :
  (forall m status m', init os m <> Exited status m') /\
  (forall m status m', renderFrame os m <> Exited status m') /\
  (forall m status m', toggleFullscreen os m <> Exited status m') /\
  (forall m width height status m',
     resizeSwapChain width height os m <> Exited status m') /\
  (forall wnd msg wPar lPar m status m',
     WindowProc wnd msg wPar lPar os m = Exited status m' <->
     msg = WM_KEYDOWN /\ wPar = VK_F11 /\ status = 1 /\
     valid os (pSwapChain_ (window m)) = true /\
     exists hr m2,
       resizeSwapChain (client_width os (toggled os m wnd))
         (client_height os (toggled os m wnd)) os (toggled os m wnd)
         = Returned hr m2 /\
       FAILED hr = true /\
       m' = {| window := window m2; Time := Time m2;
               log := exit 1 :: log m2 |}) /\
  (forall fuel storage status m',
     main fuel os storage = Finished (Exited status m') ->
     status = 1 /\
     exists m wnd hr m2,
       resizeSwapChain (client_width os (toggled os m wnd))
         (client_height os (toggled os m wnd)) os (toggled os m wnd)
         = Returned hr m2 /\
       FAILED hr = true /\
       log m' = exit 1 :: log m2).
Proof.
  split; [intros m; apply init_never_exits|].
  split.
  { intros m. pose proof (renderFrame_frame os m) as H. cbv zeta in H.
    destruct H as (_ & _ & _ & H). exact H. }
  split.
  { intros m status m'. rewrite toggleFullscreen_runs. cbv zeta.
    destruct (valid os _); discriminate. }
  split.
  { intros m width height.
    pose proof (resizeSwapChain_frame os m width height) as H.
    cbv zeta in H. destruct H as (_ & _ & _ & _ & H). exact H. }
  split; [intros; apply WindowProc_exits|].
  intros fuel storage status m' Hmain. unfold main in Hmain.
  destruct (init os (start storage)) as [b m1|s1 m1|m1] eqn:Hinit;
    [|destruct (init_never_exits os _ _ _ Hinit)|discriminate].
  destruct (mainloop fuel os m1) as [[[] m2|status2 m2|m2]|m2] eqn:Hloop;
    try discriminate.
  injection Hmain as <- <-.
  destruct (mainloop_from_exits fuel MSG_zero os m1 status2 m2 Hloop)
    as (msg0 & m0 & Hbody).
  destruct (mainloop_body_exits msg0 os m0 status2 m2 Hbody) as (q & _ & Hw).
  apply WindowProc_exits in Hw.
  destruct Hw as (_ & _ & -> & _ & hr & m3 & E & Hfail & ->).
  split; [reflexivity|].
  exists (dispatched m0 q), (hwnd q), hr, m3. repeat split; assumption.
Qed.

(** ** A run that does not die *)




End Properties.

(** * The theorems on concrete runs *)

(** The scripted environments follow the rule of COM: a call that
    succeeds hands out a fresh address, and every address but null holds
    an object. *)
Lemma scripted_hands_out fails script :
  hands_out_objects (scripted fails script).
Proof.
  intros c l k _ Hok. unfold valid, scripted in *.
  cbn [os_hresult os_object os_valid scripted_hresult scripted_object] in *.
  destruct (fails c); [discriminate Hok|].
  rewrite andb_true_r. apply negb_true_iff. apply N.eqb_neq.
  cbn [List.length]. unfold nullptr. lia.
Qed.

(** The answer of a concrete run: from [E : run = Returned x m], with [x]
    and [m] variables, to the value [v] and the machine the run computes. *)
Ltac evaluated E v :=
  lazymatch type of E with
  | ?run = Returned _ _ =>
      let H := fresh in
      assert (H : run = Returned v (machine_of run))
        by (vm_compute; reflexivity);
      rewrite E in H; injection H as ->
  end.

(** The hypotheses of a theorem on a concrete run: the environment
    follows the rule of COM, and the rest is computed. *)
Ltac discharged :=
  lazymatch goal with
  | |- hands_out_objects _ => apply scripted_hands_out
  | |- _ = _ => vm_compute; reflexivity
  end.

(** The machine of [E : run = Returned v m], in place of [m]. *)
Ltac computed E :=
  lazymatch type of E with
  | ?run = Returned ?v ?m =>
      change m with (machine_of (Returned v m)); rewrite <- E
  end.

Ltac computed_in E H :=
  lazymatch type of E with
  | ?run = Returned ?v ?m =>
      change m with (machine_of (Returned v m)) in H; rewrite <- E in H
  end.


(** A failing [SetFullscreenState]: the flag says fullscreen, the swap
    chain is windowed. *)
Lemma toggle_not_rolled_back_witness :
  exists m',
    toggleFullscreen (scripted fullscreen_fails []) (ready fullscreen_fails [])
      = Returned tt m' /\
    is_fullscreen_ (window m') = true /\
    swapchain_fullscreen (scripted fullscreen_fails [])
      (pSwapChain_ (window (ready fullscreen_fails []))) (log m') = false /\
    swapchain_fullscreen (scripted fullscreen_fails [])
      (pSwapChain_ (window (ready fullscreen_fails []))) (log m')
    <> is_fullscreen_ (window m').
Proof.
  destruct (toggle_not_rolled_back (scripted fullscreen_fails [])
              (ready fullscreen_fails []))
    as (m' & E & _ & Hflag & Hsame & Hapart).
  - vm_compute. reflexivity.
  - vm_compute. reflexivity.
  - exists m'. split; [exact E|]. split.
    + etransitivity; [exact Hflag | vm_compute; reflexivity].
    + split.
      * etransitivity; [exact Hsame | vm_compute; reflexivity].
      * apply Hapart. vm_compute. reflexivity.
Defined.

(** The window is destroyed: the loop dispatches [WM_DESTROY],
    [WindowProc] posts the quit message, the next [PeekMessage] retrieves
    it, and [main] returns 0 after these two iterations. *)
Lemma closing_the_window_exits_witness :
  exists m',
    @main stand_in 2
      (scripted nothing_fails [Some (window_message WM_DESTROY)]) zeroed
    = Finished (Returned 0 m') /\
    In (PostQuitMessage 0) (log m').
Proof.
  destruct (closing_the_window_exits (math := stand_in)
              (scripted nothing_fails [Some (window_message WM_DESTROY)]))
    as (_ & Hmain & _).
  apply (Hmain 0%nat zeroed true
           (ready nothing_fails [Some (window_message WM_DESTROY)])
           (window_message WM_DESTROY) quit_message);
    vm_compute; reflexivity.
Defined.

(** No device: [init] reports it and returns [false], and the first
    iteration of the loop is the last thing the process does. *)
Lemma failed_device_creation_ends_the_run_witness :
  (exists m1,
     init (scripted device_creation_fails []) (start zeroed)
       = Returned false m1 /\
     In (cerr "Failed to create device") (log m1) /\
     valid (scripted device_creation_fails [])
       (pDeviceContext_ (window m1)) = false) /\
  exists m',
    @main stand_in 3 (scripted device_creation_fails []) zeroed
      = Finished (Faulted m') /\
    Time m' = Time_after 1 /\
    frames_rendered (log m') = 0%nat.
Proof.
  pose proof (failed_device_creation_ends_the_run (math := stand_in)
                (scripted device_creation_fails []) zeroed 2) as H.
  cbv zeta in H.
  destruct H as (Hinit & Hmain & _); try (vm_compute; reflexivity).
  split.
  - eexists. split; [exact Hinit|]. cbn [log window In].
    split; [left; reflexivity | vm_compute; reflexivity].
  - eexists. split; [exact Hmain|]. cbn [Time log].
    split; [reflexivity | vm_compute; reflexivity].
Defined.



(** Two frames after a successful start: one constant buffer, created
    once, two updates, and no write to the vertex buffer. *)
Lemma constant_buffer_lifecycle_witness :
  created_exactly_once (scripted nothing_fails [])
    (log (run_main 2 nothing_fails [])) /\
  count is_UpdateSubresource (log (run_main 2 nothing_fails [])) = 2%nat /\
  forall c,
    In c (log (run_main 2 nothing_fails [])) ->
    buffer_written c
    <> Some (pVertexBuffer_ (window (run_main 2 nothing_fails []))).
Proof.
  destruct (constant_buffer_lifecycle (math := stand_in) 2
              (scripted nothing_fails []) zeroed)
    as (_ & _ & _ & _ & _ & Hone & _ & Hframes & _ & Hvb).
  split.
  - destruct (Hone (ready nothing_fails []))
      as (_ & older & later & Hlog & _ & Honce);
      [vm_compute; reflexivity|].
    apply Honce. reflexivity.
  - split.
    + etransitivity; [apply Hframes; vm_compute; reflexivity|].
      vm_compute. reflexivity.
    + apply Hvb. vm_compute. discriminate.
Defined.

(** Two frames after a successful start: both draw the triangle, and
    [Time] has been advanced twice. *)
Lemma every_frame_draws_the_triangle_witness :
  Forall
    (fun d =>
       d = {| draw_VertexCount := 3;
              draw_StartVertexLocation := 0;
              draw_topology := D3D11_PRIMITIVE_TOPOLOGY_TRIANGLELIST;
              draw_vertex_buffer :=
                Some (pVertexBuffer_ (window (ready nothing_fails [])),
                      sizeof_Vertex, 0) |})
    (draws (log (run_main 2 nothing_fails []))) /\
  List.length (draws (log (run_main 2 nothing_fails []))) = 2%nat /\
  Time (run_main 2 nothing_fails []) = Time_after 2.
Proof.
  destruct (every_frame_draws_the_triangle (math := stand_in) 2
              (scripted nothing_fails []) zeroed)
    as (_ & _ & Hrun & _ & Hinit).
  destruct (Hinit (ready nothing_fails []))
    as (older & _ & _ & _ & _ & Hall & _); [vm_compute; reflexivity|].
  destruct Hrun as (Hlen & Ht & _); [vm_compute; reflexivity|].
  split; [exact Hall|]. split.
  - etransitivity; [exact Hlen | vm_compute; reflexivity].
  - etransitivity; [exact Ht | vm_compute; reflexivity].
Defined.

(** The three failures.  No device: [init] returns [false], the members
    are as the storage had them, and the run ends in the first frame.  No
    shaders, or no vertex buffer: [init] returns [false] and the frame is
    rendered in full. *)
Lemma failed_init_still_renders_witness :
  (exists m1,
     init (scripted device_creation_fails []) (start zeroed)
       = Returned false m1 /\
     pConstBuffer_ (window m1) = nullptr /\
     died (@main stand_in 1 (scripted device_creation_fails []) zeroed)
       = true /\
     Time (run_main 1 device_creation_fails []) = Time_after 1) /\
  (exists m1 rest,
     init (scripted shader_compilation_fails []) (start zeroed)
       = Returned false m1 /\
     log (run_main 1 shader_compilation_fails []) =
     rest
     ++ rev (frame_calls (math := stand_in) (window m1) (Time_after 1))
     ++ PeekMessage PM_REMOVE :: log m1) /\
  (exists m1 rest,
     init (scripted vertex_buffer_creation_fails []) (start zeroed)
       = Returned false m1 /\
     log (run_main 1 vertex_buffer_creation_fails []) =
     rest
     ++ rev (frame_calls (math := stand_in) (window m1) (Time_after 1))
     ++ PeekMessage PM_REMOVE :: log m1).
Proof.
  split; [|split].
  - destruct (failed_init_still_renders (math := stand_in)
                (scripted device_creation_fails []) zeroed)
      as (_ & Hframe & Hdev & _).
    destruct Hdev as (m1 & E & _ & _ & _ & _ & _ & _ & Hcb);
      [vm_compute; reflexivity|].
    exists m1. split; [exact E|]. split; [exact Hcb|].
    destruct (Hframe 0%nat m1 E) as (_ & _ & Ht & _ & Hdies).
    { computed E. vm_compute. reflexivity. }
    split.
    + rewrite Hdies; [reflexivity|].
      computed E. vm_compute. reflexivity.
    + unfold run_main. rewrite Hdies; [reflexivity|].
      computed E. vm_compute. reflexivity.
  - destruct (failed_init_still_renders (math := stand_in)
                (scripted shader_compilation_fails []) zeroed)
      as (_ & Hframe & _ & Hshader & _).
    destruct (Hshader S_OK (device_ready shader_compilation_fails))
      as (m1 & E & _ & _ & _ & _ & _ & _ & Hctx & Hsc);
      try (vm_compute; reflexivity).
    { left. split; vm_compute; reflexivity. }
    destruct (Hframe 0%nat m1 E) as (_ & _ & _ & Hfull & _).
    { computed E. vm_compute. reflexivity. }
    destruct (Hfull Hctx Hsc) as (rest & Hlog).
    exists m1, rest. split; [exact E | exact Hlog].
  - destruct (failed_init_still_renders (math := stand_in)
                (scripted vertex_buffer_creation_fails []) zeroed)
      as (_ & Hframe & _ & _ & Hbuffer).
    destruct (Hbuffer S_OK (device_ready vertex_buffer_creation_fails) S_OK
                (machine_of
                   (initPipeline (scripted vertex_buffer_creation_fails [])
                      (device_ready vertex_buffer_creation_fails))))
      as (m1 & E & _ & Hctx & Hsc);
      try (vm_compute; reflexivity).
    destruct (Hframe 0%nat m1 E) as (_ & _ & _ & Hfull & _).
    { computed E. vm_compute. reflexivity. }
    destruct (Hfull Hctx Hsc) as (rest & Hlog).
    exists m1, rest. split; [exact E | exact Hlog].
Defined.

(** A whole session: a frame, F11, the window destroyed, the quit
    message.  [main] returns 0 with one frame rendered, the flag set, the
    swap chain fullscreen, and [PostQuitMessage] called. *)
Example a_session :
  exists m,
    @main stand_in 5 (scripted nothing_fails session) zeroed
    = Finished (Returned 0 m) /\
    frames_rendered (log m) = 1%nat /\
    is_fullscreen_ (window m) = true /\
    swapchain_fullscreen (scripted nothing_fails session)
      (pSwapChain_ (window m)) (log m) = true /\
    In (PostQuitMessage 0) (log m).
Proof.
  eexists. split; [vm_compute; reflexivity|].
  cbn [log window is_fullscreen_ pSwapChain_].
  split; [vm_compute; reflexivity|]. split; [reflexivity|].
  split; [vm_compute; reflexivity|].
  do 3 right. left. reflexivity.
Qed.

(** F11 when the swap chain cannot be resized: the process exits with
    status 1 in the middle of the second iteration. *)
Example a_failed_resize :
  exists m,
    @main stand_in 4 (scripted resize_fails failing_session) zeroed
    = Finished (Exited 1 m) /\
    frames_rendered (log m) = 1%nat.
Proof.
  eexists. split; [vm_compute; reflexivity|]. vm_compute. reflexivity.
Qed.

(** ** The further properties on concrete runs *)

Lemma untested_calls_fail_tested script :
  never_fails (scripted untested_calls_fail script) checked_by_init.
Proof.
  intros c l H. cbn. unfold untested_calls_fail. rewrite H. reflexivity.
Qed.

Lemma untested_calls_fail_GetBuffer script :
  never_fails (scripted untested_calls_fail script) is_GetBuffer.
Proof.
  intros c l H. cbn. unfold untested_calls_fail. rewrite H, orb_true_r.
  reflexivity.
Qed.

(** [resizeSwapChain] where nothing fails, and where [ResizeBuffers]
    does. *)
Lemma resizeSwapChain_all_or_nothing_witness :
  (exists m',
     resizeSwapChain 800 600 (scripted nothing_fails [])
       (ready nothing_fails []) = Returned S_OK m') /\
  exists hr m',
    resizeSwapChain 800 600 (scripted resize_fails []) (ready resize_fails [])
      = Returned hr m' /\
    FAILED hr = true /\
    count sets_up_rendering (log m')
      = count sets_up_rendering (log (ready resize_fails [])).
Proof.
  split.
  - destruct (resizeSwapChain_all_or_nothing (scripted nothing_fails [])
                (ready nothing_fails []) 800 600)
      as (Hruns & Hret).
    destruct Hruns as (hr & m' & E);
      try discharged.
    destruct (Hret hr m' E) as (_ & _ & _ & _ & _).
    evaluated E S_OK. eexists. exact E.
  - destruct (resizeSwapChain_all_or_nothing (scripted resize_fails [])
                (ready resize_fails []) 800 600)
      as (Hruns & Hret).
    destruct Hruns as (hr & m' & E);
      try discharged.
    destruct (Hret hr m' E) as (_ & _ & _ & _ & Hbad).
    evaluated E E_FAIL.
    do 2 eexists. split; [exact E|]. split; [reflexivity|].
    exact (Hbad eq_refl).
Defined.

(** A failing [ResizeBuffers]: nothing on standard error, and a null
    [pRenderTargetView_]. *)
Lemma resizeSwapChain_releases_witness :
  exists hr m',
    resizeSwapChain 800 600 (scripted resize_fails []) (ready resize_fails [])
      = Returned hr m' /\
    FAILED hr = true /\
    pRenderTargetView_ (window (ready resize_fails [])) <> nullptr /\
    pRenderTargetView_ (window m') = nullptr.
Proof.
  pose proof (resizeSwapChain_releases (scripted resize_fails [])
                (ready resize_fails []) 800 600) as H.
  cbv zeta in H. destruct H as (Hruns & Hret).
  destruct Hruns as (hr & m' & E);
    try discharged.
  destruct (Hret hr m' E) as (_ & _ & _ & Hnull).
  evaluated E E_FAIL.
  do 2 eexists. split; [exact E|]. split; [reflexivity|].
  split; [vm_compute; discriminate|].
  apply Hnull; [reflexivity | computed E; vm_compute; reflexivity].
Defined.

(** A session with one F11, at its end: the flag is set, and there has
    been one toggle and one resize. *)
Lemma flag_follows_toggles_witness :
  is_fullscreen_ (window (run_main 5 nothing_fails session)) = true /\
  count is_ResizeBuffers (log (run_main 5 nothing_fails session)) = 1%nat.
Proof.
  destruct (flag_follows_toggles (math := stand_in) 5
              (scripted nothing_fails session) zeroed)
    as (Hinv & _).
  destruct Hinv as (Hflag & Hres); [vm_compute; reflexivity|].
  split.
  - etransitivity; [exact Hflag | vm_compute; reflexivity].
  - etransitivity; [exact Hres | vm_compute; reflexivity].
Defined.

(** The same session: four calls of [PeekMessage], one frame and three
    messages. *)
Lemma peeks_accounted_for_witness :
  count is_PeekMessage (log (run_main 5 nothing_fails session)) = 4%nat /\
  count is_DispatchMessage (log (run_main 5 nothing_fails session)) = 3%nat.
Proof.
  destruct (peeks_accounted_for (math := stand_in) 5
              (scripted nothing_fails session) zeroed)
    as (_ & Hinv).
  destruct Hinv as (Hpeeks & Hdispatched); [vm_compute; reflexivity|].
  split.
  - etransitivity; [exact Hpeeks | vm_compute; reflexivity].
  - etransitivity; [exact Hdispatched | vm_compute; reflexivity].
Defined.

(** A failing [D3D11CreateDevice]: one line on standard error, and no
    render target bound. *)
Lemma initD3D_reports_what_it_detects_witness :
  exists hr m',
    initD3D (scripted device_creation_fails []) (start zeroed)
      = Returned hr m' /\
    FAILED hr = true /\
    count is_cerr (log m') = 1%nat /\
    count sets_up_rendering (log m') = 0%nat.
Proof.
  destruct (initD3D_reports_what_it_detects
              (scripted device_creation_fails []) (start zeroed))
    as (Hruns & _ & Hret).
  destruct Hruns as (hr & m' & E); [apply scripted_hands_out| |].
  { intros c l H. destruct c; try discriminate H; reflexivity. }
  destruct (Hret hr m' E) as (Hcerr & Hbad).
  evaluated E E_FAIL.
  do 2 eexists. split; [exact E|]. split; [reflexivity|].
  split; [exact Hcerr|]. destruct (Hbad eq_refl) as (_ & Hnone). exact Hnone.
Defined.

(** [CreateRenderTargetView] fails and [initD3D] returns success with a
    null [pRenderTargetView_]; [GetBuffer] fails and the process dies in
    the release of the back buffer that is not there. *)
Lemma initD3D_ignores_view_failures_witness :
  (exists hr m',
     initD3D (scripted view_creation_fails []) (start zeroed)
       = Returned hr m' /\
     FAILED hr = false /\
     pRenderTargetView_ (window m') = nullptr /\
     count is_Release (log m') = 4%nat) /\
  exists m',
    initD3D (scripted GetBuffer_fails []) (start zeroed) = Faulted m' /\
    count is_Release (log m') = 3%nat.
Proof.
  split.
  - pose proof (initD3D_ignores_view_failures (scripted view_creation_fails [])
                  (start zeroed)) as H.
    cbv zeta in H.
    destruct H as (sc & older & _ & Hvalid & _).
    { intros c l H. destruct c; try discriminate H; reflexivity. }
    { apply scripted_hands_out. }
    destruct Hvalid as (hr & m' & E & Hok & _ & _ & Hrel & _ & Hview).
    { apply scripted_hands_out; reflexivity. }
    exists hr, m'. split; [exact E|]. split; [exact Hok|].
    split; [rewrite Hview; reflexivity | exact Hrel].
  - pose proof (initD3D_ignores_view_failures (scripted GetBuffer_fails [])
                  (start zeroed)) as H.
    cbv zeta in H.
    destruct H as (sc & older & Hthree & _ & Hinvalid).
    { intros c l H. destruct c; try discriminate H; reflexivity. }
    { apply scripted_hands_out. }
    destruct Hinvalid as (m' & E & Hlog & _); [reflexivity|].
    exists m'. split; [exact E|]. rewrite Hlog.
    etransitivity; [|exact Hthree]. reflexivity.
Defined.

(** A failing [GetAdapter]: the DXGI device that [QueryInterface] handed
    out is not null, and nothing is released. *)
Lemma initD3D_GetAdapter_failure_releases_nothing_witness :
  exists hr m' dxgiDevice older,
    initD3D (scripted GetAdapter_fails []) (start zeroed) = Returned hr m' /\
    FAILED hr = true /\
    log m' = cerr "Failed to GetAdapter from device"
               :: GetAdapter dxgiDevice :: older /\
    dxgiDevice <> nullptr /\
    count is_Release (log m') = 0%nat.
Proof.
  destruct (initD3D_GetAdapter_failure_releases_nothing
              (scripted GetAdapter_fails []) (start zeroed))
    as (hr & m' & dxgiDevice & older & E & Hbad & Hlog & Hdev & _ & Hrel).
  - intros c l H. destruct c; try discriminate H; reflexivity.
  - intros c l H. destruct c; try discriminate H; reflexivity.
  - apply scripted_hands_out.
  - exists hr, m', dxgiDevice. eexists.
    split; [exact E|]. split; [exact Hbad|]. split; [exact Hlog|].
    split; [|exact Hrel].
    rewrite Hdev. cbn. discriminate.
Defined.

(** Shaders that do not compile, with an error blob: the text of the blob
    on standard error, the blob released, nothing created. *)
Lemma initPipeline_failure_creates_nothing_witness :
  exists hr m' errorBlob older,
    initPipeline shaders_rejected (start zeroed) = Returned hr m' /\
    FAILED hr = true /\
    window m' = window (start zeroed) /\
    count creates_pipeline_object (log m') = 0%nat /\
    log m' = Release errorBlob :: cerr "error X3000: syntax error" :: older.
Proof.
  pose proof (initPipeline_failure_creates_nothing shaders_rejected
                (start zeroed)) as H.
  cbv zeta in H. destruct H as (Hruns & _ & Hret).
  destruct Hruns as (hr & m' & E & Hfail).
  { left. split; vm_compute; reflexivity. }
  destruct (Hret hr m' E Hfail)
    as (Hwindow & Hnone & [(Hsilent & _)|(errorBlob & older & Hlog & _)]).
  - exfalso. evaluated E E_FAIL. computed_in E Hsilent.
    vm_compute in Hsilent. discriminate Hsilent.
  - evaluated E E_FAIL.
    do 4 eexists. split; [exact E|]. split; [reflexivity|].
    split; [exact Hwindow|]. split; [exact Hnone|]. exact Hlog.
Defined.

(** A pixel shader that does not compile: one release, of the error blob,
    and none of the vertex shader's blob. *)
Lemma initPipeline_pixel_failure_keeps_vertex_blob_witness :
  exists hr m',
    initPipeline pixel_shader_rejected (start zeroed) = Returned hr m' /\
    FAILED hr = true /\
    count is_Release (log m') = 1%nat /\
    ~ In (Release
            (os_object pixel_shader_rejected
               [D3DCompile vertexShaderSrc "VSMain" "vs_5_0"] 0))
         (log m').
Proof.
  pose proof (initPipeline_pixel_failure_keeps_vertex_blob
                pixel_shader_rejected (start zeroed)) as H.
  cbv zeta in H.
  destruct H as (hr & m' & E & Hbad & _ & Hlog & _ & Hkept).
  - intros c l H. destruct c; try discriminate H.
    cbn in H |- *. apply String.eqb_eq in H. subst. reflexivity.
  - intros c l H. destruct c; try discriminate H.
    cbn in H |- *. rewrite H. reflexivity.
  - vm_compute. reflexivity.
  - exists hr, m'. split; [exact E|]. split; [exact Hbad|].
    split; [rewrite Hlog; vm_compute; reflexivity|].
    intros Hin. apply Hkept in Hin; [exact Hin|].
    vm_compute. discriminate.
Defined.

(** Shaders that compile, on a live device, and creation calls that all
    fail: [initPipeline] succeeds, and keeps a null constant buffer. *)
Lemma initPipeline_success_witness :
  valid (scripted pipeline_creations_fail [])
    (pDevice_ (window (device_ready pipeline_creations_fail))) = true /\
  exists hr m',
    initPipeline (scripted pipeline_creations_fail [])
      (device_ready pipeline_creations_fail) = Returned hr m' /\
    FAILED hr = false /\
    count creates_pipeline_object (log m') = 4%nat /\
    pConstBuffer_ (window m') = nullptr.
Proof.
  split; [vm_compute; reflexivity|].
  destruct (initPipeline_success (scripted pipeline_creations_fail [])
              (device_ready pipeline_creations_fail))
    as (Hruns & Hret).
  destruct Hruns as (hr & m' & E & Hok);
    try (vm_compute; reflexivity).
  { intros c l H. destruct c; try discriminate H; reflexivity. }
  { apply scripted_hands_out. }
  destruct (Hret hr m' E Hok) as (_ & Hfour & _ & _ & _ & older & _ & Hbuffer).
  exists hr, m'. split; [exact E|]. split; [exact Hok|].
  split; [etransitivity; [exact Hfour | vm_compute; reflexivity]
         | rewrite Hbuffer; reflexivity].
Defined.

(** Every call that [init] does not test fails, but [GetBuffer]; the
    creation of the window fails too; and [init] returns [true]. *)
Lemma init_succeeds_when_tested_calls_do_witness :
  exists m1,
    init (scripted untested_calls_fail []) (start zeroed) = Returned true m1.
Proof.
  apply (init_succeeds_when_tested_calls_do (scripted untested_calls_fail [])
           (start zeroed)).
  - apply untested_calls_fail_tested.
  - apply untested_calls_fail_GetBuffer.
  - apply scripted_hands_out.
Defined.

(** No vertex buffer: the two frames of the run draw with nothing
    bound. *)
Lemma failed_init_draws_nothing_bound_witness :
  Forall draws_nothing_bound
    (draws (log (run_main 2 vertex_buffer_creation_fails []))) /\
  List.length (draws (log (run_main 2 vertex_buffer_creation_fails [])))
    = 2%nat.
Proof.
  destruct (failed_init_draws_nothing_bound (math := stand_in) 2
              (scripted vertex_buffer_creation_fails []) zeroed
              (ready vertex_buffer_creation_fails []))
    as (Hall & Hlen).
  - vm_compute. reflexivity.
  - split; [exact Hall|].
    etransitivity; [apply Hlen | ]; vm_compute; reflexivity.
Defined.

(** No window, and nothing else amiss: [init] keeps the null handle,
    shows no window, creates the device, and returns [true]. *)
Lemma init_ignores_missing_window_witness :
  exists m1,
    init (scripted window_creation_fails []) (start zeroed)
      = Returned true m1 /\
    hWnd_ (window m1) = nullptr /\
    count is_D3D11CreateDevice (log m1) = 1%nat /\
    forall wnd cmd, ~ In (ShowWindow wnd cmd) (log m1).
Proof.
  pose proof (init_ignores_missing_window (scripted window_creation_fails [])
                (start zeroed)) as H.
  cbv zeta in H. destruct H as (Hhandle & Hdevice & Hnone).
  exists (machine_of
            (init (scripted window_creation_fails []) (start zeroed))).
  split; [vm_compute; reflexivity|]. split; [exact Hhandle|].
  split; [exact Hdevice|].
  intros wnd cmd Hin. exact (Hnone eq_refl _ Hin).
Defined.

(** A session with one F11: the flag and the swap chain are both
    fullscreen at the end. *)
Lemma flag_agrees_with_swap_chain_witness :
  swapchain_fullscreen (scripted nothing_fails session)
    (pSwapChain_ (window (run_main 5 nothing_fails session)))
    (log (run_main 5 nothing_fails session)) = true.
Proof.
  etransitivity.
  - apply (flag_agrees_with_swap_chain (math := stand_in) 5
             (scripted nothing_fails session) zeroed).
    + intros c l _. reflexivity.
    + vm_compute. reflexivity.
  - vm_compute. reflexivity.
Defined.

(** F11 with a failing [ResizeBuffers]: the process exits with status 1,
    and standard error is empty. *)
Lemma F11_can_exit_silently_witness :
  exists m',
    WindowProc scripted_window WM_KEYDOWN VK_F11 0
      (scripted resize_fails []) (ready resize_fails []) = Exited 1 m' /\
    count is_cerr (log m') = 0%nat.
Proof.
  destruct (F11_can_exit_silently (scripted resize_fails [])
              (ready resize_fails []) scripted_window 0)
    as (m' & E & Hcerr & _).
  - intros c l H. destruct c; try discriminate H; reflexivity.
  - intros c l H. destruct c; try discriminate H; reflexivity.
  - vm_compute. reflexivity.
  - vm_compute. reflexivity.
  - exists m'. split; [exact E|].
    etransitivity; [exact Hcerr | vm_compute; reflexivity].
Defined.

(** F11 on a client rectangle of 1920 by 1080: the swap chain is resized
    to that size. *)
Lemma F11_resizes_to_client_rect_witness :
  exists width height,
    In (ResizeBuffers (pSwapChain_ (window (ready nothing_fails []))) 0
          width height DXGI_FORMAT_UNKNOWN 0)
       (log
          (machine_of
             (WindowProc scripted_window WM_KEYDOWN VK_F11 0
                (scripted nothing_fails []) (ready nothing_fails [])))) /\
    width = 1920 /\ height = 1080.
Proof.
  pose proof (F11_resizes_to_client_rect (scripted nothing_fails [])
                (ready nothing_fails []) scripted_window 0) as H.
  cbv zeta in H. destruct H as (Hin & _ & Hwidth & Hheight & _).
  do 2 eexists. split; [apply Hin; vm_compute; reflexivity|].
  split.
  - etransitivity;
      [apply Hwidth; vm_compute; split; [discriminate | reflexivity]
      | reflexivity].
  - etransitivity;
      [apply Hheight; vm_compute; split; [discriminate | reflexivity]
      | reflexivity].
Defined.

(** F11 with a failing [ResizeBuffers]: the window procedure ends the
    process with status 1, and so ends the run of [main] that dispatches
    the key. *)
Lemma only_failed_resize_exits_witness :
  (exists m',
     WindowProc scripted_window WM_KEYDOWN VK_F11 0
       (scripted resize_fails []) (ready resize_fails []) = Exited 1 m') /\
  exists m wnd hr m2,
    resizeSwapChain
      (client_width (scripted resize_fails failing_session)
         (toggled (scripted resize_fails failing_session) m wnd))
      (client_height (scripted resize_fails failing_session)
         (toggled (scripted resize_fails failing_session) m wnd))
      (scripted resize_fails failing_session)
      (toggled (scripted resize_fails failing_session) m wnd)
    = Returned hr m2 /\
    FAILED hr = true /\
    log (run_main 4 resize_fails failing_session) = exit 1 :: log m2.
Proof.
  split.
  - destruct (only_failed_resize_exits (math := stand_in)
                (scripted resize_fails []))
      as (_ & _ & _ & _ & Hexit & _).
    eexists. apply Hexit. repeat split.
    exists E_FAIL,
      (machine_of
         (resizeSwapChain
            (client_width (scripted resize_fails [])
               (toggled (scripted resize_fails []) (ready resize_fails [])
                  scripted_window))
            (client_height (scripted resize_fails [])
               (toggled (scripted resize_fails []) (ready resize_fails [])
                  scripted_window))
            (scripted resize_fails [])
            (toggled (scripted resize_fails []) (ready resize_fails [])
               scripted_window))).
    split; [vm_compute; reflexivity|]. split; reflexivity.
  - destruct (only_failed_resize_exits (math := stand_in)
                (scripted resize_fails failing_session))
      as (_ & _ & _ & _ & _ & Hmain).
    destruct (Hmain 4%nat zeroed 1 (run_main 4 resize_fails failing_session))
      as (_ & m & wnd & hr & m2 & E & Hfail & Hlog).
    + vm_compute. reflexivity.
    + exists m, wnd, hr, m2. repeat split; assumption.
Defined.


(** * Where the specification and the code part *)


(** The specification has the constant buffer created exactly once at
    start-up.  When the shaders do not compile, [initPipeline] returns
    before it creates the buffer, and [init] returns [false] with no
    constant buffer created.  When the creation of the constant buffer
    itself fails, [initPipeline] does not notice: [init] returns [true],
    and no constant buffer has been created either. *)
Lemma constant_buffer_never_created_counterexample :
  (exists m1,
     init (scripted shader_compilation_fails []) (start zeroed)
       = Returned false m1 /\
     count creates_constant_buffer (log m1) = 0%nat /\
     ~ created_exactly_once (scripted shader_compilation_fails []) (log m1))
  /\
  (exists m1,
     init (scripted constant_buffer_creation_fails []) (start zeroed)
       = Returned true m1 /\
     constant_buffers_created (scripted constant_buffer_creation_fails [])
       (log m1) = 0%nat /\
     ~ created_exactly_once (scripted constant_buffer_creation_fails [])
         (log m1)).
Proof.
  split; eexists; (split; [vm_compute; reflexivity|]);
    unfold created_exactly_once; vm_compute;
    (split; [reflexivity | discriminate]).
Qed.

(** The specification has every frame draw with triangle-list topology over
    the vertex buffer created at start-up.  When the creation of the
    vertex buffer fails, [initGraphics] returns before it binds the buffer
    and sets the topology; the frame that follows draws three vertices
    with no topology set and no vertex buffer bound. *)
Lemma draw_without_vertex_buffer_counterexample :
  ~ Forall draws_one_triangle
      (draws (log (run_main 1 vertex_buffer_creation_fails []))) /\
  draws (log (run_main 1 vertex_buffer_creation_fails [])) =
  [ {| draw_VertexCount := 3;
       draw_StartVertexLocation := 0;
       draw_topology := D3D11_PRIMITIVE_TOPOLOGY_UNDEFINED;
       draw_vertex_buffer := None |} ].
Proof.
  assert (E : draws (log (run_main 1 vertex_buffer_creation_fails [])) =
              [ {| draw_VertexCount := 3;
                   draw_StartVertexLocation := 0;
                   draw_topology := D3D11_PRIMITIVE_TOPOLOGY_UNDEFINED;
                   draw_vertex_buffer := None |} ])
    by (vm_compute; reflexivity).
  split; [|exact E].
  rewrite E. intros Hall.
  apply Forall_inv in Hall. destruct Hall as (_ & _ & Htopology & _).
  discriminate Htopology.
Qed.
